(** * A shallow embedding of the unified virtual-memory simulator

    The development follows the C++ sources under [src/vm]: [Common.h],
    [PageTable], [PageAllocator], [TLB], [Policies], [MigrationManager] and
    the facade [VirtualMemoryManager].

    Modelling conventions.
    - [uint64_t], [size_t] and pointers are integers in [Z]; arithmetic that
      the source performs on unsigned machine words is wrapped explicitly
      with [wrap64] / [wrap32].  The null pointer is [0].
    - [std::unordered_map] is a [gmap], [std::unordered_set] a [gset],
      [std::vector] and [std::queue] are lists.
    - A [PageTableEntry*] obtained from [lookup_entry] points into the map,
      so a write through it is an [alter] of the map at that key.
    - The wall clock is an explicit stream of readings that is threaded
      through every function that calls [get_timestamp_us].
    - Locks, logging, worker threads and the byte contents of the pools are
      not part of the model. *)

From Stdlib Require Import ZArith Lia.
From stdpp Require Import gmap list fin_maps fin_sets.

Open Scope Z_scope.

(** ** Common.h *)

Module Common.

Definition wrap64 (z : Z) : Z := z mod 2 ^ 64.
Definition wrap32 (z : Z) : Z := z mod 2 ^ 32.

(** Reinterpretation of a 64-bit word as [ptrdiff_t]. *)
Definition to_ptrdiff (z : Z) : Z := (z + 2 ^ 63) mod 2 ^ 64 - 2 ^ 63.

Definition DEFAULT_PAGE_SIZE : Z := 64 * 1024.
Definition DEFAULT_VIRTUAL_ADDRESS_SPACE : Z := 256 * 1024 * 1024 * 1024.
Definition DEFAULT_GPU_MEMORY : Z := 4 * 1024 * 1024 * 1024.
Definition DEFAULT_TLB_SIZE : Z := 1024.
Definition DEFAULT_TLB_ASSOCIATIVITY : Z := 8.

Inductive PageReplacementPolicy := LRU | CLOCK.

Definition vaddr_to_vpn (vaddr page_size : Z) : Z := vaddr / page_size.

Definition vpn_to_vaddr (vpn page_size : Z) : Z := wrap64 (vpn * page_size).

Definition align_to_page (size page_size : Z) : Z :=
  wrap64 (wrap64 (wrap64 (wrap64 (size + page_size) - 1) / page_size) * page_size).

(** The byte-wise FNV-1a style mixing of [hash_vpn]. *)
Fixpoint hash_vpn_loop (n : nat) (i : Z) (vpn hash : Z) : Z :=
  match n with
  | O => hash
  | S n' =>
      let hash1 := Z.lxor hash (Z.land (Z.shiftr vpn (i * 8)) 255) in
      let hash2 := wrap32 (hash1 * 16777619) in
      hash_vpn_loop n' (i + 1) vpn hash2
  end.

Definition hash_vpn (vpn : Z) : Z := hash_vpn_loop 8 0 vpn 2166136261.

(** The wall clock: [ticks] lists every reading the process will ever
    obtain, [reads] counts how many were consumed. *)
Record Clock := mkClock { ticks : nat -> Z; reads : nat }.

Definition get_timestamp_us (c : Clock) : Z * Clock :=
  (wrap64 (ticks c (reads c)), mkClock (ticks c) (S (reads c))).

Record PerfCounters := mkPerf {
  total_page_faults : Z;
  cpu_to_gpu_migrations : Z;
  gpu_to_cpu_migrations : Z;
  total_bytes_migrated : Z;
  total_migration_time_us : Z;
  tlb_hits : Z;
  tlb_misses : Z;
  evictions : Z;
  kernel_launches : Z;
  page_prefetches : Z
}.

Definition zero_counters : PerfCounters := mkPerf 0 0 0 0 0 0 0 0 0 0.

Definition reset (_ : PerfCounters) : PerfCounters := zero_counters.

(** The three statements that follow every counted host-to-device copy:
    [cpu_to_gpu_migrations++; total_bytes_migrated += page_size;
     total_migration_time_us += mig_time]. *)
Definition count_cpu_to_gpu (page_size mig_time : Z) (p : PerfCounters) : PerfCounters :=
  mkPerf (total_page_faults p)
         (wrap64 (cpu_to_gpu_migrations p + 1))
         (gpu_to_cpu_migrations p)
         (wrap64 (total_bytes_migrated p + page_size))
         (wrap64 (total_migration_time_us p + mig_time))
         (tlb_hits p) (tlb_misses p) (evictions p) (kernel_launches p)
         (page_prefetches p).

(** The same for a device-to-host copy. *)
Definition count_gpu_to_cpu (page_size mig_time : Z) (p : PerfCounters) : PerfCounters :=
  mkPerf (total_page_faults p)
         (cpu_to_gpu_migrations p)
         (wrap64 (gpu_to_cpu_migrations p + 1))
         (wrap64 (total_bytes_migrated p + page_size))
         (wrap64 (total_migration_time_us p + mig_time))
         (tlb_hits p) (tlb_misses p) (evictions p) (kernel_launches p)
         (page_prefetches p).

Definition incr_page_faults (p : PerfCounters) : PerfCounters :=
  mkPerf (wrap64 (total_page_faults p + 1))
         (cpu_to_gpu_migrations p) (gpu_to_cpu_migrations p)
         (total_bytes_migrated p) (total_migration_time_us p)
         (tlb_hits p) (tlb_misses p) (evictions p) (kernel_launches p)
         (page_prefetches p).

Definition incr_evictions (p : PerfCounters) : PerfCounters :=
  mkPerf (total_page_faults p)
         (cpu_to_gpu_migrations p) (gpu_to_cpu_migrations p)
         (total_bytes_migrated p) (total_migration_time_us p)
         (tlb_hits p) (tlb_misses p) (wrap64 (evictions p + 1)) (kernel_launches p)
         (page_prefetches p).

Definition incr_page_prefetches (p : PerfCounters) : PerfCounters :=
  mkPerf (total_page_faults p)
         (cpu_to_gpu_migrations p) (gpu_to_cpu_migrations p)
         (total_bytes_migrated p) (total_migration_time_us p)
         (tlb_hits p) (tlb_misses p) (evictions p) (kernel_launches p)
         (wrap64 (page_prefetches p + 1)).

End Common.

Import Common.

(** ** PageTable.h / PageTable.cpp *)

Record PageTableEntry := mkPTE {
  resident_on_cpu : bool;
  resident_on_gpu : bool;
  is_dirty : bool;
  is_pinned : bool;
  is_valid : bool;
  cpu_address : Z;
  gpu_address : Z;
  access_timestamp_us : Z;
  access_count : Z;
  clock_hand : Z
}.

Module PTE.

(** The default constructor. *)
Definition fresh : PageTableEntry :=
  mkPTE false false false false false 0 0 0 0 0.

Definition set_resident_on_cpu (b : bool) (e : PageTableEntry) :=
  mkPTE b (resident_on_gpu e) (is_dirty e) (is_pinned e) (is_valid e)
        (cpu_address e) (gpu_address e) (access_timestamp_us e)
        (access_count e) (clock_hand e).

Definition set_resident_on_gpu (b : bool) (e : PageTableEntry) :=
  mkPTE (resident_on_cpu e) b (is_dirty e) (is_pinned e) (is_valid e)
        (cpu_address e) (gpu_address e) (access_timestamp_us e)
        (access_count e) (clock_hand e).

Definition set_is_dirty (b : bool) (e : PageTableEntry) :=
  mkPTE (resident_on_cpu e) (resident_on_gpu e) b (is_pinned e) (is_valid e)
        (cpu_address e) (gpu_address e) (access_timestamp_us e)
        (access_count e) (clock_hand e).

Definition set_is_valid (b : bool) (e : PageTableEntry) :=
  mkPTE (resident_on_cpu e) (resident_on_gpu e) (is_dirty e) (is_pinned e) b
        (cpu_address e) (gpu_address e) (access_timestamp_us e)
        (access_count e) (clock_hand e).

Definition set_cpu_address (a : Z) (e : PageTableEntry) :=
  mkPTE (resident_on_cpu e) (resident_on_gpu e) (is_dirty e) (is_pinned e)
        (is_valid e) a (gpu_address e) (access_timestamp_us e)
        (access_count e) (clock_hand e).

Definition set_gpu_address (a : Z) (e : PageTableEntry) :=
  mkPTE (resident_on_cpu e) (resident_on_gpu e) (is_dirty e) (is_pinned e)
        (is_valid e) (cpu_address e) a (access_timestamp_us e)
        (access_count e) (clock_hand e).

Definition set_access_timestamp_us (t : Z) (e : PageTableEntry) :=
  mkPTE (resident_on_cpu e) (resident_on_gpu e) (is_dirty e) (is_pinned e)
        (is_valid e) (cpu_address e) (gpu_address e) t
        (access_count e) (clock_hand e).

(** [access_count] is a [uint32_t]. *)
Definition incr_access_count (e : PageTableEntry) :=
  mkPTE (resident_on_cpu e) (resident_on_gpu e) (is_dirty e) (is_pinned e)
        (is_valid e) (cpu_address e) (gpu_address e) (access_timestamp_us e)
        (wrap32 (access_count e + 1)) (clock_hand e).

End PTE.

Module PageTable.

(** [entries_], the only member the modelled operations read or write. *)
Abbreviation t := (gmap Z PageTableEntry).

Definition lookup_entry (pt : t) (vpn : Z) : option PageTableEntry := pt !! vpn.

(** The body of the [for] loop of [allocate_vpn_range], from index [i],
    for [n] more iterations.  A key that is already present stops the
    loop with [false]; entries created by earlier iterations stay. *)
Fixpoint allocate_vpn_range_from (n : nat) (i : Z) (vpn_start : Z) (pt : t) : bool * t :=
  match n with
  | O => (true, pt)
  | S n' =>
      let vpn := wrap64 (vpn_start + i) in
      match pt !! vpn with
      | Some _ => (false, pt)
      | None =>
          allocate_vpn_range_from n' (i + 1) vpn_start
            (<[vpn := PTE.set_is_valid true PTE.fresh]> pt)
      end
  end.

Definition allocate_vpn_range (vpn_start num_pages : Z) (pt : t) : bool * t :=
  allocate_vpn_range_from (Z.to_nat num_pages) 0 vpn_start pt.

Fixpoint deallocate_vpn_range_from (n : nat) (i : Z) (vpn_start : Z) (pt : t) : t :=
  match n with
  | O => pt
  | S n' =>
      deallocate_vpn_range_from n' (i + 1) vpn_start
        (delete (wrap64 (vpn_start + i)) pt)
  end.

Definition deallocate_vpn_range (vpn_start num_pages : Z) (pt : t) : t :=
  deallocate_vpn_range_from (Z.to_nat num_pages) 0 vpn_start pt.

Definition set_cpu_resident (vpn cpu_addr : Z) (pt : t) (c : Clock) : t * Clock :=
  match pt !! vpn with
  | Some _ =>
      let '(now, c1) := get_timestamp_us c in
      (alter (fun e => PTE.set_access_timestamp_us now
                         (PTE.set_cpu_address cpu_addr
                            (PTE.set_resident_on_cpu true e))) vpn pt, c1)
  | None => (pt, c)
  end.

Definition set_gpu_resident (vpn gpu_addr : Z) (pt : t) (c : Clock) : t * Clock :=
  match pt !! vpn with
  | Some _ =>
      let '(now, c1) := get_timestamp_us c in
      (alter (fun e => PTE.set_access_timestamp_us now
                         (PTE.set_gpu_address gpu_addr
                            (PTE.set_resident_on_gpu true e))) vpn pt, c1)
  | None => (pt, c)
  end.

Definition mark_dirty (vpn : Z) (pt : t) : t := alter (PTE.set_is_dirty true) vpn pt.

Definition clear_dirty (vpn : Z) (pt : t) : t := alter (PTE.set_is_dirty false) vpn pt.

Definition update_access_time (vpn : Z) (pt : t) (c : Clock) : t * Clock :=
  match pt !! vpn with
  | Some _ =>
      let '(now, c1) := get_timestamp_us c in
      (alter (fun e => PTE.incr_access_count
                         (PTE.set_access_timestamp_us now e)) vpn pt, c1)
  | None => (pt, c)
  end.

(** [get_all_entries]: the live entries, in the map's iteration order. *)
Definition get_all_entries (pt : t) : list (Z * PageTableEntry) :=
  filter (fun kv => is_valid kv.2 = true) (map_to_list pt).

(** The non-[const] [get_entry]: a missing key is given a
    default-constructed entry (not valid) on the way. *)
Definition get_entry (vpn : Z) (pt : t) : PageTableEntry * t :=
  match pt !! vpn with
  | Some e => (e, pt)
  | None => (PTE.fresh, <[vpn := PTE.fresh]> pt)
  end.

Definition clear (_ : t) : t := ∅.

End PageTable.

(** ** PageAllocator.h / PageAllocator.cpp *)

Module PageAllocator.

Record Config := mkConfig {
  page_size : Z;
  cpu_page_pool_size : Z;
  gpu_page_pool_size : Z;
  use_pinned_memory : bool;
  use_gpu_simulator : bool
}.

(** [cpu_pool_] is the address [malloc] returned for the host pool. *)
Record t := mk {
  config_ : Config;
  cpu_pages_allocated_ : Z;
  gpu_pages_allocated_ : Z;
  cpu_pool_ : Z;
  cpu_page_bitmap_ : list bool;
  gpu_page_bitmap_ : list bool
}.

(** The synthetic base address of the device pool, [0x100000000UL]. *)
Definition gpu_base : Z := 4294967296.

(** [initialize], given the address the host pool was allocated at. *)
Definition initialize (cfg : Config) (pool : Z) : t :=
  let num_cpu_pages := cpu_page_pool_size cfg / page_size cfg in
  let num_gpu_pages := gpu_page_pool_size cfg / page_size cfg in
  mk cfg 0 0 pool
     (replicate (Z.to_nat num_cpu_pages) false)
     (replicate (Z.to_nat num_gpu_pages) false).

(** The linear scan for the first clear bit. *)
Definition first_free (bitmap : list bool) : option nat :=
  fst <$> list_find (fun b : bool => b = false) bitmap.

Definition allocate_cpu_page (a : t) : Z * t :=
  match first_free (cpu_page_bitmap_ a) with
  | Some i =>
      (cpu_pool_ a + wrap64 (Z.of_nat i * page_size (config_ a)),
       mk (config_ a) (wrap64 (cpu_pages_allocated_ a + 1)) (gpu_pages_allocated_ a)
          (cpu_pool_ a) (<[i := true]> (cpu_page_bitmap_ a)) (gpu_page_bitmap_ a))
  | None => (0, a)
  end.

Definition deallocate_cpu_page (ptr : Z) (a : t) : t :=
  if ptr =? 0 then a
  else
    let offset := to_ptrdiff (ptr - cpu_pool_ a) in
    if (offset <? 0) || (offset >=? to_ptrdiff (cpu_page_pool_size (config_ a))) then a
    else
      let page_idx := Z.to_nat (wrap64 offset / page_size (config_ a)) in
      match cpu_page_bitmap_ a !! page_idx with
      | Some true =>
          mk (config_ a) (wrap64 (cpu_pages_allocated_ a - 1)) (gpu_pages_allocated_ a)
             (cpu_pool_ a) (<[page_idx := false]> (cpu_page_bitmap_ a))
             (gpu_page_bitmap_ a)
      | _ => a
      end.

Definition allocate_gpu_page (a : t) : Z * t :=
  match first_free (gpu_page_bitmap_ a) with
  | Some i =>
      (wrap64 (gpu_base + wrap64 (Z.of_nat i * page_size (config_ a))),
       mk (config_ a) (cpu_pages_allocated_ a) (wrap64 (gpu_pages_allocated_ a + 1))
          (cpu_pool_ a) (cpu_page_bitmap_ a) (<[i := true]> (gpu_page_bitmap_ a)))
  | None => (0, a)
  end.

Definition deallocate_gpu_page (gpu_addr : Z) (a : t) : t :=
  if gpu_addr <? gpu_base then a
  else
    let page_idx := Z.to_nat (wrap64 (gpu_addr - gpu_base) / page_size (config_ a)) in
    match gpu_page_bitmap_ a !! page_idx with
    | Some true =>
        mk (config_ a) (cpu_pages_allocated_ a) (wrap64 (gpu_pages_allocated_ a - 1))
           (cpu_pool_ a) (cpu_page_bitmap_ a)
           (<[page_idx := false]> (gpu_page_bitmap_ a))
    | _ => a
    end.



End PageAllocator.

(** ** TLB.h / TLB.cpp *)

Module TLB.

Record TLBEntry := mkEntry {
  vpn : Z;
  cpu_address : Z;
  gpu_address : Z;
  timestamp : Z;
  valid : bool
}.

Record Config := mkConfig { tlb_size : Z; associativity : Z }.

Record t := mk {
  config_ : Config;
  sets_ : list (list TLBEntry);
  hits_ : Z;
  misses_ : Z
}.

Definition initialize (cfg : Config) : t :=
  mk cfg (replicate (Z.to_nat (tlb_size cfg / associativity cfg)) []) 0 0.

(** [hash % num_sets].  With [num_sets = 0] (a [tlb_size] below the
    associativity, or an associativity of 0) the source divides by zero
    and has no result; the value here means nothing then.  It is the
    source's whenever the TLB has a set, which the statements that need a
    result from the TLB assume. *)
Definition get_set_index (tlb : t) (v : Z) : nat :=
  let num_sets := tlb_size (config_ tlb) / associativity (config_ tlb) in
  Z.to_nat (hash_vpn v mod num_sets).

(** [set.erase(it)] at the first entry of the set whose [vpn] matches.
    ([invalidate] indexes [sets_] without a bounds check; an index that
    is out of range, which needs a TLB without sets, leaves the model
    unchanged.) *)
Fixpoint erase_first (v : Z) (set : list TLBEntry) : list TLBEntry :=
  match set with
  | [] => []
  | e :: rest => if vpn e =? v then rest else e :: erase_first v rest
  end.

Definition invalidate (v : Z) (tlb : t) : t :=
  let set_idx := get_set_index tlb v in
  match sets_ tlb !! set_idx with
  | Some set =>
      mk (config_ tlb) (<[set_idx := erase_first v set]> (sets_ tlb))
         (hits_ tlb) (misses_ tlb)
  | None => tlb
  end.

(** Whether some set still caches a translation for [v]. *)
Definition caches (tlb : t) (v : Z) : bool :=
  existsb (existsb (fun e => vpn e =? v)) (sets_ tlb).

(** [lookup].  The answer is the entry copied to [out_entry] on a hit.
    The clock is read on a hit only.  (As for [invalidate], a set index
    that is out of range leaves the model unchanged and answers a miss.) *)
Definition lookup (v : Z) (tlb : t) (c : Clock) : option TLBEntry * t * Clock :=
  let set_idx := get_set_index tlb v in
  match sets_ tlb !! set_idx with
  | Some set =>
      match list_find (fun e => valid e = true /\ vpn e = v) set with
      | Some (i, e) =>
          let '(now, c1) := get_timestamp_us c in
          let e1 := mkEntry (vpn e) (cpu_address e) (gpu_address e) now (valid e) in
          (Some e1,
           mk (config_ tlb) (<[set_idx := <[i := e1]> set]> (sets_ tlb))
              (wrap64 (hits_ tlb + 1)) (misses_ tlb),
           c1)
      | None =>
          (None,
           mk (config_ tlb) (sets_ tlb) (hits_ tlb) (wrap64 (misses_ tlb + 1)),
           c)
      end
  | None => (None, tlb, c)
  end.

(** The scan of [evict_lru] for the index of the smallest timestamp:
    [rest] is what is left to visit, [i] the index of its head, [min_idx]
    the best index so far and [min_ts] the timestamp found there. *)
Fixpoint min_index (rest : list TLBEntry) (i min_idx : nat) (min_ts : Z) : nat :=
  match rest with
  | [] => min_idx
  | e :: rest' =>
      if timestamp e <? min_ts then min_index rest' (S i) i (timestamp e)
      else min_index rest' (S i) min_idx min_ts
  end.

(** [evict_lru], on the set itself. *)
Definition evict_lru (set : list TLBEntry) : list TLBEntry :=
  match set with
  | [] => []
  | e0 :: rest => delete (min_index rest 1%nat 0%nat (timestamp e0)) set
  end.

(** [insert].  An entry of the set with the same [vpn] is overwritten by
    [entry] as given, but for its timestamp; otherwise a copy of [entry]
    with [valid] set is appended, after [evict_lru] when the set is full. *)
Definition insert (v : Z) (entry : TLBEntry) (tlb : t) (c : Clock) : t * Clock :=
  let set_idx := get_set_index tlb v in
  match sets_ tlb !! set_idx with
  | Some set =>
      let '(now, c1) := get_timestamp_us c in
      let set1 :=
        match list_find (fun e => vpn e = v) set with
        | Some (i, _) =>
            <[i := mkEntry (vpn entry) (cpu_address entry) (gpu_address entry)
                           now (valid entry)]> set
        | None =>
            let new_entry :=
              mkEntry (vpn entry) (cpu_address entry) (gpu_address entry) now true in
            if Z.of_nat (length set) <? associativity (config_ tlb)
            then set ++ [new_entry]
            else evict_lru set ++ [new_entry]
        end in
      (mk (config_ tlb) (<[set_idx := set1]> (sets_ tlb)) (hits_ tlb) (misses_ tlb), c1)
  | None => (tlb, c)
  end.

Definition flush (tlb : t) : t :=
  mk (config_ tlb) ((fun _ => []) <$> sets_ tlb) (hits_ tlb) (misses_ tlb).

Definition reset_stats (tlb : t) : t := mk (config_ tlb) (sets_ tlb) 0 0.

End TLB.

(** ** Policies.h / Policies.cpp *)

Module LRUPolicy.

Record t := mk {
  lru_queue_ : list Z;
  active_pages_ : gset Z;
  max_pages_ : Z
}.

Definition create (max_pages : Z) : t := mk [] ∅ max_pages.

(** [std::find] locates the page, and the branch taken on success is
    empty: the queue is left as it was. *)
Definition on_page_access (v : Z) (p : t) : t :=
  if bool_decide (v ∈ lru_queue_ p) then p else p.

(** The [while (lru_queue_.size() > max_pages_)] loop; every iteration
    pops one element, so [length] of the queue bounds the iterations. *)
Fixpoint drop_oldest (fuel : nat) (p : t) : t :=
  match fuel with
  | O => p
  | S fuel' =>
      if Z.of_nat (length (lru_queue_ p)) >? max_pages_ p then
        match lru_queue_ p with
        | oldest :: rest =>
            drop_oldest fuel' (mk rest (active_pages_ p ∖ {[oldest]}) (max_pages_ p))
        | [] => p
        end
      else p
  end.

Definition on_page_allocated (v : Z) (p : t) : t :=
  let p1 := mk (lru_queue_ p ++ [v]) ({[v]} ∪ active_pages_ p) (max_pages_ p) in
  drop_oldest (length (lru_queue_ p1)) p1.

Definition on_page_freed (v : Z) (p : t) : t :=
  mk (lru_queue_ p) (active_pages_ p ∖ {[v]}) (max_pages_ p).

Definition select_victim (p : t) : Z * t :=
  match lru_queue_ p with
  | [] => (0, p)
  | victim :: rest => (victim, mk rest (active_pages_ p ∖ {[victim]}) (max_pages_ p))
  end.

Definition reset (p : t) : t := mk [] ∅ (max_pages_ p).

End LRUPolicy.

Module CLOCKPolicy.

Record ClockEntry := mkEntry { vpn : Z; reference_bit : bool }.

(** [hand_pos_] indexes [clock_hand_vec_]; it is kept as a [nat]. *)
Record t := mk {
  clock_hand_vec_ : list ClockEntry;
  hand_pos_ : nat;
  max_pages_ : Z
}.

Definition create (max_pages : Z) : t := mk [] 0%nat max_pages.

(** The range-for of [on_page_access]: the first entry for the page gets
    its reference bit set. *)
Fixpoint set_reference (v : Z) (vec : list ClockEntry) : list ClockEntry :=
  match vec with
  | [] => []
  | e :: rest =>
      if vpn e =? v then mkEntry (vpn e) true :: rest
      else e :: set_reference v rest
  end.

Definition on_page_access (v : Z) (p : t) : t :=
  mk (set_reference v (clock_hand_vec_ p)) (hand_pos_ p) (max_pages_ p).

Fixpoint shrink (fuel : nat) (p : t) : t :=
  match fuel with
  | O => p
  | S fuel' =>
      if Z.of_nat (length (clock_hand_vec_ p)) >? max_pages_ p then
        let hand1 :=
          if (length (clock_hand_vec_ p) <=? hand_pos_ p)%nat then 0%nat
          else hand_pos_ p in
        let vec1 := delete hand1 (clock_hand_vec_ p) in
        let hand2 :=
          if (length vec1 <=? hand1)%nat && negb (bool_decide (vec1 = []))
          then 0%nat else hand1 in
        shrink fuel' (mk vec1 hand2 (max_pages_ p))
      else p
  end.

Definition on_page_allocated (v : Z) (p : t) : t :=
  let p1 := mk (clock_hand_vec_ p ++ [mkEntry v true]) (hand_pos_ p) (max_pages_ p) in
  shrink (length (clock_hand_vec_ p1)) p1.

(** The index of the first entry for page [v], if any. *)
Definition index_of (v : Z) (vec : list ClockEntry) : option nat :=
  fst <$> list_find (fun e => vpn e = v) vec.

Definition on_page_freed (v : Z) (p : t) : t :=
  match index_of v (clock_hand_vec_ p) with
  | Some i =>
      let vec1 := delete i (clock_hand_vec_ p) in
      let hand1 :=
        if (length vec1 <=? hand_pos_ p)%nat && negb (bool_decide (vec1 = []))
        then 0%nat else hand_pos_ p in
      mk vec1 hand1 (max_pages_ p)
  | None => p
  end.

(** The [while (hand_pos_ < clock_hand_vec_.size())] loop of
    [select_victim] and the code behind it.

    While the hand is in range, an entry with a clear bit ends the call:
    its page is the victim, the hand is advanced modulo the size, and
    [erase] is applied at the advanced hand.  An entry with a set bit has
    the bit cleared and the hand advanced.  The loop is left without a
    return only when the hand is not in range; the vector is not empty
    there, and [clock_hand_vec_[hand_pos_]] reads past its end.  That
    read has no defined result and is [None] here.  [None] is also the
    answer when [fuel] runs out, which [S (length vec)] iterations never
    do (see [sweep_in_range_returns]). *)
Fixpoint sweep (fuel : nat) (p : t) : option (Z * t) :=
  match fuel with
  | O => None
  | S fuel' =>
      match clock_hand_vec_ p !! hand_pos_ p with
      | Some e =>
          let hand1 := ((hand_pos_ p + 1) mod length (clock_hand_vec_ p))%nat in
          if reference_bit e then
            sweep fuel'
              (mk (<[hand_pos_ p := mkEntry (vpn e) false]> (clock_hand_vec_ p))
                  hand1 (max_pages_ p))
          else
            Some (vpn e, mk (delete hand1 (clock_hand_vec_ p)) hand1 (max_pages_ p))
      | None => None
      end
  end.

Definition select_victim (p : t) : option (Z * t) :=
  match clock_hand_vec_ p with
  | [] => Some (0, p)
  | _ :: _ => sweep (S (length (clock_hand_vec_ p))) p
  end.

Definition reset (p : t) : t := mk [] 0%nat (max_pages_ p).

End CLOCKPolicy.

(** The abstract [ReplacementPolicy] with its two implementations. *)
Inductive ReplacementPolicy :=
| PolicyLRU (p : LRUPolicy.t)
| PolicyCLOCK (p : CLOCKPolicy.t).

Module Policy.

Definition on_page_access (v : Z) (rp : ReplacementPolicy) : ReplacementPolicy :=
  match rp with
  | PolicyLRU p => PolicyLRU (LRUPolicy.on_page_access v p)
  | PolicyCLOCK p => PolicyCLOCK (CLOCKPolicy.on_page_access v p)
  end.

Definition on_page_allocated (v : Z) (rp : ReplacementPolicy) : ReplacementPolicy :=
  match rp with
  | PolicyLRU p => PolicyLRU (LRUPolicy.on_page_allocated v p)
  | PolicyCLOCK p => PolicyCLOCK (CLOCKPolicy.on_page_allocated v p)
  end.

Definition on_page_freed (v : Z) (rp : ReplacementPolicy) : ReplacementPolicy :=
  match rp with
  | PolicyLRU p => PolicyLRU (LRUPolicy.on_page_freed v p)
  | PolicyCLOCK p => PolicyCLOCK (CLOCKPolicy.on_page_freed v p)
  end.

Definition select_victim (rp : ReplacementPolicy) : option (Z * ReplacementPolicy) :=
  match rp with
  | PolicyLRU p =>
      let '(v, p1) := LRUPolicy.select_victim p in Some (v, PolicyLRU p1)
  | PolicyCLOCK p =>
      match CLOCKPolicy.select_victim p with
      | Some (v, p1) => Some (v, PolicyCLOCK p1)
      | None => None
      end
  end.

End Policy.

(** ** MigrationManager.cpp: the synchronous copies *)

Module MigrationManager.

Definition migrate_cpu_to_gpu (vpn cpu_addr gpu_addr page_size : Z)
    (pt : PageTable.t) (c : Clock) : Z * PageTable.t * Clock :=
  if cpu_addr =? 0 then (0, pt, c)
  else
    let '(start_us, c1) := get_timestamp_us c in
    match PageTable.lookup_entry pt vpn with
    | None => (0, pt, c1)
    | Some _ =>
        let '(end_us, c2) := get_timestamp_us c1 in
        let actual_time_us := wrap64 (end_us - start_us) in
        (actual_time_us,
         alter (fun e => PTE.set_is_dirty false
                           (PTE.set_gpu_address gpu_addr
                              (PTE.set_resident_on_gpu true e))) vpn pt,
         c2)
    end.

Definition migrate_gpu_to_cpu (vpn gpu_addr cpu_addr page_size : Z)
    (pt : PageTable.t) (c : Clock) : Z * PageTable.t * Clock :=
  if (cpu_addr =? 0) || (gpu_addr =? 0) then (0, pt, c)
  else
    let '(start_us, c1) := get_timestamp_us c in
    let pt1 :=
      alter (fun e => PTE.set_cpu_address cpu_addr
                        (PTE.set_resident_on_cpu true e)) vpn pt in
    let '(end_us, c2) := get_timestamp_us c1 in
    let actual_time_us := wrap64 (end_us - start_us) in
    (actual_time_us, pt1, c2).

End MigrationManager.

(** ** VirtualMemoryManager.h / VirtualMemoryManager.cpp *)

(** [*gpu_resident_pages_.begin()]: an [std::unordered_set] hands out its
    elements in an order the program does not control.  All that is known
    of the first element is that it is a member. *)
Class SetIteration := {
  set_begin : gset Z -> Z;
  set_begin_elem : forall s : gset Z, s <> ∅ -> set_begin s ∈ s
}.

Module VMM.

Record VMConfig := mkConfig {
  page_size : Z;
  virtual_address_space : Z;
  gpu_memory : Z;
  tlb_size : Z;
  tlb_associativity : Z;
  replacement_policy : PageReplacementPolicy;
  use_pinned_memory : bool;
  use_gpu_simulator : bool;
  enable_prefetch : bool
}.

Definition default_config : VMConfig :=
  mkConfig DEFAULT_PAGE_SIZE DEFAULT_VIRTUAL_ADDRESS_SPACE DEFAULT_GPU_MEMORY
           DEFAULT_TLB_SIZE DEFAULT_TLB_ASSOCIATIVITY LRU true false true.

Record t := mk {
  initialized_ : bool;
  config_ : VMConfig;
  perf_counters_ : PerfCounters;
  page_table_ : PageTable.t;
  allocator_ : PageAllocator.t;
  tlb_ : TLB.t;
  replacement_policy_ : ReplacementPolicy;
  next_vpn_ : Z;
  vaddr_to_vpn_map_ : gmap Z Z;
  gpu_resident_pages_ : gset Z;
  clock_ : Clock
}.

Definition with_perf_counters (p : PerfCounters) (s : t) : t :=
  mk (initialized_ s) (config_ s) p (page_table_ s) (allocator_ s) (tlb_ s)
     (replacement_policy_ s) (next_vpn_ s) (vaddr_to_vpn_map_ s)
     (gpu_resident_pages_ s) (clock_ s).

Definition with_page_table (pt : PageTable.t) (s : t) : t :=
  mk (initialized_ s) (config_ s) (perf_counters_ s) pt (allocator_ s) (tlb_ s)
     (replacement_policy_ s) (next_vpn_ s) (vaddr_to_vpn_map_ s)
     (gpu_resident_pages_ s) (clock_ s).

Definition with_allocator (a : PageAllocator.t) (s : t) : t :=
  mk (initialized_ s) (config_ s) (perf_counters_ s) (page_table_ s) a (tlb_ s)
     (replacement_policy_ s) (next_vpn_ s) (vaddr_to_vpn_map_ s)
     (gpu_resident_pages_ s) (clock_ s).

Definition with_tlb (tl : TLB.t) (s : t) : t :=
  mk (initialized_ s) (config_ s) (perf_counters_ s) (page_table_ s) (allocator_ s) tl
     (replacement_policy_ s) (next_vpn_ s) (vaddr_to_vpn_map_ s)
     (gpu_resident_pages_ s) (clock_ s).

Definition with_replacement_policy (rp : ReplacementPolicy) (s : t) : t :=
  mk (initialized_ s) (config_ s) (perf_counters_ s) (page_table_ s) (allocator_ s)
     (tlb_ s) rp (next_vpn_ s) (vaddr_to_vpn_map_ s)
     (gpu_resident_pages_ s) (clock_ s).

Definition with_next_vpn (n : Z) (s : t) : t :=
  mk (initialized_ s) (config_ s) (perf_counters_ s) (page_table_ s) (allocator_ s)
     (tlb_ s) (replacement_policy_ s) n (vaddr_to_vpn_map_ s)
     (gpu_resident_pages_ s) (clock_ s).

Definition with_vaddr_to_vpn_map (m : gmap Z Z) (s : t) : t :=
  mk (initialized_ s) (config_ s) (perf_counters_ s) (page_table_ s) (allocator_ s)
     (tlb_ s) (replacement_policy_ s) (next_vpn_ s) m
     (gpu_resident_pages_ s) (clock_ s).

Definition with_gpu_resident_pages (g : gset Z) (s : t) : t :=
  mk (initialized_ s) (config_ s) (perf_counters_ s) (page_table_ s) (allocator_ s)
     (tlb_ s) (replacement_policy_ s) (next_vpn_ s) (vaddr_to_vpn_map_ s)
     g (clock_ s).

Definition with_clock (c : Clock) (s : t) : t :=
  mk (initialized_ s) (config_ s) (perf_counters_ s) (page_table_ s) (allocator_ s)
     (tlb_ s) (replacement_policy_ s) (next_vpn_ s) (vaddr_to_vpn_map_ s)
     (gpu_resident_pages_ s) c.

(** The singleton before [initialize]: counters are zero, the subsystem
    pointers are null (empty subsystems stand for them). *)
Definition created (c : Clock) : t :=
  mk false default_config zero_counters ∅
     (PageAllocator.mk (PageAllocator.mkConfig 0 0 0 true false) 0 0 0 [] [])
     (TLB.mk (TLB.mkConfig 0 0) [] 0 0)
     (PolicyLRU (LRUPolicy.create 0)) 0 ∅ ∅ c.

(** [initialize]; [pool] is the address [malloc] returns for the host
    pool.  Both pools are sized from [gpu_memory]. *)
Definition initialize (config : VMConfig) (pool : Z) (s : t) : t :=
  if initialized_ s then s
  else
    mk true config (perf_counters_ s) ∅
       (PageAllocator.initialize
          (PageAllocator.mkConfig (page_size config) (gpu_memory config)
             (gpu_memory config) (use_pinned_memory config)
             (use_gpu_simulator config)) pool)
       (TLB.initialize (TLB.mkConfig (tlb_size config) (tlb_associativity config)))
       (match replacement_policy config with
        | LRU => PolicyLRU (LRUPolicy.create 65536)
        | CLOCK => PolicyCLOCK (CLOCKPolicy.create 65536)
        end)
       0 (vaddr_to_vpn_map_ s) (gpu_resident_pages_ s) (clock_ s).


Definition reset_counters (s : t) : t := with_perf_counters (reset (perf_counters_ s)) s.

(** Reading through a [PageTableEntry*] that was checked to be non-null.
    Nothing between such a check and the reads that follow it erases a
    key, so the entry is the one now stored at [vpn]. *)
Definition deref (s : t) (vpn : Z) : PageTableEntry :=
  default PTE.fresh (page_table_ s !! vpn).

(** Writing through such a pointer. *)
Definition update_entry (vpn : Z) (f : PageTableEntry -> PageTableEntry) (s : t) : t :=
  with_page_table (alter f vpn (page_table_ s)) s.

(** The call of [migrate_gpu_to_cpu] together with the three counter
    updates that follow it at each of its call sites. *)
Definition counted_gpu_to_cpu (vpn : Z) (s : t) : t :=
  let e := deref s vpn in
  let '(mig_time, pt, c) :=
    MigrationManager.migrate_gpu_to_cpu vpn (gpu_address e) (cpu_address e)
      (page_size (config_ s)) (page_table_ s) (clock_ s) in
  with_perf_counters
    (count_gpu_to_cpu (page_size (config_ s)) mig_time (perf_counters_ s))
    (with_clock c (with_page_table pt s)).

(** The same for [migrate_cpu_to_gpu]. *)
Definition counted_cpu_to_gpu (vpn : Z) (s : t) : t :=
  let e := deref s vpn in
  let '(mig_time, pt, c) :=
    MigrationManager.migrate_cpu_to_gpu vpn (cpu_address e) (gpu_address e)
      (page_size (config_ s)) (page_table_ s) (clock_ s) in
  with_perf_counters
    (count_cpu_to_gpu (page_size (config_ s)) mig_time (perf_counters_ s))
    (with_clock c (with_page_table pt s)).

(** The first loop of [allocate], from index [i], for [n] more
    iterations; [cpu_pages] holds the slots taken so far.  The answer is
    [false] when a host slot could not be had: the slots of [cpu_pages]
    were given back and the VPN range erased. *)
Fixpoint allocate_cpu_pages (n : nat) (i vpn_start num_pages : Z)
    (cpu_pages : list Z) (s : t) : bool * list Z * t :=
  match n with
  | O => (true, cpu_pages, s)
  | S n' =>
      let '(cpu_page, a) := PageAllocator.allocate_cpu_page (allocator_ s) in
      let s1 := with_allocator a s in
      if cpu_page =? 0 then
        let a2 :=
          foldl (fun acc p => PageAllocator.deallocate_cpu_page p acc)
                (allocator_ s1) cpu_pages in
        let pt2 := PageTable.deallocate_vpn_range vpn_start num_pages (page_table_ s1) in
        (false, cpu_pages, with_page_table pt2 (with_allocator a2 s1))
      else
        let vpn := wrap64 (vpn_start + i) in
        let '(pt2, c2) :=
          PageTable.set_cpu_resident vpn cpu_page (page_table_ s1) (clock_ s1) in
        let '(pt3, c3) := PageTable.update_access_time vpn pt2 c2 in
        let s3 := with_clock c3 (with_page_table pt3 s1) in
        let s4 :=
          with_replacement_policy
            (Policy.on_page_allocated vpn (replacement_policy_ s3)) s3 in
        allocate_cpu_pages n' (i + 1) vpn_start num_pages (cpu_pages ++ [cpu_page]) s4
  end.

(** The loop under [if (prefetch_to_gpu)]. *)
Fixpoint prefetch_pages (n : nat) (i vpn_start : Z) (cpu_pages : list Z) (s : t) : t :=
  match n with
  | O => s
  | S n' =>
      let '(gpu_addr, a) := PageAllocator.allocate_gpu_page (allocator_ s) in
      let s1 := with_allocator a s in
      if gpu_addr =? 0 then prefetch_pages n' (i + 1) vpn_start cpu_pages s1
      else
        let vpn := wrap64 (vpn_start + i) in
        let '(pt2, c2) :=
          PageTable.set_gpu_resident vpn gpu_addr (page_table_ s1) (clock_ s1) in
        let s2 :=
          with_gpu_resident_pages ({[vpn]} ∪ gpu_resident_pages_ s1)
            (with_clock c2 (with_page_table pt2 s1)) in
        let '(mig_time, pt3, c3) :=
          MigrationManager.migrate_cpu_to_gpu vpn (nth (Z.to_nat i) cpu_pages 0)
            gpu_addr (page_size (config_ s2)) (page_table_ s2) (clock_ s2) in
        let s3 :=
          with_perf_counters
            (incr_page_prefetches
               (count_cpu_to_gpu (page_size (config_ s2)) mig_time (perf_counters_ s2)))
            (with_clock c3 (with_page_table pt3 s2)) in
        prefetch_pages n' (i + 1) vpn_start cpu_pages s3
  end.

(** [allocate]; the first component is the returned pointer. *)
Definition allocate (bytes : Z) (prefetch : bool) (s : t) : Z * t :=
  if negb (initialized_ s) then (0, s)
  else
    let aligned_size := align_to_page bytes (page_size (config_ s)) in
    let num_pages := wrap32 (aligned_size / page_size (config_ s)) in
    let vpn_start := next_vpn_ s in
    match PageTable.allocate_vpn_range vpn_start num_pages (page_table_ s) with
    | (false, pt1) => (0, with_page_table pt1 s)
    | (true, pt1) =>
        match allocate_cpu_pages (Z.to_nat num_pages) 0 vpn_start num_pages []
                (with_page_table pt1 s) with
        | (false, _, s2) => (0, s2)
        | (true, cpu_pages, s2) =>
            let s3 :=
              if prefetch
              then prefetch_pages (Z.to_nat num_pages) 0 vpn_start cpu_pages s2
              else s2 in
            let vaddr := vpn_to_vaddr vpn_start (page_size (config_ s3)) in
            (vaddr,
             with_next_vpn (wrap64 (next_vpn_ s3 + num_pages))
               (with_vaddr_to_vpn_map (<[vaddr := vpn_start]> (vaddr_to_vpn_map_ s3)) s3))
        end
    end.

(** The [for] loop of [free] that releases one page per iteration. *)
Fixpoint free_pages (n : nat) (i vpn_start : Z) (s : t) : t :=
  match n with
  | O => s
  | S n' =>
      let vpn := wrap64 (vpn_start + i) in
      let entry := PageTable.lookup_entry (page_table_ s) vpn in
      let a1 :=
        match entry with
        | Some e =>
            if cpu_address e =? 0 then allocator_ s
            else PageAllocator.deallocate_cpu_page (cpu_address e) (allocator_ s)
        | None => allocator_ s
        end in
      let a2 :=
        match entry with
        | Some e =>
            if gpu_address e =? 0 then a1
            else PageAllocator.deallocate_gpu_page (gpu_address e) a1
        | None => a1
        end in
      let s1 :=
        with_tlb (TLB.invalidate vpn (tlb_ s))
          (with_replacement_policy (Policy.on_page_freed vpn (replacement_policy_ s))
             (with_gpu_resident_pages (gpu_resident_pages_ s ∖ {[vpn]})
                (with_allocator a2 s))) in
      free_pages n' (i + 1) vpn_start s1
  end.

(** The count [free] takes for the length of the range: every live
    entry whose VPN is not below [vpn_start], in a [uint32_t]. *)
Definition count_from (vpn_start : Z) (pt : PageTable.t) : Z :=
  wrap32 (Z.of_nat (length
    (filter (fun kv : Z * PageTableEntry =>
               vpn_start <= kv.1 /\ is_valid kv.2 = true)
            (PageTable.get_all_entries pt)))).

Definition free (vaddr : Z) (s : t) : t :=
  if negb (initialized_ s) then s
  else
    match vaddr_to_vpn_map_ s !! vaddr with
    | None => s
    | Some vpn_start =>
        let counted := count_from vpn_start (page_table_ s) in
        let num_pages := if counted =? 0 then 1 else counted in
        let s1 := free_pages (Z.to_nat num_pages) 0 vpn_start s in
        with_vaddr_to_vpn_map (delete vaddr (vaddr_to_vpn_map_ s1))
          (with_page_table
             (PageTable.deallocate_vpn_range vpn_start num_pages (page_table_ s1)) s1)
    end.

Section Facade.

Context `{SetIteration}.

(** [evict_page_from_gpu].  [None] is the undefined read of
    [CLOCKPolicy.select_victim]. *)
Definition evict_page_from_gpu (s : t) : option t :=
  if bool_decide (gpu_resident_pages_ s = ∅) then Some s
  else
    match Policy.select_victim (replacement_policy_ s) with
    | None => None
    | Some (selected, rp) =>
        let s1 := with_replacement_policy rp s in
        let victim :=
          if (selected =? 0) && (0 <? Z.of_nat (size (gpu_resident_pages_ s1)))
          then set_begin (gpu_resident_pages_ s1)
          else selected in
        if victim =? 0 then Some s1
        else
          match PageTable.lookup_entry (page_table_ s1) victim with
          | None => Some s1
          | Some entry =>
              let s2 :=
                if is_dirty entry && resident_on_cpu entry
                then counted_gpu_to_cpu victim s1
                else s1 in
              let s3 :=
                with_allocator
                  (PageAllocator.deallocate_gpu_page
                     (gpu_address (deref s2 victim)) (allocator_ s2)) s2 in
              let s4 :=
                update_entry victim
                  (fun e => PTE.set_resident_on_gpu false (PTE.set_gpu_address 0 e)) s3 in
              let s5 :=
                with_gpu_resident_pages (gpu_resident_pages_ s4 ∖ {[victim]}) s4 in
              let s6 :=
                with_perf_counters (incr_evictions (perf_counters_ s5)) s5 in
              Some (with_tlb (TLB.invalidate victim (tlb_ s6)) s6)
          end
    end.

(** [entry->gpu_address = allocator_->allocate_gpu_page()]. *)
Definition assign_gpu_page (vpn : Z) (s : t) : t :=
  let '(addr, a) := PageAllocator.allocate_gpu_page (allocator_ s) in
  update_entry vpn (PTE.set_gpu_address addr) (with_allocator a s).

(** The block guarded by [if (!entry->resident_on_gpu)].  [map_to_gpu]
    (lines 282-307) and the device branch of [resolve_page_fault] (lines
    428-451) contain it verbatim. *)
Definition fault_to_gpu (vpn : Z) (s : t) : option t :=
  let slot : option t :=
    if gpu_address (deref s vpn) =? 0 then
      let s1 := assign_gpu_page vpn s in
      if gpu_address (deref s1 vpn) =? 0 then
        match evict_page_from_gpu s1 with
        | Some s2 => Some (assign_gpu_page vpn s2)
        | None => None
        end
      else Some s1
    else Some s in
  match slot with
  | None => None
  | Some s3 =>
      let s4 :=
        if resident_on_cpu (deref s3 vpn) then counted_cpu_to_gpu vpn s3 else s3 in
      let s5 := update_entry vpn (PTE.set_resident_on_gpu true) s4 in
      Some (with_gpu_resident_pages ({[vpn]} ∪ gpu_resident_pages_ s5) s5)
  end.

(** The host branch of [resolve_page_fault], inside
    [if (!entry->resident_on_cpu)]. *)
Definition fault_to_cpu (vpn : Z) (s : t) : t :=
  let s1 :=
    if cpu_address (deref s vpn) =? 0 then
      let '(addr, a) := PageAllocator.allocate_cpu_page (allocator_ s) in
      update_entry vpn (PTE.set_cpu_address addr) (with_allocator a s)
    else s in
  let s2 :=
    if resident_on_gpu (deref s1 vpn) then counted_gpu_to_cpu vpn s1 else s1 in
  update_entry vpn (PTE.set_resident_on_cpu true) s2.

Definition resolve_page_fault (vpn : Z) (access_gpu : bool) (s : t) : option t :=
  match PageTable.lookup_entry (page_table_ s) vpn with
  | None => Some s
  | Some entry =>
      if access_gpu then
        if negb (resident_on_gpu entry) then fault_to_gpu vpn s else Some s
      else
        if negb (resident_on_cpu entry) then Some (fault_to_cpu vpn s) else Some s
  end.

(** [map_to_cpu]; its [prefetch] argument is not used by the source. *)
Definition map_to_cpu (vaddr : Z) (s : t) : option t :=
  if negb (initialized_ s) then Some s
  else
    let vpn := vaddr_to_vpn vaddr (page_size (config_ s)) in
    match PageTable.lookup_entry (page_table_ s) vpn with
    | None => Some s
    | Some entry =>
        if negb (resident_on_cpu entry) then resolve_page_fault vpn false s
        else Some s
    end.

Definition map_to_gpu (vaddr : Z) (s : t) : option t :=
  if negb (initialized_ s) then Some s
  else
    let vpn := vaddr_to_vpn vaddr (page_size (config_ s)) in
    match PageTable.lookup_entry (page_table_ s) vpn with
    | None => Some s
    | Some entry =>
        if negb (resident_on_gpu entry) then fault_to_gpu vpn s else Some s
    end.

Definition prefetch_to_gpu (vaddr : Z) (s : t) : option t := map_to_gpu vaddr s.

Definition touch_page (vaddr : Z) (is_write : bool) (s : t) : option t :=
  if negb (initialized_ s) then Some s
  else
    let vpn := vaddr_to_vpn vaddr (page_size (config_ s)) in
    let faulted : option t :=
      match PageTable.lookup_entry (page_table_ s) vpn with
      | None =>
          resolve_page_fault vpn false
            (with_perf_counters (incr_page_faults (perf_counters_ s)) s)
      | Some _ => Some s
      end in
    match faulted with
    | None => None
    | Some s1 =>
        match PageTable.lookup_entry (page_table_ s1) vpn with
        | None => Some s1
        | Some _ =>
            let '(now, c) := get_timestamp_us (clock_ s1) in
            let s2 :=
              update_entry vpn
                (fun e => PTE.incr_access_count (PTE.set_access_timestamp_us now e))
                (with_clock c s1) in
            let s3 :=
              if is_write then update_entry vpn (PTE.set_is_dirty true) s2 else s2 in
            Some (with_replacement_policy
                    (Policy.on_page_access vpn (replacement_policy_ s3)) s3)
        end
    end.

(** [read_from_vaddr] and [write_to_vaddr] without the [memcpy]: what
    they do to the residency state.  [buffer] is the caller's pointer. *)
Definition read_from_vaddr (vaddr buffer : Z) (s : t) : option t :=
  if negb (initialized_ s) || (vaddr =? 0) || (buffer =? 0) then Some s
  else
    let vpn := vaddr_to_vpn vaddr (page_size (config_ s)) in
    match PageTable.lookup_entry (page_table_ s) vpn with
    | None => Some s
    | Some entry =>
        let faulted :=
          if negb (resident_on_cpu entry) then resolve_page_fault vpn false s
          else Some s in
        match faulted with
        | None => None
        | Some s1 =>
            match PageTable.lookup_entry (page_table_ s1) vpn with
            | None => Some s1
            | Some e1 =>
                if cpu_address e1 =? 0 then Some s1
                else
                  let '(now, c) := get_timestamp_us (clock_ s1) in
                  Some (update_entry vpn (PTE.set_access_timestamp_us now)
                          (with_clock c s1))
            end
        end
    end.

Definition write_to_vaddr (vaddr buffer : Z) (s : t) : option t :=
  if negb (initialized_ s) || (vaddr =? 0) || (buffer =? 0) then Some s
  else
    let vpn := vaddr_to_vpn vaddr (page_size (config_ s)) in
    match PageTable.lookup_entry (page_table_ s) vpn with
    | None => Some s
    | Some entry =>
        let faulted :=
          if negb (resident_on_cpu entry) then resolve_page_fault vpn false s
          else Some s in
        match faulted with
        | None => None
        | Some s1 =>
            match PageTable.lookup_entry (page_table_ s1) vpn with
            | None => Some s1
            | Some e1 =>
                if cpu_address e1 =? 0 then Some s1
                else
                  let s2 := update_entry vpn (PTE.set_is_dirty true) s1 in
                  let '(now, c) := get_timestamp_us (clock_ s2) in
                  Some (update_entry vpn (PTE.set_access_timestamp_us now)
                          (with_clock c s2))
            end
        end
    end.

End Facade.

End VMM.

(** ** A concrete iteration order and concrete clocks *)

(** One admissible order: the first element of [elements]. *)
Definition first_element (s : gset Z) : Z :=
  match elements s with
  | x :: _ => x
  | [] => 0
  end.

Lemma first_element_elem (s : gset Z) : s <> ∅ -> first_element s ∈ s.
Proof.
  intros Hne. unfold first_element.
  destruct (elements s) as [|x l] eqn:E.
  - apply elements_empty_inv in E. apply leibniz_equiv in E. contradiction.
  - apply elem_of_elements. rewrite E. left.
Qed.

#[export] Instance elements_order : SetIteration :=
  {| set_begin := first_element; set_begin_elem := first_element_elem |}.

(** A clock that advances by two microseconds between readings. *)
Definition steady_clock : Clock := mkClock (fun n => 100 + 2 * Z.of_nat n) 0.

(** * Replacement policies *)

Section ClockSweep.

Import CLOCKPolicy.

(** The number of entries whose reference bit is set. *)
Definition referenced (vec : list ClockEntry) : nat :=
  length (filter (fun e => reference_bit e = true) vec).

Lemma referenced_clear (vec : list ClockEntry) (h : nat) (e : ClockEntry) :
  vec !! h = Some e -> reference_bit e = true ->
  S (referenced (<[h := mkEntry (vpn e) false]> vec)) = referenced vec.
Proof.
  unfold referenced. revert h.
  induction vec as [|x vec IH]; intros [|h] Hl Hb; simpl in *; try discriminate.
  - injection Hl as ->. rewrite !filter_cons. simpl.
    destruct (decide (reference_bit e = true)); [reflexivity|contradiction].
  - rewrite !filter_cons. destruct (decide (reference_bit x = true)); simpl;
      rewrite <- (IH h Hl Hb); reflexivity.
Qed.

(** With the hand in range, [sweep] returns as soon as its fuel exceeds
    the number of set bits. *)
Lemma sweep_returns (fuel : nat) (p : t) :
  (hand_pos_ p < length (clock_hand_vec_ p))%nat ->
  (referenced (clock_hand_vec_ p) < fuel)%nat ->
  is_Some (sweep fuel p).
Proof.
  revert p. induction fuel as [|fuel IH]; intros p Hh Hf; [lia|].
  simpl. destruct (lookup_lt_is_Some_2 _ _ Hh) as [e He]. rewrite He.
  destruct (reference_bit e) eqn:Hb; [|eexists; reflexivity].
  apply IH; simpl.
  - rewrite length_insert. apply Nat.mod_upper_bound. lia.
  - pose proof (referenced_clear _ _ _ He Hb). lia.
Qed.

Lemma referenced_le_length (vec : list ClockEntry) :
  (referenced vec <= length vec)%nat.
Proof. unfold referenced. apply length_filter. Qed.

(** [select_victim] has a defined result whenever the hand is in range. *)
Lemma sweep_in_range_returns (p : t) :
  (hand_pos_ p < length (clock_hand_vec_ p))%nat ->
  is_Some (select_victim p).
Proof.
  intros Hh. unfold select_victim.
  destruct (clock_hand_vec_ p) as [|x vec] eqn:E; [eexists; reflexivity|].
  rewrite <- E in *. apply sweep_returns; [exact Hh|].
  pose proof (referenced_le_length (clock_hand_vec_ p)). lia.
Qed.

(** What the call does when the entry under the hand has a clear bit:
    the page of that entry is returned, and the entry erased is the one
    at the advanced hand. *)
Lemma select_victim_clear_bit (p : t) (e : ClockEntry) :
  clock_hand_vec_ p !! hand_pos_ p = Some e ->
  reference_bit e = false ->
  select_victim p =
    Some (vpn e,
          mk (delete ((hand_pos_ p + 1) mod length (clock_hand_vec_ p))%nat
                (clock_hand_vec_ p))
             ((hand_pos_ p + 1) mod length (clock_hand_vec_ p))%nat
             (max_pages_ p)).
Proof.
  intros He Hb. unfold select_victim.
  destruct (clock_hand_vec_ p) as [|x vec] eqn:E; [discriminate|].
  rewrite <- E in *. simpl. rewrite He, Hb. reflexivity.
Qed.

(** An entry with a set bit is not chosen at that step: its bit is
    cleared and the search goes on from the next position. *)
Lemma sweep_set_bit (fuel : nat) (p : t) (e : ClockEntry) :
  clock_hand_vec_ p !! hand_pos_ p = Some e ->
  reference_bit e = true ->
  sweep (S fuel) p =
    sweep fuel
      (mk (<[hand_pos_ p := mkEntry (vpn e) false]> (clock_hand_vec_ p))
          ((hand_pos_ p + 1) mod length (clock_hand_vec_ p))%nat
          (max_pages_ p)).
Proof. intros He Hb. simpl. rewrite He, Hb. reflexivity. Qed.

End ClockSweep.

(** C2.  CLOCK [select_victim] on the pool [(5, clear); (7, set)] with
    the hand on the first entry.  The page returned is 5, the page of the
    entry under the hand; the entry erased is the one for page 7, page 5
    stays in the pool, and the hand is left at 1, past the end of the
    one-element vector.  A second call then reads [clock_hand_vec_[1]]
    out of range. *)
Theorem clock_select_victim_erases_next_entry :
  let p := CLOCKPolicy.mk
             [CLOCKPolicy.mkEntry 5 false; CLOCKPolicy.mkEntry 7 true] 0%nat 100 in
  let after := CLOCKPolicy.mk [CLOCKPolicy.mkEntry 5 false] 1%nat 100 in
  CLOCKPolicy.select_victim p = Some (5, after) /\
  CLOCKPolicy.select_victim after = None.
Proof. split; reflexivity. Qed.

(** [LRUPolicy::on_page_access] changes nothing. *)
Lemma lru_on_page_access_id (v : Z) (p : LRUPolicy.t) :
  LRUPolicy.on_page_access v p = p.
Proof. unfold LRUPolicy.on_page_access. case_bool_decide; reflexivity. Qed.

(** C3.  After [on_page_allocated(0)], [on_page_allocated(1)] and
    [on_page_access(0)] the LRU policy still selects page 0: the access
    left the queue as it was, and page 1 is what remains queued. *)
Theorem lru_access_does_not_refresh :
  let p := LRUPolicy.on_page_access 0
             (LRUPolicy.on_page_allocated 1
                (LRUPolicy.on_page_allocated 0 (LRUPolicy.create 100))) in
  (LRUPolicy.select_victim p).1 = 0 /\
  LRUPolicy.lru_queue_ (LRUPolicy.select_victim p).2 = [1] /\
  (forall v q, LRUPolicy.on_page_access v q = q).
Proof.
  split; [|split].
  - vm_compute. reflexivity.
  - vm_compute. reflexivity.
  - apply lru_on_page_access_id.
Qed.

(** * Synchronous migrations *)

Section Migrations.

Import MigrationManager.

(** Host to device, no live entry: the call returns 0 and the page table
    is the one it was given. *)
Lemma migrate_cpu_to_gpu_absent (vpn cpu_addr gpu_addr page_size : Z)
    (pt : PageTable.t) (c : Clock) :
  pt !! vpn = None ->
  (migrate_cpu_to_gpu vpn cpu_addr gpu_addr page_size pt c).1.1 = 0 /\
  (migrate_cpu_to_gpu vpn cpu_addr gpu_addr page_size pt c).1.2 = pt.
Proof.
  intros Hn. unfold migrate_cpu_to_gpu, PageTable.lookup_entry.
  destruct (cpu_addr =? 0); [split; reflexivity|].
  simpl. rewrite Hn. split; reflexivity.
Qed.

(** Device to host, no live entry: the page table is the one it was
    given.  (The value returned is the elapsed time, see
    [migrate_gpu_to_cpu_absent_returns_elapsed].) *)
Lemma migrate_gpu_to_cpu_absent (vpn gpu_addr cpu_addr page_size : Z)
    (pt : PageTable.t) (c : Clock) :
  pt !! vpn = None ->
  (migrate_gpu_to_cpu vpn gpu_addr cpu_addr page_size pt c).1.2 = pt.
Proof.
  intros Hn. unfold migrate_gpu_to_cpu.
  destruct ((cpu_addr =? 0) || (gpu_addr =? 0)); [reflexivity|].
  simpl. apply map_eq. intros k. rewrite lookup_alter.
  case_decide; [subst; rewrite Hn|]; reflexivity.
Qed.

(** Host to device on a live entry, with a host pointer that is not
    null: the entry becomes device resident at [gpu_addr] and clean. *)
Lemma migrate_cpu_to_gpu_live (vpn cpu_addr gpu_addr page_size : Z)
    (pt : PageTable.t) (c : Clock) (e : PageTableEntry) :
  pt !! vpn = Some e -> cpu_addr <> 0 ->
  (migrate_cpu_to_gpu vpn cpu_addr gpu_addr page_size pt c).1.2 !! vpn =
    Some (PTE.set_is_dirty false
            (PTE.set_gpu_address gpu_addr (PTE.set_resident_on_gpu true e))).
Proof.
  intros He Hc. unfold migrate_cpu_to_gpu, PageTable.lookup_entry.
  destruct (Z.eqb_spec cpu_addr 0) as [|_]; [contradiction|].
  simpl. rewrite He. simpl. rewrite lookup_alter, decide_True, He by reflexivity.
  reflexivity.
Qed.

(** Device to host on a live entry, with pointers that are not null: the
    entry becomes host resident at [cpu_addr]; its dirty bit is kept. *)
Lemma migrate_gpu_to_cpu_live (vpn gpu_addr cpu_addr page_size : Z)
    (pt : PageTable.t) (c : Clock) (e : PageTableEntry) :
  pt !! vpn = Some e -> cpu_addr <> 0 -> gpu_addr <> 0 ->
  (migrate_gpu_to_cpu vpn gpu_addr cpu_addr page_size pt c).1.2 !! vpn =
    Some (PTE.set_cpu_address cpu_addr (PTE.set_resident_on_cpu true e)).
Proof.
  intros He Hc Hg. unfold migrate_gpu_to_cpu.
  destruct (Z.eqb_spec cpu_addr 0) as [|_]; [contradiction|].
  destruct (Z.eqb_spec gpu_addr 0) as [|_]; [contradiction|].
  simpl. rewrite lookup_alter, decide_True, He by reflexivity. reflexivity.
Qed.

End Migrations.

(** C5.  [migrate_gpu_to_cpu] for page 7 on an empty page table, with
    a clock that advances by two microseconds between its two readings:
    the table is unchanged but the value returned is 2, the elapsed time,
    where [migrate_cpu_to_gpu] on the same table returns 0. *)
Theorem migrate_gpu_to_cpu_absent_returns_elapsed :
  let r := MigrationManager.migrate_gpu_to_cpu 7 PageAllocator.gpu_base 65536 4096
             (∅ : PageTable.t) steady_clock in
  let r' := MigrationManager.migrate_cpu_to_gpu 7 65536 PageAllocator.gpu_base 4096
              (∅ : PageTable.t) steady_clock in
  r.1.1 = 2 /\ r.1.2 = ∅ /\ r'.1.1 = 0 /\ r'.1.2 = ∅.
Proof.
  repeat split; reflexivity.
Qed.

(** * Concrete runs of the facade *)

(** Pools of one page each. *)
Definition one_slot_config : VMM.VMConfig :=
  VMM.mkConfig 4096 (1024 * 4096) 4096 16 4 LRU true true true.

(** Pools of two pages each. *)
Definition two_slot_config : VMM.VMConfig :=
  VMM.mkConfig 4096 (1024 * 4096) 8192 16 4 LRU true true true.

(** What the concrete runs below look at. *)
Record Snapshot := mkSnapshot {
  snap_entries : list (Z * PageTableEntry);
  snap_cpu_bitmap : list bool;
  snap_gpu_bitmap : list bool;
  snap_ledger : list Z;
  snap_counters : PerfCounters;
  snap_vaddr_map : list (Z * Z)
}.

Definition snapshot (s : VMM.t) : Snapshot :=
  mkSnapshot (map_to_list (VMM.page_table_ s))
             (PageAllocator.cpu_page_bitmap_ (VMM.allocator_ s))
             (PageAllocator.gpu_page_bitmap_ (VMM.allocator_ s))
             (elements (VMM.gpu_resident_pages_ s))
             (VMM.perf_counters_ s)
             (map_to_list (VMM.vaddr_to_vpn_map_ s)).

(** One page allocated (VPN 0, virtual address 0) with one-page pools,
    and the only device slot taken directly from the allocator, which the
    facade hands out through [get_allocator()]. *)
Definition device_exhausted : VMM.t :=
  let s1 := (VMM.allocate 4096 false
               (VMM.initialize one_slot_config 65536 (VMM.created steady_clock))).2 in
  VMM.with_allocator (PageAllocator.allocate_gpu_page (VMM.allocator_ s1)).2 s1.

(** C1.  In [device_exhausted] the device allocator returns 0 and an
    eviction attempt changes nothing (the ledger is empty).  The device
    fault for page 0 is nevertheless carried through, by
    [resolve_page_fault] and by [map_to_gpu] alike: the entry ends up
    device resident with device address 0, page 0 is in the ledger, and
    one host-to-device migration of 4096 bytes and 2 microseconds has
    been counted. *)
Theorem device_fault_without_slot_goes_through :
  (PageAllocator.allocate_gpu_page (VMM.allocator_ device_exhausted)).1 = 0 /\
  snapshot <$> VMM.evict_page_from_gpu device_exhausted = Some (snapshot device_exhausted) /\
  snap_counters (snapshot device_exhausted) = zero_counters /\
  snapshot <$> VMM.resolve_page_fault 0 true device_exhausted =
    Some (mkSnapshot
            [(0, mkPTE true true false false true 65536 0 102 1 0)]
            [true] [true] [0]
            (mkPerf 0 1 0 4096 2 0 0 0 0 0)
            [(0, 0)]) /\
  snapshot <$> VMM.map_to_gpu 0 device_exhausted =
    snapshot <$> VMM.resolve_page_fault 0 true device_exhausted.
Proof. repeat split; vm_compute; reflexivity. Qed.

(** Two one-page allocations, [A] at virtual address 0 (VPN 0) and [B] at
    virtual address 4096 (VPN 1); [B] is prefetched to the device. *)
Definition two_allocations : VMM.t :=
  let s0 := VMM.initialize two_slot_config 65536 (VMM.created steady_clock) in
  let s1 := (VMM.allocate 4096 false s0).2 in
  (VMM.allocate 4096 true s1).2.

(** C4.  [free] of the first allocation also releases the second: before
    the call page 1 has a live entry with a host and a device slot and is
    in the ledger; after [free(0)] the page table is empty, both bitmaps
    are clear and the ledger is empty, while the base-to-VPN map still
    lists virtual address 4096. *)
Theorem free_releases_later_allocations :
  snapshot two_allocations =
    mkSnapshot
      [(1, mkPTE true true false false true 69632 4294967296 108 1 0);
       (0, mkPTE true false false false true 65536 0 102 1 0)]
      [true; true] [true; false] [1]
      (mkPerf 0 1 0 4096 2 0 0 0 0 1)
      [(4096, 1); (0, 0)] /\
  snapshot (VMM.free 0 two_allocations) =
    mkSnapshot [] [false; false] [false; false] []
      (mkPerf 0 1 0 4096 2 0 0 0 0 1)
      [(4096, 1)].
Proof. split; vm_compute; reflexivity. Qed.

(** * touch_page *)

Section TouchPage.

Context `{SetIteration}.

Import VMM.




End TouchPage.

(** An initialised facade on which nothing has been allocated. *)
Definition nothing_allocated : VMM.t :=
  VMM.initialize two_slot_config 65536 (VMM.created steady_clock).


(** * The counted migrations of the facade *)

Section CountedMigrations.

Import VMM.

(** [counted_gpu_to_cpu] rewrites the entry of [vpn] (or nothing), the
    clock and the counters, by [count_gpu_to_cpu]. *)
Lemma counted_gpu_to_cpu_shape (vpn : Z) (s : VMM.t) :
  exists mig_time c pt,
    counted_gpu_to_cpu vpn s =
      with_perf_counters
        (count_gpu_to_cpu (page_size (config_ s)) mig_time (perf_counters_ s))
        (with_clock c (with_page_table pt s)) /\
    (pt = page_table_ s \/
     pt = alter (fun e => PTE.set_cpu_address (cpu_address (deref s vpn))
                            (PTE.set_resident_on_cpu true e)) vpn (page_table_ s)).
Proof.
  unfold counted_gpu_to_cpu, MigrationManager.migrate_gpu_to_cpu.
  destruct ((cpu_address (deref s vpn) =? 0) || (gpu_address (deref s vpn) =? 0)).
  - eexists _, _, _. split; [reflexivity|]. left. reflexivity.
  - simpl. eexists _, _, _. split; [reflexivity|]. right. reflexivity.
Qed.

(** [counted_cpu_to_gpu] likewise, by [count_cpu_to_gpu]. *)
Lemma counted_cpu_to_gpu_shape (vpn : Z) (s : VMM.t) :
  exists mig_time c pt,
    counted_cpu_to_gpu vpn s =
      with_perf_counters
        (count_cpu_to_gpu (page_size (config_ s)) mig_time (perf_counters_ s))
        (with_clock c (with_page_table pt s)) /\
    (pt = page_table_ s \/
     pt = alter (fun e => PTE.set_is_dirty false
                            (PTE.set_gpu_address (gpu_address (deref s vpn))
                               (PTE.set_resident_on_gpu true e))) vpn (page_table_ s)).
Proof.
  unfold counted_cpu_to_gpu, MigrationManager.migrate_cpu_to_gpu,
    PageTable.lookup_entry.
  destruct (cpu_address (deref s vpn) =? 0).
  - eexists _, _, _. split; [reflexivity|]. left. reflexivity.
  - simpl. destruct (page_table_ s !! vpn).
    + eexists _, _, _. split; [reflexivity|]. right. reflexivity.
    + eexists _, _, _. split; [reflexivity|]. left. reflexivity.
Qed.

(** A device-to-host copy started from a dirty, host-resident entry
    writes back the values the entry already has. *)
Lemma counted_gpu_to_cpu_same_table (vpn : Z) (s : VMM.t) (e : PageTableEntry) :
  page_table_ s !! vpn = Some e -> resident_on_cpu e = true ->
  page_table_ (counted_gpu_to_cpu vpn s) = page_table_ s.
Proof.
  intros He Hr.
  destruct (counted_gpu_to_cpu_shape vpn s) as (t & c & pt & -> & [->| ->]);
    [reflexivity|].
  cbn. apply map_eq. intros k. rewrite lookup_alter.
  case_decide; [subst k|reflexivity].
  unfold deref. rewrite He. simpl. f_equal.
  destruct e. simpl in *. subst. reflexivity.
Qed.

End CountedMigrations.

(** * Eviction *)

Section Eviction.

Context `{SetIteration}.

Import VMM.

(** The statement about the fall-back of [evict_page_from_gpu], for one
    state: if the ledger is not empty and the policy answers 0, some
    member of the ledger is evicted. *)
Definition zero_victim_evicts_a_member (s : VMM.t) : Prop :=
  gpu_resident_pages_ s <> ∅ ->
  (exists rp, Policy.select_victim (replacement_policy_ s) = Some (0, rp)) ->
  exists s' m,
    evict_page_from_gpu s = Some s' /\
    m ∈ gpu_resident_pages_ s /\ m ∉ gpu_resident_pages_ s'.

(** What the fall-back amounts to, for a state [s] whose policy answers
    0 and leaves the policy [rp]: page 0 is spared whatever happens; the
    page considered is the first member [m] of the ledger; nothing is
    evicted if [m] is page 0 or has no entry; otherwise [m] is evicted;
    and an LRU queue headed by 0 has lost that head. *)
Definition zero_victim_fallback (s : VMM.t) (rp : ReplacementPolicy) : Prop :=
  let m := set_begin (gpu_resident_pages_ s) in
  (forall s', evict_page_from_gpu s = Some s' ->
     page_table_ s' !! 0 = page_table_ s !! 0 /\
     (0 ∈ gpu_resident_pages_ s' <-> 0 ∈ gpu_resident_pages_ s)) /\
  m ∈ gpu_resident_pages_ s /\
  (m = 0 \/ page_table_ s !! m = None ->
   evict_page_from_gpu s = Some (with_replacement_policy rp s)) /\
  (m <> 0 -> is_Some (page_table_ s !! m) ->
   exists s' e',
     evict_page_from_gpu s = Some s' /\
     gpu_resident_pages_ s' = gpu_resident_pages_ s ∖ {[m]} /\
     page_table_ s' !! m = Some e' /\
     resident_on_gpu e' = false /\ gpu_address e' = 0 /\
     evictions (perf_counters_ s') =
       wrap64 (evictions (perf_counters_ s) + 1)) /\
  (forall p rest, replacement_policy_ s = PolicyLRU p ->
     LRUPolicy.lru_queue_ p = 0 :: rest ->
     exists p', rp = PolicyLRU p' /\ LRUPolicy.lru_queue_ p' = rest).

(** [evict_page_from_gpu] once the policy has answered, with [victim]
    the page it settles on. *)
Lemma evict_after_selection (s : VMM.t) (selected : Z) (rp : ReplacementPolicy) :
  gpu_resident_pages_ s <> ∅ ->
  Policy.select_victim (replacement_policy_ s) = Some (selected, rp) ->
  let s1 := with_replacement_policy rp s in
  let victim := if selected =? 0 then set_begin (gpu_resident_pages_ s) else selected in
  evict_page_from_gpu s =
    if victim =? 0 then Some s1
    else
      match page_table_ s !! victim with
      | None => Some s1
      | Some entry =>
          let s2 :=
            if is_dirty entry && resident_on_cpu entry
            then counted_gpu_to_cpu victim s1 else s1 in
          let s3 :=
            with_allocator
              (PageAllocator.deallocate_gpu_page
                 (gpu_address (deref s2 victim)) (allocator_ s2)) s2 in
          let s4 :=
            update_entry victim
              (fun e => PTE.set_resident_on_gpu false (PTE.set_gpu_address 0 e)) s3 in
          let s5 :=
            with_gpu_resident_pages (gpu_resident_pages_ s4 ∖ {[victim]}) s4 in
          let s6 :=
            with_perf_counters (incr_evictions (perf_counters_ s5)) s5 in
          Some (with_tlb (TLB.invalidate victim (tlb_ s6)) s6)
      end.
Proof.
  intros Hne Hsel. unfold evict_page_from_gpu.
  rewrite bool_decide_false by exact Hne. rewrite Hsel.
  cbn [gpu_resident_pages_ with_replacement_policy page_table_
       PageTable.lookup_entry].
  assert ((0 <? Z.of_nat (size (gpu_resident_pages_ s))) = true) as ->.
  { apply Z.ltb_lt. assert (size (gpu_resident_pages_ s) <> 0%nat); [|lia].
    intros Hs. apply size_empty_inv in Hs. apply leibniz_equiv in Hs. contradiction. }
  rewrite andb_true_r. reflexivity.
Qed.

(** Page 0 is never the page evicted: its entry and its ledger
    membership come out of [evict_page_from_gpu] as they went in. *)
Lemma evict_spares_page_zero (s s' : VMM.t) :
  evict_page_from_gpu s = Some s' ->
  page_table_ s' !! 0 = page_table_ s !! 0 /\
  (0 ∈ gpu_resident_pages_ s' <-> 0 ∈ gpu_resident_pages_ s).
Proof.
  intros He.
  destruct (decide (gpu_resident_pages_ s = ∅)) as [Hem|Hne].
  { unfold evict_page_from_gpu in He. rewrite bool_decide_true in He by exact Hem.
    injection He as <-. split; reflexivity. }
  destruct (Policy.select_victim (replacement_policy_ s)) as [[sel rp]|] eqn:Hsel.
  2:{ unfold evict_page_from_gpu in He.
      rewrite bool_decide_false, Hsel in He by exact Hne. discriminate. }
  rewrite (evict_after_selection s sel rp Hne Hsel) in He. cbv zeta in He.
  set (victim := if sel =? 0 then set_begin (gpu_resident_pages_ s) else sel) in *.
  destruct (Z.eqb_spec victim 0) as [|Hv].
  { injection He as <-. split; reflexivity. }
  destruct (page_table_ s !! victim) as [entry|] eqn:Hent.
  2:{ injection He as <-. split; reflexivity. }
  injection He as <-.
  cbn [page_table_ gpu_resident_pages_ with_tlb with_perf_counters
       with_gpu_resident_pages update_entry with_page_table with_allocator].
  split.
  - rewrite lookup_alter_ne by exact Hv.
    destruct (is_dirty entry && resident_on_cpu entry); [|reflexivity].
    destruct (counted_gpu_to_cpu_shape victim (with_replacement_policy rp s))
      as (t & c & pt & -> & [->| ->]); cbn; [reflexivity|].
    rewrite lookup_alter_ne by exact Hv. reflexivity.
  - assert (gpu_resident_pages_
              (if is_dirty entry && resident_on_cpu entry
               then counted_gpu_to_cpu victim (with_replacement_policy rp s)
               else with_replacement_policy rp s) = gpu_resident_pages_ s) as ->.
    { destruct (is_dirty entry && resident_on_cpu entry); [|reflexivity].
      destruct (counted_gpu_to_cpu_shape victim (with_replacement_policy rp s))
        as (t & c & pt & -> & _). reflexivity. }
    rewrite elem_of_difference, elem_of_singleton.
    split; [intros [Hz _]; exact Hz|]. intros Hz. split; [exact Hz|].
    intros Heq. apply Hv. symmetry. exact Heq.
Qed.

(** The fall-back in full.  With a non-empty ledger and the policy's
    answer 0, the page considered is the first member [m] of the ledger.
    If [m] is page 0, or has no entry, the call ends with only the policy
    changed.  Otherwise [m] is evicted: it leaves the ledger, its entry
    loses the device flag and address, and one eviction is counted. *)
Lemma evict_zero_victim (s : VMM.t) (rp : ReplacementPolicy) :
  gpu_resident_pages_ s <> ∅ ->
  Policy.select_victim (replacement_policy_ s) = Some (0, rp) ->
  let m := set_begin (gpu_resident_pages_ s) in
  m ∈ gpu_resident_pages_ s /\
  (m = 0 \/ page_table_ s !! m = None ->
   evict_page_from_gpu s = Some (with_replacement_policy rp s)) /\
  (m <> 0 -> is_Some (page_table_ s !! m) ->
   exists s' e',
     evict_page_from_gpu s = Some s' /\
     gpu_resident_pages_ s' = gpu_resident_pages_ s ∖ {[m]} /\
     page_table_ s' !! m = Some e' /\
     resident_on_gpu e' = false /\ gpu_address e' = 0 /\
     evictions (perf_counters_ s') = wrap64 (evictions (perf_counters_ s) + 1)).
Proof.
  intros Hne Hsel m.
  pose proof (evict_after_selection s 0 rp Hne Hsel) as Hev.
  cbv zeta in Hev. change (0 =? 0) with true in Hev. cbv iota in Hev.
  fold m in Hev.
  split; [apply set_begin_elem; exact Hne|]. split.
  - intros [Hm|Hm]; rewrite Hev.
    + rewrite Hm. reflexivity.
    + destruct (m =? 0); [reflexivity|]. rewrite Hm. reflexivity.
  - intros Hm [entry Hent]. rewrite Hev.
    destruct (Z.eqb_spec m 0) as [|_]; [contradiction|]. rewrite Hent.
    set (s2 := if is_dirty entry && resident_on_cpu entry
               then counted_gpu_to_cpu m (with_replacement_policy rp s)
               else with_replacement_policy rp s).
    assert (gpu_resident_pages_ s2 = gpu_resident_pages_ s /\
            is_Some (page_table_ s2 !! m) /\
            evictions (perf_counters_ s2) = evictions (perf_counters_ s))
      as (Hl & [e2 He2] & Hc).
    { unfold s2. destruct (is_dirty entry && resident_on_cpu entry).
      - destruct (counted_gpu_to_cpu_shape m (with_replacement_policy rp s))
          as (t & c & pt & -> & [->| ->]); cbn.
        + rewrite Hent. eauto.
        + rewrite lookup_alter, decide_True, Hent by reflexivity. simpl. eauto.
      - cbn. rewrite Hent. eauto. }
    eexists _, _. split; [reflexivity|].
    cbn [page_table_ gpu_resident_pages_ perf_counters_ with_tlb with_perf_counters
         with_gpu_resident_pages update_entry with_page_table with_allocator].
    rewrite Hl, lookup_alter, decide_True, He2 by reflexivity. simpl.
    rewrite Hc. repeat split; reflexivity.
Qed.

End Eviction.

(** Page 0 allocated and mapped to the device, with two-page pools: the
    ledger is [{0}] and the LRU queue holds page 0. *)
Definition page_zero_on_device : VMM.t :=
  default nothing_allocated
    (VMM.map_to_gpu 0 (VMM.allocate 4096 false nothing_allocated).2).

(** Pages 0 and 1 allocated, page 1 alone mapped to the device: the LRU
    queue is [0; 1], the ledger is [{1}]. *)
Definition page_one_on_device : VMM.t :=
  default nothing_allocated
    (VMM.map_to_gpu 4096 (VMM.allocate 8192 false nothing_allocated).2).

(** C9, as stated, fails when the member the facade falls back on is
    page 0 itself: in [page_zero_on_device] the policy answers 0, the
    ledger is [{0}], and the call evicts nothing. *)
Lemma zero_victim_evicts_nothing_counterexample :
  ~ zero_victim_evicts_a_member page_zero_on_device.
Proof.
  intros Hc.
  destruct Hc as (s' & m & Hev & Hin & Hout).
  - intros Hem. apply (f_equal elements) in Hem. vm_compute in Hem. discriminate.
  - eexists. vm_compute. reflexivity.
  - pose proof (evict_spares_page_zero _ _ Hev) as [_ Hz].
    assert (m = 0) as ->.
    { apply elem_of_elements in Hin. vm_compute in Hin.
      apply list_elem_of_singleton in Hin. exact Hin. }
    apply Hout, Hz. exact Hin.
Qed.

(** C9, amended.  [evict_page_from_gpu] never evicts page 0.  Whenever
    the policy answers 0 while the ledger is not empty, the facade turns
    to the first member [m] of the ledger: if [m] is not page 0 and has
    an entry, [m] is evicted; if [m] is page 0 (or has no entry), nothing
    is evicted.  For LRU the page 0 that was popped is gone from the
    queue. *)
Theorem evict_never_honours_victim_zero `{SetIteration}
    (s : VMM.t) (rp : ReplacementPolicy) :
  VMM.gpu_resident_pages_ s <> ∅ ->
  Policy.select_victim (VMM.replacement_policy_ s) = Some (0, rp) ->
  zero_victim_fallback s rp.
Proof.
  intros Hne Hsel. unfold zero_victim_fallback. split; [|].
  - intros s'. apply evict_spares_page_zero.
  - destruct (evict_zero_victim s rp Hne Hsel) as (H1 & H2 & H3).
    split; [exact H1|]. split; [exact H2|]. split; [exact H3|].
    intros p rest Hp Hq. rewrite Hp in Hsel. simpl in Hsel.
    unfold LRUPolicy.select_victim in Hsel. rewrite Hq in Hsel.
    injection Hsel as <-. eexists. split; reflexivity.
Qed.

(** The policy of [page_one_on_device] once its head, page 0, is popped. *)
Definition policy_after_pop : ReplacementPolicy :=
  match Policy.select_victim (VMM.replacement_policy_ page_one_on_device) with
  | Some (_, rp) => rp
  | None => VMM.replacement_policy_ page_one_on_device
  end.

Lemma evict_never_honours_victim_zero_witness :
  VMM.gpu_resident_pages_ page_one_on_device <> ∅ /\
  Policy.select_victim (VMM.replacement_policy_ page_one_on_device) =
    Some (0, policy_after_pop) /\
  zero_victim_fallback page_one_on_device policy_after_pop.
Proof.
  assert (VMM.gpu_resident_pages_ page_one_on_device <> ∅) as Hne.
  { intros Hem. apply (f_equal elements) in Hem. vm_compute in Hem. discriminate. }
  assert (Policy.select_victim (VMM.replacement_policy_ page_one_on_device) =
            Some (0, policy_after_pop)) as Hsel.
  { vm_compute. reflexivity. }
  split; [exact Hne|]. split; [exact Hsel|].
  exact (evict_never_honours_victim_zero page_one_on_device policy_after_pop Hne Hsel).
Defined.

(** * VPN ranges in the page table *)

Section VpnRanges.

(** The keys [wrap64 (vpn_start + j)] for the [n] indices from [i] on:
    what a range loop that is at index [i] with [n] iterations to go
    still visits. *)
Fixpoint in_range (n : nat) (i vpn_start x : Z) : Prop :=
  match n with
  | O => False
  | S n' => x = wrap64 (vpn_start + i) \/ in_range n' (i + 1) vpn_start x
  end.

(** [pt'] has the entries of [pt] at every key outside [R]. *)
Definition agree_outside (R : Z -> Prop) (pt pt' : PageTable.t) : Prop :=
  forall x, ~ R x -> pt' !! x = pt !! x.

Lemma agree_outside_refl (R : Z -> Prop) (pt : PageTable.t) : agree_outside R pt pt.
Proof. intros x _. reflexivity. Qed.

Lemma agree_outside_trans (R : Z -> Prop) (pt1 pt2 pt3 : PageTable.t) :
  agree_outside R pt1 pt2 -> agree_outside R pt2 pt3 -> agree_outside R pt1 pt3.
Proof. intros H12 H23 x Hx. rewrite (H23 x Hx). apply H12, Hx. Qed.

Lemma agree_outside_alter (R : Z -> Prop) (pt : PageTable.t)
    (f : PageTableEntry -> PageTableEntry) (k : Z) :
  R k -> agree_outside R pt (alter f k pt).
Proof.
  intros Hk x Hx. apply lookup_alter_ne. intros ->. contradiction.
Qed.

Lemma set_cpu_resident_agree (R : Z -> Prop) (vpn addr : Z)
    (pt : PageTable.t) (c : Clock) :
  R vpn -> agree_outside R pt (PageTable.set_cpu_resident vpn addr pt c).1.
Proof.
  intros Hk. unfold PageTable.set_cpu_resident.
  destruct (pt !! vpn); simpl; [apply agree_outside_alter, Hk|apply agree_outside_refl].
Qed.

Lemma set_gpu_resident_agree (R : Z -> Prop) (vpn addr : Z)
    (pt : PageTable.t) (c : Clock) :
  R vpn -> agree_outside R pt (PageTable.set_gpu_resident vpn addr pt c).1.
Proof.
  intros Hk. unfold PageTable.set_gpu_resident.
  destruct (pt !! vpn); simpl; [apply agree_outside_alter, Hk|apply agree_outside_refl].
Qed.

Lemma update_access_time_agree (R : Z -> Prop) (vpn : Z)
    (pt : PageTable.t) (c : Clock) :
  R vpn -> agree_outside R pt (PageTable.update_access_time vpn pt c).1.
Proof.
  intros Hk. unfold PageTable.update_access_time.
  destruct (pt !! vpn); simpl; [apply agree_outside_alter, Hk|apply agree_outside_refl].
Qed.

Lemma migrate_cpu_to_gpu_agree (R : Z -> Prop) (vpn ca ga ps : Z)
    (pt : PageTable.t) (c : Clock) :
  R vpn -> agree_outside R pt (MigrationManager.migrate_cpu_to_gpu vpn ca ga ps pt c).1.2.
Proof.
  intros Hk. unfold MigrationManager.migrate_cpu_to_gpu, PageTable.lookup_entry.
  destruct (ca =? 0); simpl; [apply agree_outside_refl|].
  destruct (pt !! vpn); simpl; [apply agree_outside_alter, Hk|apply agree_outside_refl].
Qed.

(** A successful [allocate_vpn_range] found every key of the range
    absent and changed no other key. *)
Lemma allocate_vpn_range_from_true (n : nat) (i vpn_start : Z) (pt pt' : PageTable.t) :
  PageTable.allocate_vpn_range_from n i vpn_start pt = (true, pt') ->
  (forall x, in_range n i vpn_start x -> pt !! x = None) /\
  agree_outside (in_range n i vpn_start) pt pt'.
Proof.
  revert i pt. induction n as [|n IH]; intros i pt Ha; simpl in Ha.
  - injection Ha as <-. split; [intros x []|apply agree_outside_refl].
  - destruct (pt !! wrap64 (vpn_start + i)) eqn:E; [discriminate|].
    destruct (IH _ _ Ha) as [Hnone Hag]. split.
    + intros x [->|Hx]; [exact E|].
      specialize (Hnone x Hx).
      destruct (decide (x = wrap64 (vpn_start + i))) as [->|Hne]; [exact E|].
      rewrite lookup_insert_ne in Hnone by (intros Heq; apply Hne; symmetry; exact Heq).
      exact Hnone.
    + intros x Hx. simpl in Hx. rewrite Hag by tauto.
      apply lookup_insert_ne. intros Heq. apply Hx. left. symmetry. exact Heq.
Qed.

(** Whatever its answer, [allocate_vpn_range] keeps every entry that was
    there. *)
Lemma allocate_vpn_range_from_keeps (n : nat) (i vpn_start : Z)
    (pt : PageTable.t) (x : Z) (e : PageTableEntry) :
  pt !! x = Some e ->
  (PageTable.allocate_vpn_range_from n i vpn_start pt).2 !! x = Some e.
Proof.
  revert i pt. induction n as [|n IH]; intros i pt He; simpl; [exact He|].
  destruct (pt !! wrap64 (vpn_start + i)) eqn:E; [exact He|].
  apply IH. rewrite lookup_insert_ne; [exact He|]. intros <-. congruence.
Qed.

Lemma deallocate_vpn_range_from_outside (n : nat) (i vpn_start : Z) (pt : PageTable.t) :
  agree_outside (in_range n i vpn_start) pt
    (PageTable.deallocate_vpn_range_from n i vpn_start pt).
Proof.
  revert i pt. induction n as [|n IH]; intros i pt x Hx; simpl; [reflexivity|].
  simpl in Hx. rewrite IH by tauto.
  apply lookup_delete_ne. intros Heq. apply Hx. left. symmetry. exact Heq.
Qed.

(** Erasing the range gives back a table that had nothing in the range,
    from any table that differs from it only inside the range. *)
Lemma deallocate_vpn_range_from_restores (n : nat) (i vpn_start : Z)
    (pt pt1 : PageTable.t) :
  (forall x, in_range n i vpn_start x -> pt !! x = None) ->
  agree_outside (in_range n i vpn_start) pt pt1 ->
  PageTable.deallocate_vpn_range_from n i vpn_start pt1 = pt.
Proof.
  revert i pt1. induction n as [|n IH]; intros i pt1 Hnone Hag; simpl.
  - apply map_eq. intros x. apply Hag. intros [].
  - apply IH.
    + intros x Hx. apply Hnone. right. exact Hx.
    + intros x Hx.
      destruct (decide (x = wrap64 (vpn_start + i))) as [->|Hne].
      * rewrite lookup_delete_eq. symmetry. apply Hnone. left. reflexivity.
      * rewrite lookup_delete_ne by (intros Heq; apply Hne; symmetry; exact Heq).
        apply Hag. intros [Heq|Hin]; [contradiction|]. apply Hx, Hin.
Qed.

End VpnRanges.

(** * The host pool *)

Section HostPool.

Import PageAllocator.

(** What [initialize] establishes for the host pool and no operation
    undoes: a positive page size, a pool of fewer than [2^63] bytes at an
    address that is not null, and one bit per page of the pool. *)
Record cpu_pool_ok (a : PageAllocator.t) : Prop := mk_cpu_pool_ok {
  ok_page_size : 0 < page_size (config_ a);
  ok_pool_size : 0 <= cpu_page_pool_size (config_ a) < 2 ^ 63;
  ok_pool : 0 < cpu_pool_ a;
  ok_bitmap :
    length (cpu_page_bitmap_ a) =
      Z.to_nat (cpu_page_pool_size (config_ a) / page_size (config_ a))
}.

(** The address [allocate_cpu_page] returns for slot [i]. *)
Definition slot_address (a : PageAllocator.t) (i : nat) : Z :=
  cpu_pool_ a + wrap64 (Z.of_nat i * page_size (config_ a)).

Definition free_slots (bitmap : list bool) : nat :=
  length (filter (fun b : bool => b = false) bitmap).

Definition clear_slot (bitmap : list bool) (i : nat) : list bool :=
  <[i := false]> bitmap.

Lemma first_free_Some (bitmap : list bool) (i : nat) :
  first_free bitmap = Some i -> bitmap !! i = Some false.
Proof.
  unfold first_free. intros Hf.
  destruct (list_find _ bitmap) as [[j b]|] eqn:E; [|discriminate].
  simpl in Hf. injection Hf as ->.
  apply list_find_Some in E as (Hl & Hb & _). rewrite Hl, Hb. reflexivity.
Qed.

Lemma free_slots_take (bitmap : list bool) (i : nat) :
  bitmap !! i = Some false ->
  S (free_slots (<[i := true]> bitmap)) = free_slots bitmap.
Proof.
  unfold free_slots. revert i.
  induction bitmap as [|b bitmap IH]; intros [|i] Hl; simpl in *; try discriminate.
  - injection Hl as ->. rewrite !filter_cons. simpl.
    destruct (decide (false = false)); [reflexivity|contradiction].
  - rewrite !filter_cons. destruct (decide (b = false)); simpl;
      rewrite <- (IH i Hl); reflexivity.
Qed.

Lemma slot_offset_bounds (a : PageAllocator.t) (i : nat) :
  cpu_pool_ok a -> (i < length (cpu_page_bitmap_ a))%nat ->
  0 <= Z.of_nat i * page_size (config_ a) < cpu_page_pool_size (config_ a).
Proof.
  intros [Hps Hpool _ Hlen] Hi. rewrite Hlen in Hi.
  pose proof (Z.mul_div_le (cpu_page_pool_size (config_ a)) (page_size (config_ a)) Hps).
  assert (Z.of_nat i < cpu_page_pool_size (config_ a) / page_size (config_ a)) by lia.
  nia.
Qed.

Lemma wrap64_small (z : Z) : 0 <= z < 2 ^ 64 -> wrap64 z = z.
Proof. intros Hz. unfold wrap64. apply Z.mod_small. exact Hz. Qed.

Lemma to_ptrdiff_small (z : Z) : 0 <= z < 2 ^ 63 -> to_ptrdiff z = z.
Proof.
  intros Hz. unfold to_ptrdiff. rewrite Z.mod_small; lia.
Qed.

(** Giving back the address of slot [i] clears bit [i] and nothing else. *)
Lemma deallocate_slot (a : PageAllocator.t) (i : nat) :
  cpu_pool_ok a -> (i < length (cpu_page_bitmap_ a))%nat ->
  let a' := deallocate_cpu_page (slot_address a i) a in
  cpu_page_bitmap_ a' = clear_slot (cpu_page_bitmap_ a) i /\
  gpu_page_bitmap_ a' = gpu_page_bitmap_ a /\
  config_ a' = config_ a /\ cpu_pool_ a' = cpu_pool_ a.
Proof.
  intros Hok Hi.
  pose proof (slot_offset_bounds a i Hok Hi) as Hoff.
  destruct Hok as [Hps Hpool Hbase Hlen].
  assert (wrap64 (Z.of_nat i * page_size (config_ a)) =
            Z.of_nat i * page_size (config_ a)) as Hw
    by (apply wrap64_small; lia).
  unfold deallocate_cpu_page, slot_address, clear_slot. rewrite Hw.
  destruct (Z.eqb_spec (cpu_pool_ a + Z.of_nat i * page_size (config_ a)) 0) as [|_];
    [lia|].
  replace (cpu_pool_ a + Z.of_nat i * page_size (config_ a) - cpu_pool_ a)
    with (Z.of_nat i * page_size (config_ a)) by lia.
  rewrite !to_ptrdiff_small by lia.
  destruct (Z.ltb_spec (Z.of_nat i * page_size (config_ a)) 0) as [|_]; [lia|].
  destruct (Z.geb_spec (Z.of_nat i * page_size (config_ a))
              (cpu_page_pool_size (config_ a))) as [|_]; [lia|].
  cbn [orb]. rewrite Hw, Z.div_mul, Nat2Z.id by lia.
  destruct (lookup_lt_is_Some_2 _ _ Hi) as [b Hb]. rewrite Hb.
  destruct b; cbn.
  - repeat split; reflexivity.
  - rewrite list_insert_id by exact Hb. repeat split; reflexivity.
Qed.

Lemma deallocate_slot_ok (a : PageAllocator.t) (i : nat) :
  cpu_pool_ok a -> (i < length (cpu_page_bitmap_ a))%nat ->
  cpu_pool_ok (deallocate_cpu_page (slot_address a i) a).
Proof.
  intros Hok Hi. destruct (deallocate_slot a i Hok Hi) as (Hb & _ & Hc & Hp).
  destruct Hok as [Hps Hpool Hbase Hlen].
  constructor; rewrite ?Hc, ?Hp, ?Hb; unfold clear_slot;
    rewrite ?length_insert; assumption.
Qed.

(** The roll-back loop of [allocate] over the addresses of the slots
    [idxs]: their bits are cleared one after the other. *)
Lemma deallocate_slots (idxs : list nat) (a : PageAllocator.t) :
  cpu_pool_ok a ->
  Forall (fun j => (j < length (cpu_page_bitmap_ a))%nat) idxs ->
  let a' := foldl (fun acc p => deallocate_cpu_page p acc) a
                  (map (slot_address a) idxs) in
  cpu_page_bitmap_ a' = foldl clear_slot (cpu_page_bitmap_ a) idxs /\
  gpu_page_bitmap_ a' = gpu_page_bitmap_ a.
Proof.
  revert a. induction idxs as [|j idxs IH]; intros a Hok Hall; simpl.
  - split; reflexivity.
  - apply Forall_cons in Hall as [Hj Hall].
    destruct (deallocate_slot a j Hok Hj) as (Hb & Hg & Hc & Hp).
    pose proof (deallocate_slot_ok a j Hok Hj) as Hok'.
    set (a1 := deallocate_cpu_page (slot_address a j) a) in *.
    assert (map (slot_address a) idxs = map (slot_address a1) idxs) as ->.
    { apply map_ext. intros k. unfold slot_address. rewrite Hc, Hp. reflexivity. }
    destruct (IH a1 Hok') as [Hb' Hg'].
    { rewrite Hb. unfold clear_slot. rewrite length_insert. exact Hall. }
    rewrite Hb', Hg', Hb, Hg. split; reflexivity.
Qed.

Lemma clear_slots_length (idxs : list nat) (bitmap : list bool) :
  length (foldl clear_slot bitmap idxs) = length bitmap.
Proof.
  revert bitmap. induction idxs as [|j idxs IH]; intros bitmap; simpl; [reflexivity|].
  rewrite IH. apply length_insert.
Qed.

(** A bit that is clear stays clear. *)
Lemma clear_slots_keeps_clear (idxs : list nat) (bitmap : list bool) (i : nat) :
  bitmap !! i = Some false ->
  foldl clear_slot bitmap idxs !! i = Some false.
Proof.
  revert bitmap. induction idxs as [|j idxs IH]; intros bitmap Hi; simpl; [exact Hi|].
  apply IH. unfold clear_slot.
  destruct (decide (j = i)) as [->|Hne].
  - apply list_lookup_insert_eq. apply lookup_lt_Some in Hi. exact Hi.
  - rewrite list_lookup_insert_ne by exact Hne. exact Hi.
Qed.

Lemma clear_taken_slot (bitmap : list bool) (i : nat) :
  bitmap !! i = Some false -> clear_slot (<[i := true]> bitmap) i = bitmap.
Proof.
  intros Hi. unfold clear_slot. rewrite list_insert_insert_eq.
  apply list_insert_id, Hi.
Qed.

(** Clearing the slots [idxs] after bit [i], which was clear, has been
    set, and then clearing bit [i], is clearing the slots [idxs]. *)
Lemma clear_slots_after_take (idxs : list nat) (bitmap : list bool) (i : nat) :
  bitmap !! i = Some false ->
  clear_slot (foldl clear_slot (<[i := true]> bitmap) idxs) i =
    foldl clear_slot bitmap idxs.
Proof.
  revert bitmap. induction idxs as [|j idxs IH]; intros bitmap Hi; simpl.
  - apply clear_taken_slot, Hi.
  - destruct (decide (j = i)) as [->|Hne].
    + rewrite (clear_taken_slot bitmap i Hi).
      assert (clear_slot bitmap i = bitmap) as ->
        by (unfold clear_slot; apply list_insert_id, Hi).
      unfold clear_slot at 1. apply list_insert_id.
      apply clear_slots_keeps_clear, Hi.
    + assert (clear_slot (<[i := true]> bitmap) j = <[i := true]> (clear_slot bitmap j)) as ->.
      { unfold clear_slot. apply list_insert_insert_ne. exact Hne. }
      apply IH. unfold clear_slot. rewrite list_lookup_insert_ne by exact Hne. exact Hi.
Qed.

End HostPool.

(** Projections of the state after the record updates of the facade. *)
Ltac vmm_proj :=
  cbn [VMM.initialized_ VMM.config_ VMM.perf_counters_ VMM.page_table_
       VMM.allocator_ VMM.tlb_ VMM.replacement_policy_ VMM.next_vpn_
       VMM.vaddr_to_vpn_map_ VMM.gpu_resident_pages_ VMM.clock_
       VMM.with_perf_counters VMM.with_page_table VMM.with_allocator
       VMM.with_tlb VMM.with_replacement_policy VMM.with_next_vpn
       VMM.with_vaddr_to_vpn_map VMM.with_gpu_resident_pages VMM.with_clock
       VMM.update_entry
       PageAllocator.config_ PageAllocator.cpu_pages_allocated_
       PageAllocator.gpu_pages_allocated_ PageAllocator.cpu_pool_
       PageAllocator.cpu_page_bitmap_ PageAllocator.gpu_page_bitmap_] in *.

(** * allocate: the host loop and its roll-back *)

Section AllocateRollback.

Import VMM.

(** With fewer free host slots than iterations to go, the host loop of
    [allocate] fails; the host bitmap it leaves is the current one with
    the slots taken so far ([idxs]) cleared, the device bitmap is the
    current one. *)
Lemma allocate_cpu_pages_exhausted (n : nat) :
  forall (i vs np : Z) (idxs : list nat) (pages : list Z) (s : VMM.t),
    cpu_pool_ok (allocator_ s) ->
    pages = map (slot_address (allocator_ s)) idxs ->
    Forall (fun j => (j < length (PageAllocator.cpu_page_bitmap_ (allocator_ s)))%nat)
           idxs ->
    (free_slots (PageAllocator.cpu_page_bitmap_ (allocator_ s)) < n)%nat ->
    exists pages' s',
      allocate_cpu_pages n i vs np pages s = (false, pages', s') /\
      PageAllocator.cpu_page_bitmap_ (allocator_ s') =
        foldl clear_slot (PageAllocator.cpu_page_bitmap_ (allocator_ s)) idxs /\
      PageAllocator.gpu_page_bitmap_ (allocator_ s') =
        PageAllocator.gpu_page_bitmap_ (allocator_ s).
Proof.
  induction n as [|n IH]; intros i vs np idxs pages s Hok Hpages Hall Hfree; [lia|].
  cbn [allocate_cpu_pages]. unfold PageAllocator.allocate_cpu_page.
  destruct (PageAllocator.first_free (PageAllocator.cpu_page_bitmap_ (allocator_ s)))
    as [j|] eqn:Ef.
  - pose proof (first_free_Some _ _ Ef) as Hj.
    pose proof (lookup_lt_Some _ _ _ Hj) as Hlt.
    pose proof (slot_offset_bounds _ _ Hok Hlt) as Hoff.
    fold (slot_address (allocator_ s) j).
    destruct (Z.eqb_spec (slot_address (allocator_ s) j) 0) as [Hz|_].
    { exfalso. unfold slot_address in Hz. destruct Hok as [? ? ? ?].
      rewrite wrap64_small in Hz by lia. lia. }
    cbn [clock_ page_table_ with_allocator].
    destruct (PageTable.set_cpu_resident _ _ _ _) as [pt2 c2].
    destruct (PageTable.update_access_time _ _ _) as [pt3 c3].
    match goal with
    | |- context [allocate_cpu_pages n ?i' vs np ?pg ?st] =>
        destruct (IH i' vs np (idxs ++ [j]) pg st) as (pages' & s' & Hrun & Hb & Hg)
    end.
    + destruct Hok as [Hps Hpool Hbase Hlen]. constructor; vmm_proj; try assumption.
      rewrite length_insert. exact Hlen.
    + vmm_proj. rewrite Hpages, map_app. reflexivity.
    + vmm_proj. rewrite length_insert. apply Forall_app. split; [exact Hall|].
      apply Forall_singleton. exact Hlt.
    + vmm_proj. pose proof (free_slots_take _ _ Hj). lia.
    + exists pages', s'. split; [exact Hrun|].
      vmm_proj. rewrite Hb, Hg, foldl_app. cbn [foldl].
      split; [|reflexivity]. apply clear_slots_after_take, Hj.
  - cbn [Z.eqb]. eexists _, _. split; [reflexivity|].
    cbn [allocator_ with_allocator with_page_table].
    rewrite Hpages. apply deallocate_slots; assumption.
Qed.

(** The page table the host loop leaves: some table that differs from
    the one it started with only inside [R], any set of keys that holds
    the keys still to be visited; after a failure, that table with the
    whole range erased. *)
Lemma allocate_cpu_pages_table (R : Z -> Prop) (n : nat) :
  forall (i vs np : Z) (pages : list Z) (s : VMM.t)
         (ok : bool) (pages' : list Z) (s' : VMM.t),
    allocate_cpu_pages n i vs np pages s = (ok, pages', s') ->
    (forall x, in_range n i vs x -> R x) ->
    exists pt,
      agree_outside R (page_table_ s) pt /\
      page_table_ s' =
        if ok then pt else PageTable.deallocate_vpn_range vs np pt.
Proof.
  induction n as [|n IH]; intros i vs np pages s ok pages' s' Hrun HR.
  - cbn in Hrun. injection Hrun as <- <- <-.
    exists (page_table_ s). split; [apply agree_outside_refl|reflexivity].
  - cbn [allocate_cpu_pages] in Hrun.
    destruct (PageAllocator.allocate_cpu_page (allocator_ s)) as [cpu_page a].
    destruct (cpu_page =? 0).
    + injection Hrun as <- <- <-. exists (page_table_ s).
      split; [apply agree_outside_refl|reflexivity].
    + cbn [clock_ page_table_ with_allocator] in Hrun.
      assert (R (wrap64 (vs + i))) as Hk by (apply HR; left; reflexivity).
      pose proof (set_cpu_resident_agree R (wrap64 (vs + i)) cpu_page
                    (page_table_ s) (clock_ s) Hk) as H2.
      destruct (PageTable.set_cpu_resident _ _ _ _) as [pt2 c2].
      pose proof (update_access_time_agree R (wrap64 (vs + i)) pt2 c2 Hk) as H3.
      destruct (PageTable.update_access_time _ _ _) as [pt3 c3].
      cbn [fst] in H2, H3.
      destruct (IH _ _ _ _ _ _ _ _ Hrun) as (pt & Hag & Hpt).
      { intros x Hx. apply HR. right. exact Hx. }
      exists pt. split; [|exact Hpt].
      cbn in Hag. eapply agree_outside_trans; [|exact Hag].
      eapply agree_outside_trans; eassumption.
Qed.

End AllocateRollback.

(** The number of pages [allocate(bytes)] asks for. *)
Definition pages_requested (s : VMM.t) (bytes : Z) : Z :=
  wrap32 (align_to_page bytes (VMM.page_size (VMM.config_ s))
          / VMM.page_size (VMM.config_ s)).

(** C7.  On an initialised facade whose next VPN range is free and whose
    host pool has fewer free slots than the pages requested, [allocate]
    returns null, and the host bitmap, the device bitmap and the page
    table are those from before the call. *)
Theorem allocate_host_exhaustion_rolls_back (s : VMM.t) (bytes : Z) (prefetch : bool) :
  VMM.initialized_ s = true ->
  cpu_pool_ok (VMM.allocator_ s) ->
  (PageTable.allocate_vpn_range (VMM.next_vpn_ s) (pages_requested s bytes)
     (VMM.page_table_ s)).1 = true ->
  Z.of_nat (free_slots (PageAllocator.cpu_page_bitmap_ (VMM.allocator_ s)))
    < pages_requested s bytes ->
  exists s',
    VMM.allocate bytes prefetch s = (0, s') /\
    PageAllocator.cpu_page_bitmap_ (VMM.allocator_ s') =
      PageAllocator.cpu_page_bitmap_ (VMM.allocator_ s) /\
    PageAllocator.gpu_page_bitmap_ (VMM.allocator_ s') =
      PageAllocator.gpu_page_bitmap_ (VMM.allocator_ s) /\
    VMM.page_table_ s' = VMM.page_table_ s.
Proof.
  intros Hi Hok Hrange Hfree. unfold VMM.allocate. rewrite Hi. cbn [negb].
  fold (pages_requested s bytes).
  destruct (PageTable.allocate_vpn_range (VMM.next_vpn_ s) (pages_requested s bytes)
              (VMM.page_table_ s)) as [ok pt1] eqn:Ea.
  cbn [fst] in Hrange. subst ok.
  pose proof (allocate_vpn_range_from_true _ _ _ _ _ Ea) as [Hnone Hag].
  destruct (allocate_cpu_pages_exhausted (Z.to_nat (pages_requested s bytes)) 0
              (VMM.next_vpn_ s) (pages_requested s bytes) [] []
              (VMM.with_page_table pt1 s))
    as (pages' & s' & Hrun & Hb & Hg);
    [exact Hok | reflexivity | constructor | cbn; lia |].
  rewrite Hrun. exists s'. split; [reflexivity|].
  cbn in Hb, Hg. split; [exact Hb|]. split; [exact Hg|].
  destruct (allocate_cpu_pages_table
              (in_range (Z.to_nat (pages_requested s bytes)) 0 (VMM.next_vpn_ s))
              _ _ _ _ _ _ _ _ _ Hrun) as (pt & Hag' & ->); [tauto|].
  apply deallocate_vpn_range_from_restores; [exact Hnone|].
  eapply agree_outside_trans; [exact Hag|exact Hag'].
Qed.

Lemma allocate_host_exhaustion_rolls_back_witness :
  exists s',
    VMM.allocate 12288 true nothing_allocated = (0, s') /\
    PageAllocator.cpu_page_bitmap_ (VMM.allocator_ s') = [false; false] /\
    PageAllocator.gpu_page_bitmap_ (VMM.allocator_ s') = [false; false] /\
    VMM.page_table_ s' = ∅.
Proof.
  apply (allocate_host_exhaustion_rolls_back nothing_allocated 12288 true).
  - reflexivity.
  - constructor; vm_compute; try reflexivity. split; [discriminate|reflexivity].
  - vm_compute. reflexivity.
  - vm_compute. reflexivity.
Defined.

(** * Properties that the fault and eviction paths preserve *)

(** An update of a page table entry that leaves its host side alone. *)
Definition host_neutral (f : PageTableEntry -> PageTableEntry) : Prop :=
  forall e, resident_on_cpu (f e) = resident_on_cpu e /\
            cpu_address (f e) = cpu_address e.

(** A property of the facade state is [stable] when it survives each of
    the elementary updates that the fault, mapping, access and eviction
    paths are made of: replacing a subsystem other than the page table,
    bumping a counter the way the source does, a host-neutral write
    through an entry pointer, setting [resident_on_cpu], giving a host
    address to an entry that has none, and writing back the host address
    an entry already has. *)
Record stable (P : VMM.t -> Prop) : Prop := mk_stable {
  st_allocator : forall a s, P s -> P (VMM.with_allocator a s);
  st_tlb : forall tl s, P s -> P (VMM.with_tlb tl s);
  st_policy : forall rp s, P s -> P (VMM.with_replacement_policy rp s);
  st_ledger : forall g s, P s -> P (VMM.with_gpu_resident_pages g s);
  st_clock : forall c s, P s -> P (VMM.with_clock c s);
  st_faults : forall s,
    P s -> P (VMM.with_perf_counters (incr_page_faults (VMM.perf_counters_ s)) s);
  st_evictions : forall s,
    P s -> P (VMM.with_perf_counters (incr_evictions (VMM.perf_counters_ s)) s);
  st_cpu_to_gpu : forall mig_time s,
    P s ->
    P (VMM.with_perf_counters
         (count_cpu_to_gpu (VMM.page_size (VMM.config_ s)) mig_time
            (VMM.perf_counters_ s)) s);
  st_gpu_to_cpu : forall mig_time s,
    P s ->
    P (VMM.with_perf_counters
         (count_gpu_to_cpu (VMM.page_size (VMM.config_ s)) mig_time
            (VMM.perf_counters_ s)) s);
  st_update : forall v f s, host_neutral f -> P s -> P (VMM.update_entry v f s);
  st_set_host : forall v s,
    P s -> P (VMM.update_entry v (PTE.set_resident_on_cpu true) s);
  st_assign_host : forall v a s,
    cpu_address (VMM.deref s v) = 0 ->
    P s -> P (VMM.update_entry v (PTE.set_cpu_address a) s);
  st_write_back : forall v s,
    P s ->
    P (VMM.update_entry v
         (fun e => PTE.set_cpu_address (cpu_address (VMM.deref s v))
                     (PTE.set_resident_on_cpu true e)) s)
}.

Section StablePaths.

Context `{SetIteration}.
Context (P : VMM.t -> Prop) (HP : stable P).

Import VMM.

Lemma with_page_table_id (s : VMM.t) : with_page_table (page_table_ s) s = s.
Proof. destruct s. reflexivity. Qed.

Lemma stable_evictions (p : PerfCounters) (s : VMM.t) :
  p = incr_evictions (perf_counters_ s) -> P s -> P (with_perf_counters p s).
Proof. intros ->. apply (st_evictions P HP). Qed.

Lemma stable_counted_gpu_to_cpu (v : Z) (s : VMM.t) :
  P s -> P (counted_gpu_to_cpu v s).
Proof.
  intros Hs.
  destruct (counted_gpu_to_cpu_shape v s) as (t & c & pt & -> & Hpt).
  apply (st_gpu_to_cpu P HP t (with_clock c (with_page_table pt s))).
  apply (st_clock P HP).
  destruct Hpt as [->| ->].
  - rewrite with_page_table_id. exact Hs.
  - apply (st_write_back P HP v s Hs).
Qed.

Lemma stable_counted_cpu_to_gpu (v : Z) (s : VMM.t) :
  P s -> P (counted_cpu_to_gpu v s).
Proof.
  intros Hs.
  destruct (counted_cpu_to_gpu_shape v s) as (t & c & pt & -> & Hpt).
  apply (st_cpu_to_gpu P HP t (with_clock c (with_page_table pt s))).
  apply (st_clock P HP).
  destruct Hpt as [->| ->].
  - rewrite with_page_table_id. exact Hs.
  - apply (st_update P HP v _ s); [|exact Hs]. intros e. split; reflexivity.
Qed.

Lemma stable_evict (s s' : VMM.t) :
  evict_page_from_gpu s = Some s' -> P s -> P s'.
Proof.
  unfold evict_page_from_gpu. intros He Hs.
  case_bool_decide; [injection He as <-; exact Hs|].
  destruct (Policy.select_victim (replacement_policy_ s)) as [[sel rp]|];
    [|discriminate].
  cbv zeta in He.
  destruct (_ =? 0) in He; [injection He as <-; apply (st_policy P HP), Hs|].
  destruct (PageTable.lookup_entry _ _) as [entry|] in He;
    [|injection He as <-; apply (st_policy P HP), Hs].
  injection He as <-.
  apply (st_tlb P HP). apply stable_evictions; [reflexivity|].
  apply (st_ledger P HP).
  apply (st_update P HP); [intros e; split; reflexivity|].
  apply (st_allocator P HP).
  destruct (is_dirty entry && resident_on_cpu entry).
  - apply stable_counted_gpu_to_cpu, (st_policy P HP), Hs.
  - apply (st_policy P HP), Hs.
Qed.

Lemma stable_assign_gpu_page (v : Z) (s : VMM.t) :
  P s -> P (assign_gpu_page v s).
Proof.
  intros Hs. unfold assign_gpu_page.
  destruct (PageAllocator.allocate_gpu_page (allocator_ s)) as [addr a].
  apply (st_update P HP); [intros e; split; reflexivity|].
  apply (st_allocator P HP), Hs.
Qed.

Lemma stable_fault_to_gpu (v : Z) (s s' : VMM.t) :
  fault_to_gpu v s = Some s' -> P s -> P s'.
Proof.
  unfold fault_to_gpu. intros Hf Hs.
  match type of Hf with
  | match ?slot with _ => _ end = _ => destruct slot as [s3|] eqn:Eslot
  end; [|discriminate].
  assert (P s3) as Hs3.
  { destruct (gpu_address (deref s v) =? 0); [|injection Eslot as <-; exact Hs].
    destruct (gpu_address (deref (assign_gpu_page v s) v) =? 0).
    - destruct (evict_page_from_gpu (assign_gpu_page v s)) as [s2|] eqn:Ev;
        [|discriminate].
      injection Eslot as <-. apply stable_assign_gpu_page.
      apply (stable_evict _ _ Ev), stable_assign_gpu_page, Hs.
    - injection Eslot as <-. apply stable_assign_gpu_page, Hs. }
  injection Hf as <-.
  apply (st_ledger P HP).
  apply (st_update P HP); [intros e; split; reflexivity|].
  destruct (resident_on_cpu (deref s3 v)); [|exact Hs3].
  apply stable_counted_cpu_to_gpu, Hs3.
Qed.

Lemma stable_fault_to_cpu (v : Z) (s : VMM.t) :
  P s -> P (fault_to_cpu v s).
Proof.
  intros Hs. unfold fault_to_cpu.
  apply (st_set_host P HP).
  match goal with
  | |- P (if _ then counted_gpu_to_cpu v ?s1 else ?s1) => assert (P s1) as Hs1
  end.
  { destruct (Z.eqb_spec (cpu_address (deref s v)) 0) as [Hz|_]; [|exact Hs].
    destruct (PageAllocator.allocate_cpu_page (allocator_ s)) as [addr a].
    apply (st_assign_host P HP); [exact Hz|]. apply (st_allocator P HP), Hs. }
  destruct (resident_on_gpu _); [|exact Hs1].
  apply stable_counted_gpu_to_cpu, Hs1.
Qed.

Lemma stable_resolve_page_fault (v : Z) (access_gpu : bool) (s s' : VMM.t) :
  resolve_page_fault v access_gpu s = Some s' -> P s -> P s'.
Proof.
  unfold resolve_page_fault. intros Hr Hs.
  destruct (PageTable.lookup_entry _ _) as [entry|]; [|injection Hr as <-; exact Hs].
  destruct access_gpu.
  - destruct (negb (resident_on_gpu entry));
      [exact (stable_fault_to_gpu _ _ _ Hr Hs)|injection Hr as <-; exact Hs].
  - destruct (negb (resident_on_cpu entry)); injection Hr as <-;
      [apply stable_fault_to_cpu, Hs|exact Hs].
Qed.

Lemma stable_map_to_cpu (vaddr : Z) (s s' : VMM.t) :
  map_to_cpu vaddr s = Some s' -> P s -> P s'.
Proof.
  unfold map_to_cpu. intros Hm Hs.
  destruct (negb (initialized_ s)); [injection Hm as <-; exact Hs|].
  destruct (PageTable.lookup_entry _ _) as [entry|]; [|injection Hm as <-; exact Hs].
  destruct (negb (resident_on_cpu entry)); [|injection Hm as <-; exact Hs].
  exact (stable_resolve_page_fault _ _ _ _ Hm Hs).
Qed.

Lemma stable_map_to_gpu (vaddr : Z) (s s' : VMM.t) :
  map_to_gpu vaddr s = Some s' -> P s -> P s'.
Proof.
  unfold map_to_gpu. intros Hm Hs.
  destruct (negb (initialized_ s)); [injection Hm as <-; exact Hs|].
  destruct (PageTable.lookup_entry _ _) as [entry|]; [|injection Hm as <-; exact Hs].
  destruct (negb (resident_on_gpu entry)); [|injection Hm as <-; exact Hs].
  exact (stable_fault_to_gpu _ _ _ Hm Hs).
Qed.

Lemma stable_touch_page (vaddr : Z) (is_write : bool) (s s' : VMM.t) :
  touch_page vaddr is_write s = Some s' -> P s -> P s'.
Proof.
  unfold touch_page. intros Ht Hs.
  destruct (negb (initialized_ s)); [injection Ht as <-; exact Hs|].
  cbv zeta in Ht.
  match type of Ht with
  | match ?faulted with _ => _ end = _ => destruct faulted as [s1|] eqn:Ef
  end; [|discriminate].
  assert (P s1) as Hs1.
  { destruct (PageTable.lookup_entry _ _) in Ef; [injection Ef as <-; exact Hs|].
    apply (stable_resolve_page_fault _ _ _ _ Ef), (st_faults P HP), Hs. }
  destruct (PageTable.lookup_entry (page_table_ s1) _);
    [|injection Ht as <-; exact Hs1].
  cbn [get_timestamp_us] in Ht. injection Ht as <-.
  apply (st_policy P HP).
  assert (P (update_entry (vaddr_to_vpn vaddr (page_size (config_ s)))
               (fun e => PTE.incr_access_count
                  (PTE.set_access_timestamp_us
                     (wrap64 (ticks (clock_ s1) (reads (clock_ s1)))) e))
               (with_clock (mkClock (ticks (clock_ s1)) (S (reads (clock_ s1)))) s1)))
    as Hs2.
  { apply (st_update P HP); [intros e; split; reflexivity|].
    apply (st_clock P HP), Hs1. }
  destruct is_write; [|exact Hs2].
  apply (st_update P HP); [intros e; split; reflexivity|exact Hs2].
Qed.

Lemma stable_read_from_vaddr (vaddr buffer : Z) (s s' : VMM.t) :
  read_from_vaddr vaddr buffer s = Some s' -> P s -> P s'.
Proof.
  unfold read_from_vaddr. intros Hr Hs.
  destruct (_ || _); [injection Hr as <-; exact Hs|].
  cbv zeta in Hr.
  destruct (PageTable.lookup_entry _ _) as [entry|] in Hr;
    [|injection Hr as <-; exact Hs].
  match type of Hr with
  | match ?faulted with _ => _ end = _ => destruct faulted as [s1|] eqn:Ef
  end; [|discriminate].
  assert (P s1) as Hs1.
  { destruct (negb (resident_on_cpu entry)); [|injection Ef as <-; exact Hs].
    exact (stable_resolve_page_fault _ _ _ _ Ef Hs). }
  destruct (PageTable.lookup_entry (page_table_ s1) _) as [e1|];
    [|injection Hr as <-; exact Hs1].
  destruct (cpu_address e1 =? 0); [injection Hr as <-; exact Hs1|].
  cbn [get_timestamp_us] in Hr. injection Hr as <-.
  apply (st_update P HP); [intros e; split; reflexivity|].
  apply (st_clock P HP), Hs1.
Qed.

Lemma stable_write_to_vaddr (vaddr buffer : Z) (s s' : VMM.t) :
  write_to_vaddr vaddr buffer s = Some s' -> P s -> P s'.
Proof.
  unfold write_to_vaddr. intros Hr Hs.
  destruct (_ || _); [injection Hr as <-; exact Hs|].
  cbv zeta in Hr.
  destruct (PageTable.lookup_entry _ _) as [entry|] in Hr;
    [|injection Hr as <-; exact Hs].
  match type of Hr with
  | match ?faulted with _ => _ end = _ => destruct faulted as [s1|] eqn:Ef
  end; [|discriminate].
  assert (P s1) as Hs1.
  { destruct (negb (resident_on_cpu entry)); [|injection Ef as <-; exact Hs].
    exact (stable_resolve_page_fault _ _ _ _ Ef Hs). }
  destruct (PageTable.lookup_entry (page_table_ s1) _) as [e1|];
    [|injection Hr as <-; exact Hs1].
  destruct (cpu_address e1 =? 0); [injection Hr as <-; exact Hs1|].
  cbn [get_timestamp_us] in Hr. injection Hr as <-.
  apply (st_update P HP); [intros e; split; reflexivity|].
  apply (st_clock P HP).
  apply (st_update P HP); [intros e; split; reflexivity|exact Hs1].
Qed.

End StablePaths.

(** * Sequences of facade operations *)

(** The operations of one configured lifetime of the facade: the public
    ones, and the two private steps they are built on. *)
Inductive Op :=
| Allocate (bytes : Z) (prefetch_to_gpu : bool)
| Free (vaddr : Z)
| MapToCpu (vaddr : Z)
| MapToGpu (vaddr : Z)
| PrefetchToGpu (vaddr : Z)
| TouchPage (vaddr : Z) (is_write : bool)
| ReadFromVaddr (vaddr buffer : Z)
| WriteToVaddr (vaddr buffer : Z)
| ResolvePageFault (vpn : Z) (access_gpu : bool)
| EvictPageFromGpu
| ResetCounters.

Section FacadeRuns.

Context `{SetIteration}.

Import VMM.

(** One operation; [None] when it runs into the undefined read of the
    CLOCK policy. *)
Definition run_op (op : Op) (s : VMM.t) : option VMM.t :=
  match op with
  | Allocate bytes prefetch => Some (allocate bytes prefetch s).2
  | Free vaddr => Some (free vaddr s)
  | MapToCpu vaddr => map_to_cpu vaddr s
  | MapToGpu vaddr => map_to_gpu vaddr s
  | PrefetchToGpu vaddr => prefetch_to_gpu vaddr s
  | TouchPage vaddr is_write => touch_page vaddr is_write s
  | ReadFromVaddr vaddr buffer => read_from_vaddr vaddr buffer s
  | WriteToVaddr vaddr buffer => write_to_vaddr vaddr buffer s
  | ResolvePageFault vpn access_gpu => resolve_page_fault vpn access_gpu s
  | EvictPageFromGpu => evict_page_from_gpu s
  | ResetCounters => Some (reset_counters s)
  end.

Fixpoint run (ops : list Op) (s : VMM.t) : option VMM.t :=
  match ops with
  | [] => Some s
  | op :: rest =>
      match run_op op s with
      | Some s1 => run rest s1
      | None => None
      end
  end.

End FacadeRuns.

(** * Accounting of migrated bytes *)

Section Accounting.

Context `{SetIteration}.

Import VMM.

(** [total_bytes_migrated] is the page size times the number of
    migrations, in the 64-bit arithmetic of the counters. *)
Definition consistent (ps : Z) (p : PerfCounters) : Prop :=
  total_bytes_migrated p =
    wrap64 (ps * (cpu_to_gpu_migrations p + gpu_to_cpu_migrations p)).

Definition migrated_bytes_consistent (s : VMM.t) : Prop :=
  consistent (page_size (config_ s)) (perf_counters_ s).

Lemma wrap64_count (ps a b : Z) :
  wrap64 (wrap64 (ps * (a + b)) + ps) = wrap64 (ps * (wrap64 (a + 1) + b)).
Proof.
  unfold wrap64.
  rewrite Zplus_mod_idemp_l.
  rewrite <- (Z.mul_mod_idemp_r ps ((a + 1) mod 2 ^ 64 + b)) by lia.
  rewrite Zplus_mod_idemp_l.
  rewrite Z.mul_mod_idemp_r by lia.
  f_equal. ring.
Qed.

Lemma consistent_cpu_to_gpu (ps t : Z) (p : PerfCounters) :
  consistent ps p -> consistent ps (count_cpu_to_gpu ps t p).
Proof.
  unfold consistent. intros Hc. cbn. rewrite Hc. apply wrap64_count.
Qed.

Lemma consistent_gpu_to_cpu (ps t : Z) (p : PerfCounters) :
  consistent ps p -> consistent ps (count_gpu_to_cpu ps t p).
Proof.
  unfold consistent. intros Hc. cbn. rewrite Hc.
  rewrite (Z.add_comm (cpu_to_gpu_migrations p)).
  rewrite wrap64_count. f_equal. f_equal. lia.
Qed.

Lemma consistent_stable : stable migrated_bytes_consistent.
Proof.
  constructor; unfold migrated_bytes_consistent; intros; vmm_proj;
    try assumption.
  - apply consistent_cpu_to_gpu. assumption.
  - apply consistent_gpu_to_cpu. assumption.
Qed.

(** The host loop of [allocate] counts nothing. *)
Lemma allocate_cpu_pages_counts_nothing (n : nat) :
  forall (i vs np : Z) (pages : list Z) (s : VMM.t),
    let s' := (allocate_cpu_pages n i vs np pages s).2 in
    config_ s' = config_ s /\ perf_counters_ s' = perf_counters_ s.
Proof.
  induction n as [|n IH]; intros i vs np pages s; cbn [allocate_cpu_pages].
  - split; reflexivity.
  - destruct (PageAllocator.allocate_cpu_page (allocator_ s)) as [cpu_page a].
    destruct (cpu_page =? 0); [split; reflexivity|].
    vmm_proj.
    destruct (PageTable.set_cpu_resident _ _ _ _) as [pt2 c2].
    destruct (PageTable.update_access_time _ _ _) as [pt3 c3].
    match goal with
    | |- context [allocate_cpu_pages n ?i' vs np ?pg ?st] =>
        destruct (IH i' vs np pg st) as [Hc Hp]
    end.
    cbv zeta. rewrite Hc, Hp. split; reflexivity.
Qed.

(** Every page the prefetch loop migrates is counted once, with its
    bytes. *)
Lemma prefetch_pages_consistent (n : nat) :
  forall (i vs : Z) (pages : list Z) (s : VMM.t),
    migrated_bytes_consistent s ->
    migrated_bytes_consistent (prefetch_pages n i vs pages s).
Proof.
  induction n as [|n IH]; intros i vs pages s Hs; cbn [prefetch_pages]; [exact Hs|].
  destruct (PageAllocator.allocate_gpu_page (allocator_ s)) as [gpu_addr a].
  destruct (gpu_addr =? 0); [apply IH; exact Hs|].
  vmm_proj.
  destruct (PageTable.set_gpu_resident _ _ _ _) as [pt2 c2].
  destruct (MigrationManager.migrate_cpu_to_gpu _ _ _ _ _ _) as [[mig_time pt3] c3].
  apply IH. unfold migrated_bytes_consistent in *. vmm_proj.
  apply (consistent_cpu_to_gpu _ mig_time) in Hs. exact Hs.
Qed.

Lemma allocate_consistent (bytes : Z) (prefetch : bool) (s : VMM.t) :
  migrated_bytes_consistent s ->
  migrated_bytes_consistent (allocate bytes prefetch s).2.
Proof.
  intros Hs. unfold allocate.
  destruct (negb (initialized_ s)); [exact Hs|]. cbv zeta.
  destruct (PageTable.allocate_vpn_range _ _ _) as [[|] pt1]; [|exact Hs].
  match goal with
  | |- context [allocate_cpu_pages ?n ?i ?vs ?np ?pg ?st] =>
      pose proof (allocate_cpu_pages_counts_nothing n i vs np pg st) as [Hc Hp];
      destruct (allocate_cpu_pages n i vs np pg st) as [[ok pages] s2]
  end.
  cbn [snd] in Hc, Hp. vmm_proj.
  assert (migrated_bytes_consistent s2) as Hs2.
  { unfold migrated_bytes_consistent. rewrite Hc, Hp. exact Hs. }
  destruct ok; [|exact Hs2].
  destruct prefetch; [|exact Hs2].
  cbn [snd]. unfold migrated_bytes_consistent. vmm_proj.
  apply prefetch_pages_consistent, Hs2.
Qed.

Lemma free_pages_counts_nothing (n : nat) :
  forall (i vs : Z) (s : VMM.t),
    config_ (free_pages n i vs s) = config_ s /\
    perf_counters_ (free_pages n i vs s) = perf_counters_ s.
Proof.
  induction n as [|n IH]; intros i vs s; cbn [free_pages]; [split; reflexivity|].
  match goal with
  | |- context [free_pages n ?i' vs ?st] => destruct (IH i' vs st) as [Hc Hp]
  end.
  cbv zeta. rewrite Hc, Hp. split; reflexivity.
Qed.

Lemma free_consistent (vaddr : Z) (s : VMM.t) :
  migrated_bytes_consistent s -> migrated_bytes_consistent (free vaddr s).
Proof.
  intros Hs. unfold free.
  destruct (negb (initialized_ s)); [exact Hs|].
  destruct (vaddr_to_vpn_map_ s !! vaddr) as [vpn_start|]; [|exact Hs].
  cbv zeta. unfold migrated_bytes_consistent. vmm_proj.
  match goal with
  | |- context [free_pages ?n ?i ?vs s] =>
      destruct (free_pages_counts_nothing n i vs s) as [Hc Hp]
  end.
  rewrite Hc, Hp. exact Hs.
Qed.

Lemma run_op_consistent (op : Op) (s s' : VMM.t) :
  run_op op s = Some s' ->
  migrated_bytes_consistent s -> migrated_bytes_consistent s'.
Proof.
  intros Hr Hs. destruct op; cbn [run_op] in Hr.
  - injection Hr as <-. apply allocate_consistent, Hs.
  - injection Hr as <-. apply free_consistent, Hs.
  - exact (stable_map_to_cpu _ consistent_stable _ _ _ Hr Hs).
  - exact (stable_map_to_gpu _ consistent_stable _ _ _ Hr Hs).
  - exact (stable_map_to_gpu _ consistent_stable _ _ _ Hr Hs).
  - exact (stable_touch_page _ consistent_stable _ _ _ _ Hr Hs).
  - exact (stable_read_from_vaddr _ consistent_stable _ _ _ _ Hr Hs).
  - exact (stable_write_to_vaddr _ consistent_stable _ _ _ _ Hr Hs).
  - exact (stable_resolve_page_fault _ consistent_stable _ _ _ _ Hr Hs).
  - exact (stable_evict _ consistent_stable _ _ Hr Hs).
  - injection Hr as <-. unfold migrated_bytes_consistent, consistent. cbn.
    rewrite Z.mul_0_r. reflexivity.
Qed.

Lemma run_consistent (ops : list Op) :
  forall s s', run ops s = Some s' ->
    migrated_bytes_consistent s -> migrated_bytes_consistent s'.
Proof.
  induction ops as [|op ops IH]; intros s s' Hr Hs; cbn [run] in Hr.
  - injection Hr as <-. exact Hs.
  - destruct (run_op op s) as [s1|] eqn:E; [|discriminate].
    apply (IH _ _ Hr). exact (run_op_consistent _ _ _ E Hs).
Qed.

End Accounting.

(** * Lifetimes of the facade *)


Section Lifetimes.

Context `{SetIteration}.

Import VMM.










End Lifetimes.










(** * The host copy of a page *)

Section HostCopy.

Context `{SetIteration}.

Import VMM.

(** Page [v0] has an entry that is host resident at address [a0]. *)
Definition host_at (v0 a0 : Z) (s : VMM.t) : Prop :=
  exists e, page_table_ s !! v0 = Some e /\
            resident_on_cpu e = true /\ cpu_address e = a0.

Lemma host_at_alter (v0 a0 v : Z) (f : PageTableEntry -> PageTableEntry) (s : VMM.t) :
  (v = v0 -> forall e, page_table_ s !! v0 = Some e ->
     resident_on_cpu e = true -> cpu_address e = a0 ->
     resident_on_cpu (f e) = true /\ cpu_address (f e) = a0) ->
  host_at v0 a0 s -> host_at v0 a0 (update_entry v f s).
Proof.
  intros Hf (e & He & Hr & Ha). unfold host_at. vmm_proj.
  rewrite lookup_alter. case_decide as Hv.
  - subst v. rewrite He. simpl. eexists. split; [reflexivity|].
    apply (Hf eq_refl e He Hr Ha).
  - exists e. auto.
Qed.

Lemma host_at_stable (v0 a0 : Z) : a0 <> 0 -> stable (host_at v0 a0).
Proof.
  intros Ha0. constructor; intros; try assumption.
  - apply host_at_alter; [|assumption]. intros _ e _ Hr Ha.
    destruct (H0 e) as [-> ->]. auto.
  - apply host_at_alter; [|assumption]. intros _ e _ Hr Ha. auto.
  - apply host_at_alter; [|assumption]. intros -> e He Hr Ha.
    unfold deref in *. rewrite He in *. simpl in *. congruence.
  - apply host_at_alter; [|assumption]. intros -> e He Hr Ha.
    unfold deref. rewrite He. simpl. auto.
Qed.

(** The prefetch loop writes only entries of the range it walks. *)
Lemma prefetch_pages_table (R : Z -> Prop) (n : nat) :
  forall (i vs : Z) (pages : list Z) (s : VMM.t),
    (forall x, in_range n i vs x -> R x) ->
    agree_outside R (page_table_ s) (page_table_ (prefetch_pages n i vs pages s)).
Proof.
  induction n as [|n IH]; intros i vs pages s HR; cbn [prefetch_pages];
    [apply agree_outside_refl|].
  assert (forall x, in_range n (i + 1) vs x -> R x) as HR'
    by (intros x Hx; apply HR; right; exact Hx).
  assert (R (wrap64 (vs + i))) as Hk by (apply HR; left; reflexivity).
  destruct (PageAllocator.allocate_gpu_page (allocator_ s)) as [gpu_addr a].
  destruct (gpu_addr =? 0); [exact (IH _ _ _ _ HR')|].
  vmm_proj.
  pose proof (set_gpu_resident_agree R (wrap64 (vs + i)) gpu_addr
                (page_table_ s) (clock_ s) Hk) as H2.
  destruct (PageTable.set_gpu_resident _ _ _ _) as [pt2 c2]. cbn [fst] in H2.
  match goal with
  | |- context [MigrationManager.migrate_cpu_to_gpu ?v ?ca ?ga ?ps ?pt ?c] =>
      pose proof (migrate_cpu_to_gpu_agree R v ca ga ps pt c Hk) as H3;
      destruct (MigrationManager.migrate_cpu_to_gpu v ca ga ps pt c)
        as [[mig_time pt3] c3]
  end.
  cbn [fst snd] in H3.
  eapply agree_outside_trans; [|apply IH; exact HR'].
  vmm_proj. eapply agree_outside_trans; eassumption.
Qed.

(** [allocate] leaves every entry that exists as it is. *)
Lemma allocate_keeps_entries (bytes : Z) (prefetch : bool) (s : VMM.t)
    (x : Z) (e : PageTableEntry) :
  page_table_ s !! x = Some e ->
  page_table_ (allocate bytes prefetch s).2 !! x = Some e.
Proof.
  intros He. unfold allocate.
  destruct (negb (initialized_ s)); [exact He|]. cbv zeta.
  destruct (PageTable.allocate_vpn_range _ _ _) as [ok pt1] eqn:Ea.
  destruct ok.
  2:{ cbn. unfold PageTable.allocate_vpn_range in Ea.
      pose proof (allocate_vpn_range_from_keeps
                    (Z.to_nat (wrap32 (align_to_page bytes (page_size (config_ s))
                                       / page_size (config_ s))))
                    0 (next_vpn_ s) (page_table_ s) x e He) as Hk.
      rewrite Ea in Hk. exact Hk. }
  pose proof (allocate_vpn_range_from_true _ _ _ _ _ Ea) as [Hnone Hag].
  match type of Hag with
  | agree_outside ?R0 _ _ => set (R := R0) in *
  end.
  assert (~ R x) as Hx by (intros Hin; rewrite (Hnone x Hin) in He; discriminate).
  destruct (allocate_cpu_pages _ _ _ _ _ _) as [[ok pages] s2] eqn:Erun.
  destruct (allocate_cpu_pages_table R _ _ _ _ _ _ _ _ _ Erun) as (pt & Hag' & Hpt);
    [tauto|].
  vmm_proj.
  assert (pt !! x = Some e) as Hpx by (rewrite (Hag' x Hx), (Hag x Hx); exact He).
  destruct ok.
  - cbn [snd]. vmm_proj. destruct prefetch.
    + rewrite (prefetch_pages_table R _ _ _ _ s2); [| tauto | exact Hx].
      rewrite Hpt. exact Hpx.
    + rewrite Hpt. exact Hpx.
  - cbn [snd]. rewrite Hpt. unfold PageTable.deallocate_vpn_range.
    rewrite deallocate_vpn_range_from_outside by exact Hx. exact Hpx.
Qed.

Lemma run_op_host_at (v0 a0 : Z) (op : Op) (s s' : VMM.t) :
  a0 <> 0 -> (forall vaddr, op <> Free vaddr) ->
  run_op op s = Some s' -> host_at v0 a0 s -> host_at v0 a0 s'.
Proof.
  intros Ha0 Hnf Hr Hs. pose proof (host_at_stable v0 a0 Ha0) as Hst.
  destruct op; cbn [run_op] in Hr.
  - injection Hr as <-. destruct Hs as (e & He & Hres & Ha).
    exists e. split; [apply allocate_keeps_entries, He|auto].
  - exfalso. exact (Hnf vaddr eq_refl).
  - exact (stable_map_to_cpu _ Hst _ _ _ Hr Hs).
  - exact (stable_map_to_gpu _ Hst _ _ _ Hr Hs).
  - exact (stable_map_to_gpu _ Hst _ _ _ Hr Hs).
  - exact (stable_touch_page _ Hst _ _ _ _ Hr Hs).
  - exact (stable_read_from_vaddr _ Hst _ _ _ _ Hr Hs).
  - exact (stable_write_to_vaddr _ Hst _ _ _ _ Hr Hs).
  - exact (stable_resolve_page_fault _ Hst _ _ _ _ Hr Hs).
  - exact (stable_evict _ Hst _ _ Hr Hs).
  - injection Hr as <-. exact Hs.
Qed.

Lemma run_host_at (v0 a0 : Z) (ops : list Op) :
  a0 <> 0 ->
  Forall (fun op => forall vaddr, op <> Free vaddr) ops ->
  forall s s', run ops s = Some s' -> host_at v0 a0 s -> host_at v0 a0 s'.
Proof.
  intros Ha0 Hall. induction Hall as [|op ops Hop Hall IH]; intros s s' Hr Hs;
    cbn [run] in Hr.
  - injection Hr as <-. exact Hs.
  - destruct (run_op op s) as [s1|] eqn:E; [|discriminate].
    apply (IH _ _ Hr). exact (run_op_host_at v0 a0 op s s1 Ha0 Hop E Hs).
Qed.

(** What eviction does to an entry: nothing, or it clears the device
    flag and the device address. *)
Lemma evict_entry_effect (s s' : VMM.t) (x : Z) (e : PageTableEntry) :
  evict_page_from_gpu s = Some s' ->
  page_table_ s !! x = Some e ->
  page_table_ s' !! x = Some e \/
  page_table_ s' !! x =
    Some (PTE.set_resident_on_gpu false (PTE.set_gpu_address 0 e)).
Proof.
  unfold evict_page_from_gpu. intros He Hx.
  case_bool_decide; [injection He as <-; left; exact Hx|].
  destruct (Policy.select_victim (replacement_policy_ s)) as [[sel rp]|];
    [|discriminate].
  cbv zeta in He.
  destruct (_ =? 0) in He; [injection He as <-; left; exact Hx|].
  unfold PageTable.lookup_entry in He. vmm_proj.
  match type of He with
  | match page_table_ s !! ?v with _ => _ end = _ => set (victim := v) in *
  end.
  destruct (page_table_ s !! victim) as [entry|] eqn:Hent;
    [|injection He as <-; left; exact Hx].
  injection He as <-. vmm_proj.
  assert (page_table_
            (if is_dirty entry && resident_on_cpu entry
             then counted_gpu_to_cpu victim (with_replacement_policy rp s)
             else with_replacement_policy rp s) = page_table_ s) as ->.
  { destruct (is_dirty entry) ; [|reflexivity].
    destruct (resident_on_cpu entry) eqn:Hres; [|reflexivity]. cbn [andb].
    apply (counted_gpu_to_cpu_same_table victim (with_replacement_policy rp s) entry);
      assumption. }
  rewrite lookup_alter. case_decide as Hv.
  - subst x. rewrite Hx. right. reflexivity.
  - left. exact Hx.
Qed.

(** What a page that is host resident keeps: over any sequence of
    operations without [free] its entry stays, host resident and at the
    same host address; eviction leaves the entry alone or clears its
    device side only; either synchronous migration, whatever its
    arguments, leaves the entry host resident with a host address that is
    not null. *)
Definition host_copy_survives (s : VMM.t) (vpn : Z) (e : PageTableEntry) : Prop :=
  (forall ops s',
     Forall (fun op => forall vaddr, op <> Free vaddr) ops ->
     run ops s = Some s' ->
     exists e', page_table_ s' !! vpn = Some e' /\
                resident_on_cpu e' = true /\ cpu_address e' = cpu_address e) /\
  (forall s',
     evict_page_from_gpu s = Some s' ->
     page_table_ s' !! vpn = Some e \/
     page_table_ s' !! vpn =
       Some (PTE.set_resident_on_gpu false (PTE.set_gpu_address 0 e))) /\
  (forall v cpu_addr gpu_addr bytes c,
     exists e',
       (MigrationManager.migrate_cpu_to_gpu v cpu_addr gpu_addr bytes
          (page_table_ s) c).1.2 !! vpn = Some e' /\
       resident_on_cpu e' = true /\ cpu_address e' = cpu_address e) /\
  (forall v gpu_addr cpu_addr bytes c,
     exists e',
       (MigrationManager.migrate_gpu_to_cpu v gpu_addr cpu_addr bytes
          (page_table_ s) c).1.2 !! vpn = Some e' /\
       resident_on_cpu e' = true /\ cpu_address e' <> 0).

Lemma host_copy_survives_holds (s : VMM.t) (vpn : Z) (e : PageTableEntry) :
  page_table_ s !! vpn = Some e ->
  resident_on_cpu e = true -> cpu_address e <> 0 ->
  host_copy_survives s vpn e.
Proof.
  intros He Hr Ha. unfold host_copy_survives. repeat split.
  - intros ops s' Hall Hrun.
    apply (run_host_at vpn (cpu_address e) ops Ha Hall s s' Hrun).
    exists e. auto.
  - intros s' Hev. exact (evict_entry_effect s s' vpn e Hev He).
  - intros v ca ga bytes c.
    unfold MigrationManager.migrate_cpu_to_gpu, PageTable.lookup_entry.
    destruct (ca =? 0); [exists e; auto|]. cbn.
    destruct (page_table_ s !! v) eqn:Ev; cbn; [|exists e; auto].
    rewrite lookup_alter. case_decide as Hv; [|exists e; auto].
    subst v. rewrite He. cbn. eexists. split; [reflexivity|]. auto.
  - intros v ga ca bytes c. unfold MigrationManager.migrate_gpu_to_cpu.
    destruct (Z.eqb_spec ca 0) as [|Hca]; [exists e; auto|].
    destruct (ga =? 0); cbn; [exists e; auto|].
    rewrite lookup_alter. case_decide as Hv; [|exists e; auto].
    subst v. rewrite He. cbn. eexists. split; [reflexivity|]. auto.
Qed.

End HostCopy.

(** C10.  Once a page is host resident (its entry has [resident_on_cpu]
    set and a host address that is not null), no operation other than
    [free] clears either: allocation, mapping to either domain, touching,
    reading, writing, fault resolution in either direction and eviction
    keep the entry host resident at the same address, eviction changes at
    most the device flag and device address of an entry, and the
    synchronous migrations leave it host resident. *)
Theorem host_residency_never_cleared `{SetIteration}
    (s : VMM.t) (vpn : Z) (e : PageTableEntry) :
  VMM.page_table_ s !! vpn = Some e ->
  resident_on_cpu e = true -> cpu_address e <> 0 ->
  host_copy_survives s vpn e.
Proof. apply host_copy_survives_holds. Qed.

Lemma host_residency_never_cleared_witness :
  let e1 := mkPTE true true false false true 69632 4294967296 108 1 0 in
  VMM.page_table_ two_allocations !! 1 = Some e1 /\
  host_copy_survives two_allocations 1 e1.
Proof.
  intros e1.
  assert (VMM.page_table_ two_allocations !! 1 = Some e1) as He
    by (vm_compute; reflexivity).
  split; [exact He|].
  apply (host_residency_never_cleared two_allocations 1 e1 He);
    [reflexivity|discriminate].
Defined.

(** * Further properties of the components *)

(** ** Common.h: address arithmetic *)

(** X1.  Without overflow ([size + page_size <= 2^64]), [align_to_page]
    returns the least multiple of the page size that is not below
    [size]: a multiple, at least [size], and less than a page above. *)
Theorem align_to_page_rounds_up (size page_size : Z) :
  0 < page_size -> 0 <= size -> size + page_size <= 2 ^ 64 ->
  align_to_page size page_size mod page_size = 0 /\
  size <= align_to_page size page_size < size + page_size.
Proof.
  intros Hps Hsize Hfit. unfold align_to_page.
  assert (wrap64 (wrap64 (size + page_size) - 1) = size + page_size - 1) as ->.
  { unfold wrap64. rewrite Zminus_mod_idemp_l. apply Z.mod_small. lia. }
  pose proof (Z.mul_div_le (size + page_size - 1) page_size Hps) as Hle.
  pose proof (Z.mod_pos_bound (size + page_size - 1) page_size Hps) as Hmod.
  pose proof (Z.div_mod (size + page_size - 1) page_size) as Hdm.
  assert (0 <= (size + page_size - 1) / page_size) as Hq
    by (apply Z.div_pos; lia).
  rewrite (wrap64_small ((size + page_size - 1) / page_size)) by nia.
  rewrite wrap64_small by nia.
  split; [apply Z.mod_mul; lia|]. nia.
Qed.

Lemma align_to_page_rounds_up_witness :
  align_to_page 5000 4096 mod 4096 = 0 /\
  5000 <= align_to_page 5000 4096 < 5000 + 4096.
Proof. apply align_to_page_rounds_up; lia. Defined.

(** X2.  Every address inside the page of [vpn] translates back to
    [vpn]: [vaddr_to_vpn] undoes [vpn_to_vaddr], whatever the offset
    within the page, as long as the page lies below [2^64]. *)
Theorem vaddr_to_vpn_of_page (vpn page_size offset : Z) :
  0 < page_size -> 0 <= vpn -> 0 <= offset < page_size ->
  vpn * page_size + page_size <= 2 ^ 64 ->
  vaddr_to_vpn (vpn_to_vaddr vpn page_size + offset) page_size = vpn.
Proof.
  intros Hps Hvpn Hoff Hfit. unfold vaddr_to_vpn, vpn_to_vaddr.
  rewrite wrap64_small by nia.
  rewrite Z.div_add_l by lia. rewrite Z.div_small by lia. lia.
Qed.

Lemma vaddr_to_vpn_of_page_witness :
  vaddr_to_vpn (vpn_to_vaddr 3 65536 + 100) 65536 = 3.
Proof. apply vaddr_to_vpn_of_page; lia. Defined.

(** ** PageTable *)

Section PageTableFacts.

(** Membership in a range, by index. *)
Lemma in_range_index (n : nat) (i vs x : Z) :
  in_range n i vs x <->
  exists j, i <= j < i + Z.of_nat n /\ x = wrap64 (vs + j).
Proof.
  revert i. induction n as [|n IH]; intros i; simpl.
  - split; [intros []|intros (j & Hj & _); lia].
  - rewrite IH. split.
    + intros [->|(j & Hj & ->)]; [exists i|exists j]; split; auto; lia.
    + intros (j & Hj & ->).
      destruct (decide (j = i)) as [->|Hne]; [left; reflexivity|].
      right. exists j. split; [lia|reflexivity].
Qed.

(** Two indices less than [2^64] apart give different VPNs. *)
Lemma wrap64_add_inj (vs j k : Z) :
  wrap64 (vs + j) = wrap64 (vs + k) -> Z.abs (j - k) < 2 ^ 64 -> j = k.
Proof.
  unfold wrap64. intros Heq Hd.
  pose proof (Z.div_mod (vs + j) (2 ^ 64)) as Hj.
  pose proof (Z.div_mod (vs + k) (2 ^ 64)) as Hk.
  rewrite Heq in Hj. lia.
Qed.

Lemma allocate_vpn_range_from_fresh (n : nat) :
  forall (i vs : Z) (pt : PageTable.t),
    Z.of_nat n <= 2 ^ 64 ->
    (forall x, in_range n i vs x -> pt !! x = None) ->
    exists pt',
      PageTable.allocate_vpn_range_from n i vs pt = (true, pt') /\
      (forall x, in_range n i vs x ->
                 pt' !! x = Some (PTE.set_is_valid true PTE.fresh)).
Proof.
  induction n as [|n IH]; intros i vs pt Hn Hfree; simpl.
  - eexists. split; [reflexivity|]. intros x [].
  - rewrite (Hfree (wrap64 (vs + i))) by (left; reflexivity).
    assert (forall x, in_range n (i + 1) vs x -> x <> wrap64 (vs + i)) as Hdist.
    { intros x Hx Heq. apply in_range_index in Hx as (j & Hj & ->).
      apply wrap64_add_inj in Heq; lia. }
    destruct (IH (i + 1) vs (<[wrap64 (vs + i) := PTE.set_is_valid true PTE.fresh]> pt))
      as (pt' & Hrun & Hnew); [lia| |].
    { intros x Hx. rewrite lookup_insert_ne; [apply Hfree; right; exact Hx|].
      intros Heq. exact (Hdist x Hx (eq_sym Heq)). }
    exists pt'. split; [exact Hrun|].
    intros x [->|Hx]; [|exact (Hnew x Hx)].
    destruct (allocate_vpn_range_from_true _ _ _ _ _ Hrun) as [_ Hag].
    rewrite Hag; [apply lookup_insert_eq|].
    intros Hin. exact (Hdist _ Hin eq_refl).
Qed.

End PageTableFacts.

(** X3.  [allocate_vpn_range] never overwrites.  For a page count that
    fits [uint32_t], it succeeds exactly when no VPN of the range has an
    entry; then every VPN of the range gets a valid entry that is
    resident nowhere, and no other key changes.  Whatever the answer,
    every entry that was there is still there, unchanged. *)
Theorem allocate_vpn_range_no_overwrite (vpn_start num_pages : Z) (pt : PageTable.t) :
  0 <= num_pages < 2 ^ 32 ->
  let r := PageTable.allocate_vpn_range vpn_start num_pages pt in
  let range := in_range (Z.to_nat num_pages) 0 vpn_start in
  (r.1 = true <-> forall x, range x -> pt !! x = None) /\
  (r.1 = true ->
   (forall x, range x -> r.2 !! x = Some (PTE.set_is_valid true PTE.fresh)) /\
   (forall x, ~ range x -> r.2 !! x = pt !! x)) /\
  (forall x e, pt !! x = Some e -> r.2 !! x = Some e).
Proof.
  intros Hn r range. unfold PageTable.allocate_vpn_range in r.
  assert (r.1 = true -> forall x, range x -> pt !! x = None) as Hsucc.
  { intros Hr. destruct r as [ok pt'] eqn:Er. simpl in Hr. subst ok.
    exact (proj1 (allocate_vpn_range_from_true _ _ _ _ _ Er)). }
  split; [split; [exact Hsucc|]|split].
  - intros Hfree.
    destruct (allocate_vpn_range_from_fresh (Z.to_nat num_pages) 0 vpn_start pt)
      as (pt' & Hrun & _); [lia|exact Hfree|].
    unfold r. rewrite Hrun. reflexivity.
  - intros Hr. pose proof (Hsucc Hr) as Hfree.
    destruct (allocate_vpn_range_from_fresh (Z.to_nat num_pages) 0 vpn_start pt)
      as (pt' & Hrun & Hnew); [lia|exact Hfree|].
    unfold r. rewrite Hrun. simpl. split; [exact Hnew|].
    exact (proj2 (allocate_vpn_range_from_true _ _ _ _ _ Hrun)).
  - intros x e He. apply allocate_vpn_range_from_keeps, He.
Qed.

Lemma allocate_vpn_range_no_overwrite_witness :
  let pt : PageTable.t := {[ 7 := PTE.set_is_valid true PTE.fresh ]} in
  (PageTable.allocate_vpn_range 5 3 pt).1 = false /\
  (PageTable.allocate_vpn_range 5 2 pt).1 = true.
Proof.
  intros pt.
  pose proof (allocate_vpn_range_no_overwrite 5 3 pt ltac:(lia)) as [[H3 _] _].
  pose proof (allocate_vpn_range_no_overwrite 5 2 pt ltac:(lia)) as [[_ H2] _].
  split.
  - destruct (PageTable.allocate_vpn_range 5 3 pt).1 eqn:E; [|reflexivity].
    specialize (H3 eq_refl 7). cbn in H3.
    assert (pt !! 7 = None) as Hc by (apply H3; vm_compute; tauto).
    vm_compute in Hc. discriminate.
  - apply H2. intros x Hx. vm_compute in Hx.
    destruct Hx as [->|[->|[]]]; vm_compute; reflexivity.
Defined.

(** X4.  Erasing a range that was just allocated gives back the page
    table from before the allocation. *)
Theorem deallocate_undoes_allocate_vpn_range (vpn_start num_pages : Z)
    (pt pt' : PageTable.t) :
  PageTable.allocate_vpn_range vpn_start num_pages pt = (true, pt') ->
  PageTable.deallocate_vpn_range vpn_start num_pages pt' = pt.
Proof.
  intros Ha. unfold PageTable.allocate_vpn_range in Ha.
  destruct (allocate_vpn_range_from_true _ _ _ _ _ Ha) as [Hnone Hag].
  apply deallocate_vpn_range_from_restores; assumption.
Qed.

Lemma deallocate_undoes_allocate_vpn_range_witness :
  let pt : PageTable.t := {[ 7 := PTE.set_is_valid true PTE.fresh ]} in
  PageTable.deallocate_vpn_range 100 10 (PageTable.allocate_vpn_range 100 10 pt).2 = pt.
Proof.
  intros pt.
  apply (deallocate_undoes_allocate_vpn_range 100 10 pt).
  vm_compute. reflexivity.
Defined.

(** X5.  The accessors never create entries: on a VPN without entry,
    [set_cpu_resident], [set_gpu_resident], [mark_dirty], [clear_dirty]
    and [update_access_time] return the table they were given and read
    no clock.  The non-[const] [get_entry] does add an entry for the VPN,
    but one that is not valid, so [get_all_entries] lists what it listed
    before. *)
Theorem accessors_never_create_entries (vpn addr : Z) (pt : PageTable.t) (c : Clock) :
  pt !! vpn = None ->
  PageTable.set_cpu_resident vpn addr pt c = (pt, c) /\
  PageTable.set_gpu_resident vpn addr pt c = (pt, c) /\
  PageTable.update_access_time vpn pt c = (pt, c) /\
  PageTable.mark_dirty vpn pt = pt /\
  PageTable.clear_dirty vpn pt = pt /\
  (PageTable.get_entry vpn pt).2 !! vpn = Some PTE.fresh /\
  (forall kv, kv ∈ PageTable.get_all_entries (PageTable.get_entry vpn pt).2 <->
              kv ∈ PageTable.get_all_entries pt).
Proof.
  intros Hn.
  unfold PageTable.set_cpu_resident, PageTable.set_gpu_resident,
    PageTable.update_access_time, PageTable.mark_dirty, PageTable.clear_dirty,
    PageTable.get_entry, PageTable.get_all_entries.
  rewrite Hn. cbn [snd].
  assert (forall f, alter f vpn pt = pt) as Halt.
  { intros f. apply map_eq. intros k. rewrite lookup_alter.
    case_decide; [subst; rewrite Hn|]; reflexivity. }
  rewrite !Halt. repeat split; try reflexivity.
  - apply lookup_insert_eq.
  - intros Hin. apply list_elem_of_filter in Hin as [Hv Hin].
    apply list_elem_of_filter. split; [exact Hv|].
    destruct kv as [k e]. apply elem_of_map_to_list in Hin.
    apply elem_of_map_to_list.
    destruct (decide (k = vpn)) as [->|Hne].
    + rewrite lookup_insert_eq in Hin. injection Hin as <-. discriminate.
    + rewrite lookup_insert_ne in Hin by (intros Heq; apply Hne; symmetry; exact Heq).
      exact Hin.
  - intros Hin. apply list_elem_of_filter in Hin as [Hv Hin].
    apply list_elem_of_filter. split; [exact Hv|].
    destruct kv as [k e]. apply elem_of_map_to_list in Hin.
    apply elem_of_map_to_list.
    rewrite lookup_insert_ne; [exact Hin|]. intros <-. congruence.
Qed.

Lemma accessors_never_create_entries_witness :
  PageTable.set_cpu_resident 9 4096 (∅ : PageTable.t) steady_clock = (∅, steady_clock) /\
  PageTable.mark_dirty 9 (∅ : PageTable.t) = ∅.
Proof.
  pose proof (accessors_never_create_entries 9 4096 ∅ steady_clock
                (lookup_empty 9)) as (H1 & _ & _ & H4 & _).
  split; assumption.
Defined.

(** ** PageAllocator *)

Section AllocatorFacts.

Import PageAllocator.





Lemma first_free_lowest (bitmap : list bool) (i : nat) :
  first_free bitmap = Some i ->
  forall j, (j < i)%nat -> bitmap !! j = Some true.
Proof.
  unfold first_free. intros Hf j Hj.
  destruct (list_find _ bitmap) as [[k b]|] eqn:E; [|discriminate].
  simpl in Hf. injection Hf as ->.
  apply list_find_Some in E as (Hl & _ & Hlow).
  assert (j < length bitmap)%nat as Hlen
    by (apply lookup_lt_Some in Hl; lia).
  destruct (lookup_lt_is_Some_2 _ _ Hlen) as [b' Hb'].
  specialize (Hlow j b' Hb' Hj). destruct b'; [exact Hb'|contradiction].
Qed.

Lemma first_free_None (bitmap : list bool) :
  first_free bitmap = None <-> free_slots bitmap = 0%nat.
Proof.
  unfold first_free, free_slots. split.
  - intros Hf. destruct (list_find _ bitmap) as [[k b]|] eqn:E; [discriminate|].
    apply list_find_None in E.
    induction bitmap as [|b bitmap IH]; [reflexivity|].
    apply Forall_cons in E as [Hb E]. rewrite filter_cons.
    destruct (decide (b = false)); [contradiction|]. apply IH, E.
  - intros Hz. destruct (list_find _ bitmap) as [[k b]|] eqn:E; [|reflexivity].
    exfalso. apply list_find_Some in E as (Hl & Hb & _). subst b.
    pose proof (free_slots_take bitmap k Hl) as Ht. unfold free_slots in Ht. lia.
Qed.

End AllocatorFacts.

(** X6.  On a well-formed host pool, [allocate_cpu_page] answers null
    exactly when no slot is free, and then changes nothing; otherwise it
    returns the address of the lowest free slot, which is not null, and
    sets the bit of that slot and no other. *)
Theorem allocate_cpu_page_lowest_free (a : PageAllocator.t) :
  cpu_pool_ok a ->
  let r := PageAllocator.allocate_cpu_page a in
  (r.1 = 0 <-> free_slots (PageAllocator.cpu_page_bitmap_ a) = 0%nat) /\
  (r.1 = 0 -> r.2 = a) /\
  (r.1 <> 0 ->
   exists i,
     r.1 = slot_address a i /\
     PageAllocator.cpu_page_bitmap_ a !! i = Some false /\
     (forall j, (j < i)%nat -> PageAllocator.cpu_page_bitmap_ a !! j = Some true) /\
     PageAllocator.cpu_page_bitmap_ r.2 = <[i := true]> (PageAllocator.cpu_page_bitmap_ a) /\
     PageAllocator.gpu_page_bitmap_ r.2 = PageAllocator.gpu_page_bitmap_ a).
Proof.
  intros Hok r. unfold PageAllocator.allocate_cpu_page in r.
  destruct (PageAllocator.first_free (PageAllocator.cpu_page_bitmap_ a)) as [i|] eqn:E.
  - pose proof (first_free_Some _ _ E) as Hi.
    pose proof (lookup_lt_Some _ _ _ Hi) as Hlt.
    pose proof (slot_offset_bounds a i Hok Hlt) as Hoff.
    assert (r.1 <> 0) as Hnz.
    { unfold r. cbn [fst]. destruct Hok as [? ? ? ?].
      rewrite wrap64_small by lia. lia. }
    split; [split|split].
    + intros Hz. contradiction.
    + intros Hz. apply first_free_None in Hz. congruence.
    + intros Hz. contradiction.
    + intros _. exists i. unfold r. cbn [fst snd]. repeat split; try assumption.
      apply (first_free_lowest _ _ E).
  - split; [split|split]; unfold r; cbn [fst snd]; try reflexivity.
    + intros _. apply first_free_None, E.
    + intros Hnz. contradiction.
Qed.

(** An allocator with a host pool of two pages whose first slot is taken. *)
Definition sample_allocator : PageAllocator.t :=
  (PageAllocator.allocate_cpu_page
     (PageAllocator.initialize (PageAllocator.mkConfig 4096 8192 8192 true true) 65536)).2.

Lemma sample_allocator_ok : cpu_pool_ok sample_allocator.
Proof.
  constructor; vm_compute; try reflexivity. split; [discriminate|reflexivity].
Qed.

Lemma allocate_cpu_page_lowest_free_witness :
  (PageAllocator.allocate_cpu_page sample_allocator).1 <> 0 /\
  PageAllocator.cpu_page_bitmap_ (PageAllocator.allocate_cpu_page sample_allocator).2
    = [true; true].
Proof.
  pose proof (allocate_cpu_page_lowest_free sample_allocator sample_allocator_ok)
    as (_ & _ & H3).
  assert ((PageAllocator.allocate_cpu_page sample_allocator).1 <> 0) as Hnz
    by (vm_compute; discriminate).
  split; [exact Hnz|].
  destruct (H3 Hnz) as (i & _ & Hi & Hlow & Hb & _).
  rewrite Hb. destruct i as [|[|i]].
  - vm_compute in Hi. discriminate.
  - reflexivity.
  - specialize (Hlow 1%nat ltac:(lia)). vm_compute in Hlow. discriminate.
Defined.

(** X7.  On a well-formed host pool, giving back the pointer that
    [allocate_cpu_page] has just returned restores both bitmaps. *)
Theorem deallocate_undoes_allocate_cpu_page (a : PageAllocator.t) :
  cpu_pool_ok a ->
  let r := PageAllocator.allocate_cpu_page a in
  let a' := PageAllocator.deallocate_cpu_page r.1 r.2 in
  PageAllocator.cpu_page_bitmap_ a' = PageAllocator.cpu_page_bitmap_ a /\
  PageAllocator.gpu_page_bitmap_ a' = PageAllocator.gpu_page_bitmap_ a.
Proof.
  intros Hok r a'. unfold a', r, PageAllocator.allocate_cpu_page.
  destruct (PageAllocator.first_free (PageAllocator.cpu_page_bitmap_ a)) as [i|] eqn:E.
  - pose proof (first_free_Some _ _ E) as Hi.
    pose proof (lookup_lt_Some _ _ _ Hi) as Hlt.
    cbn [fst snd].
    match goal with
    | |- context [PageAllocator.deallocate_cpu_page _ ?a1] => set (a1' := a1)
    end.
    assert (cpu_pool_ok a1') as Hok1.
    { destruct Hok as [? ? ? Hlen]. constructor; unfold a1'; cbn; try assumption.
      rewrite length_insert. exact Hlen. }
    assert (i < length (PageAllocator.cpu_page_bitmap_ a1'))%nat as Hlt1
      by (unfold a1'; cbn; rewrite length_insert; exact Hlt).
    destruct (deallocate_slot a1' i Hok1 Hlt1) as (Hb & Hg & _ & _).
    change (PageAllocator.cpu_pool_ a
            + wrap64 (Z.of_nat i * PageAllocator.page_size (PageAllocator.config_ a)))
      with (slot_address a1' i).
    rewrite Hb, Hg. unfold a1'. cbn. split; [|reflexivity].
    apply clear_taken_slot, Hi.
  - cbn. split; reflexivity.
Qed.

Lemma deallocate_undoes_allocate_cpu_page_witness :
  PageAllocator.cpu_page_bitmap_
    (PageAllocator.deallocate_cpu_page
       (PageAllocator.allocate_cpu_page sample_allocator).1
       (PageAllocator.allocate_cpu_page sample_allocator).2) = [true; false].
Proof.
  exact (proj1 (deallocate_undoes_allocate_cpu_page sample_allocator sample_allocator_ok)).
Defined.


Section AllocatorCounts.

Import PageAllocator.










End AllocatorCounts.



Section DevicePool.

Import PageAllocator.

(** The device pool as [initialize] leaves it: a positive page size, a
    synthetic range [[gpu_base, gpu_base + size)] below [2^64], one bit
    per page. *)
Record gpu_pool_ok (a : PageAllocator.t) : Prop := mk_gpu_pool_ok {
  gok_page_size : 0 < page_size (config_ a);
  gok_pool_size : 0 <= gpu_page_pool_size (config_ a);
  gok_range : gpu_base + gpu_page_pool_size (config_ a) <= 2 ^ 64;
  gok_bitmap :
    length (gpu_page_bitmap_ a) =
      Z.to_nat (gpu_page_pool_size (config_ a) / page_size (config_ a))
}.

Lemma gpu_slot_offset_bounds (a : PageAllocator.t) (i : nat) :
  gpu_pool_ok a -> (i < length (gpu_page_bitmap_ a))%nat ->
  0 <= Z.of_nat i * page_size (config_ a) < gpu_page_pool_size (config_ a).
Proof.
  intros [Hps Hpool _ Hlen] Hi. rewrite Hlen in Hi.
  pose proof (Z.mul_div_le (gpu_page_pool_size (config_ a)) (page_size (config_ a)) Hps).
  assert (Z.of_nat i < gpu_page_pool_size (config_ a) / page_size (config_ a)) by lia.
  nia.
Qed.

End DevicePool.

(** X10.  On a well-formed device pool, [allocate_gpu_page] answers 0
    exactly when no slot is free; any other answer is an address of the
    synthetic range, so never 0, and [deallocate_gpu_page] of it
    restores both bitmaps. *)
Theorem allocate_gpu_page_in_range (a : PageAllocator.t) :
  gpu_pool_ok a ->
  let r := PageAllocator.allocate_gpu_page a in
  (r.1 = 0 <-> free_slots (PageAllocator.gpu_page_bitmap_ a) = 0%nat) /\
  (r.1 = 0 -> r.2 = a) /\
  (r.1 <> 0 ->
   PageAllocator.gpu_base <= r.1 <
     PageAllocator.gpu_base
     + PageAllocator.gpu_page_pool_size (PageAllocator.config_ a) /\
   PageAllocator.gpu_page_bitmap_ (PageAllocator.deallocate_gpu_page r.1 r.2) =
     PageAllocator.gpu_page_bitmap_ a /\
   PageAllocator.cpu_page_bitmap_ (PageAllocator.deallocate_gpu_page r.1 r.2) =
     PageAllocator.cpu_page_bitmap_ a).
Proof.
  intros Hok r. unfold r, PageAllocator.allocate_gpu_page.
  destruct (PageAllocator.first_free (PageAllocator.gpu_page_bitmap_ a)) as [i|] eqn:E.
  - pose proof (first_free_Some _ _ E) as Hi.
    pose proof (lookup_lt_Some _ _ _ Hi) as Hlt.
    pose proof (gpu_slot_offset_bounds a i Hok Hlt) as Hoff.
    destruct Hok as [Hps Hpool Hrange Hlen].
    assert (PageAllocator.gpu_base = 4294967296) as Hbase by reflexivity.
    cbn [fst snd].
    rewrite (wrap64_small (Z.of_nat i * _)) by lia.
    rewrite wrap64_small by lia.
    split; [split|split].
    + intros Hz. lia.
    + intros Hz. apply first_free_None in Hz. congruence.
    + intros Hz. lia.
    + intros _. split; [lia|].
      unfold PageAllocator.deallocate_gpu_page. cbn.
      destruct (Z.ltb_spec
                  (PageAllocator.gpu_base
                   + Z.of_nat i * PageAllocator.page_size (PageAllocator.config_ a))
                  PageAllocator.gpu_base) as [|_]; [lia|].
      replace (PageAllocator.gpu_base
               + Z.of_nat i * PageAllocator.page_size (PageAllocator.config_ a)
               - PageAllocator.gpu_base)
        with (Z.of_nat i * PageAllocator.page_size (PageAllocator.config_ a)) by lia.
      rewrite wrap64_small, Z.div_mul, Nat2Z.id by lia.
      rewrite list_lookup_insert_eq by exact Hlt. cbn.
      split; [|reflexivity].
      rewrite list_insert_insert_eq. apply list_insert_id, Hi.
  - cbn [fst snd]. split; [split|split]; try reflexivity.
    + intros _. apply first_free_None, E.
    + intros Hnz. contradiction.
Qed.

Lemma allocate_gpu_page_in_range_witness :
  (PageAllocator.allocate_gpu_page sample_allocator).1 = 4294967296 /\
  PageAllocator.gpu_page_bitmap_
    (PageAllocator.deallocate_gpu_page
       (PageAllocator.allocate_gpu_page sample_allocator).1
       (PageAllocator.allocate_gpu_page sample_allocator).2) = [false; false].
Proof.
  assert (gpu_pool_ok sample_allocator) as Hok.
  { constructor; vm_compute; try reflexivity; discriminate. }
  pose proof (allocate_gpu_page_in_range sample_allocator Hok) as (_ & _ & H3).
  split; [vm_compute; reflexivity|].
  apply H3. vm_compute. discriminate.
Defined.

(** ** TLB *)

Section TlbFacts.

(** The sets exist: [initialize] made [tlb_size / associativity] of them
    and there is at least one. *)
Definition sets_fit (tlb : TLB.t) : Prop :=
  0 < TLB.tlb_size (TLB.config_ tlb) / TLB.associativity (TLB.config_ tlb) /\
  length (TLB.sets_ tlb) =
    Z.to_nat (TLB.tlb_size (TLB.config_ tlb) / TLB.associativity (TLB.config_ tlb)).

(** No set holds more entries than the associativity. *)
Definition within_capacity (tlb : TLB.t) : Prop :=
  Forall (fun set : list TLB.TLBEntry =>
            Z.of_nat (length set) <= TLB.associativity (TLB.config_ tlb))
         (TLB.sets_ tlb).

(** No set holds two entries for one VPN. *)
Definition one_per_vpn (tlb : TLB.t) : Prop :=
  Forall (fun set : list TLB.TLBEntry => NoDup (TLB.vpn <$> set)) (TLB.sets_ tlb).

(** The set a VPN is looked up in. *)
Definition set_of (tlb : TLB.t) (v : Z) : list TLB.TLBEntry :=
  default [] (TLB.sets_ tlb !! TLB.get_set_index tlb v).

Lemma set_index_lt (tlb : TLB.t) (v : Z) :
  sets_fit tlb -> (TLB.get_set_index tlb v < length (TLB.sets_ tlb))%nat.
Proof.
  intros [Hpos Hlen]. rewrite Hlen. unfold TLB.get_set_index.
  pose proof (Z.mod_pos_bound (hash_vpn v) _ Hpos). lia.
Qed.

Lemma set_of_lookup (tlb : TLB.t) (v : Z) :
  sets_fit tlb -> TLB.sets_ tlb !! TLB.get_set_index tlb v = Some (set_of tlb v).
Proof.
  intros Hfit. unfold set_of.
  destruct (lookup_lt_is_Some_2 _ _ (set_index_lt tlb v Hfit)) as [set ->].
  reflexivity.
Qed.

(** One [lookup]: a hit returns an entry and counts a hit, a miss
    returns none and counts a miss; the sets stay as many. *)
Lemma lookup_counts_once (v : Z) (tlb : TLB.t) (c : Clock) :
  sets_fit tlb ->
  let r := TLB.lookup v tlb c in
  sets_fit r.1.2 /\
  ((is_Some r.1.1 /\
    TLB.hits_ r.1.2 = wrap64 (TLB.hits_ tlb + 1) /\
    TLB.misses_ r.1.2 = TLB.misses_ tlb) \/
   (r.1.1 = None /\
    TLB.hits_ r.1.2 = TLB.hits_ tlb /\
    TLB.misses_ r.1.2 = wrap64 (TLB.misses_ tlb + 1))).
Proof.
  intros Hfit r. unfold r, TLB.lookup. rewrite (set_of_lookup tlb v Hfit).
  destruct (list_find _ (set_of tlb v)) as [[i e]|]; cbn.
  - split; [|left; eauto].
    destruct Hfit as [Hpos Hlen]. split; cbn; [exact Hpos|].
    rewrite length_insert. exact Hlen.
  - split; [exact Hfit|right; eauto].
Qed.

(** A sequence of lookups. *)
Fixpoint lookups (vs : list Z) (tlb : TLB.t) (c : Clock) : TLB.t * Clock :=
  match vs with
  | [] => (tlb, c)
  | v :: rest =>
      let r := TLB.lookup v tlb c in lookups rest r.1.2 r.2
  end.

Lemma lookups_count (vs : list Z) :
  forall (tlb : TLB.t) (c : Clock),
    sets_fit tlb ->
    let tlb' := (lookups vs tlb c).1 in
    wrap64 (TLB.hits_ tlb' + TLB.misses_ tlb') =
      wrap64 (TLB.hits_ tlb + TLB.misses_ tlb + Z.of_nat (length vs)).
Proof.
  induction vs as [|v vs IH]; intros tlb c Hfit; cbn [lookups length].
  - cbn. f_equal. lia.
  - destruct (lookup_counts_once v tlb c Hfit) as [Hfit' Hcase].
    cbv zeta in IH. rewrite (IH _ _ Hfit').
    destruct Hcase as [(_ & -> & ->)|(_ & -> & ->)];
      unfold wrap64; Z.div_mod_to_equations; lia.
Qed.

End TlbFacts.

(** X11.  Every [lookup] counts exactly once, as a hit when it returns
    an entry and as a miss when it does not: after [reset_stats] and any
    sequence of lookups, [hits + misses] is the number of lookups made
    (in the 64-bit arithmetic of the counters). *)
Theorem tlb_hits_plus_misses_counts_lookups (vs : list Z) (tlb : TLB.t) (c : Clock) :
  sets_fit tlb ->
  let tlb' := (lookups vs (TLB.reset_stats tlb) c).1 in
  wrap64 (TLB.hits_ tlb' + TLB.misses_ tlb') = wrap64 (Z.of_nat (length vs)).
Proof.
  intros Hfit tlb'.
  assert (sets_fit (TLB.reset_stats tlb)) as Hfit' by exact Hfit.
  pose proof (lookups_count vs (TLB.reset_stats tlb) c Hfit') as Hc.
  exact Hc.
Qed.

(** A TLB of four sets of two ways that caches pages 1 and 2. *)
Definition sample_tlb : TLB.t :=
  let e v := TLB.mkEntry v (4096 * v) (4294967296 + 4096 * v) 0 false in
  let t0 := TLB.initialize (TLB.mkConfig 8 2) in
  let r1 := TLB.insert 1 (e 1) t0 steady_clock in
  (TLB.insert 2 (e 2) r1.1 r1.2).1.

Lemma sample_tlb_fit : sets_fit sample_tlb.
Proof. split; vm_compute; reflexivity. Qed.

Lemma tlb_hits_plus_misses_counts_lookups_witness :
  let tlb' := (lookups [1; 2; 3; 1] (TLB.reset_stats sample_tlb) steady_clock).1 in
  TLB.hits_ tlb' = 3 /\ TLB.misses_ tlb' = 1 /\
  wrap64 (TLB.hits_ tlb' + TLB.misses_ tlb') = wrap64 4.
Proof.
  intros tlb'. split; [vm_compute; reflexivity|]. split; [vm_compute; reflexivity|].
  exact (tlb_hits_plus_misses_counts_lookups [1; 2; 3; 1] sample_tlb steady_clock
           sample_tlb_fit).
Defined.

Section TlbSets.

(** The set [insert] leaves in place of [set]. *)
Definition inserted_set (v now assoc : Z) (entry : TLB.TLBEntry)
    (set : list TLB.TLBEntry) : list TLB.TLBEntry :=
  match list_find (fun e => TLB.vpn e = v) set with
  | Some (i, _) =>
      <[i := TLB.mkEntry (TLB.vpn entry) (TLB.cpu_address entry)
                         (TLB.gpu_address entry) now (TLB.valid entry)]> set
  | None =>
      let new_entry :=
        TLB.mkEntry (TLB.vpn entry) (TLB.cpu_address entry)
                    (TLB.gpu_address entry) now true in
      if Z.of_nat (length set) <? assoc then set ++ [new_entry]
      else TLB.evict_lru set ++ [new_entry]
  end.

Lemma insert_unfold (v : Z) (entry : TLB.TLBEntry) (tlb : TLB.t) (c : Clock) :
  sets_fit tlb ->
  TLB.insert v entry tlb c =
    (TLB.mk (TLB.config_ tlb)
       (<[TLB.get_set_index tlb v :=
            inserted_set v (get_timestamp_us c).1
              (TLB.associativity (TLB.config_ tlb)) entry (set_of tlb v)]>
          (TLB.sets_ tlb))
       (TLB.hits_ tlb) (TLB.misses_ tlb),
     (get_timestamp_us c).2).
Proof.
  intros Hfit. unfold TLB.insert. rewrite (set_of_lookup tlb v Hfit). reflexivity.
Qed.

Lemma get_set_index_config (t1 t2 : TLB.t) (v : Z) :
  TLB.config_ t1 = TLB.config_ t2 -> TLB.get_set_index t1 v = TLB.get_set_index t2 v.
Proof. unfold TLB.get_set_index. intros ->. reflexivity. Qed.

Lemma set_of_updated (tlb : TLB.t) (v : Z) (set1 : list TLB.TLBEntry) (h m : Z) :
  sets_fit tlb ->
  set_of (TLB.mk (TLB.config_ tlb)
            (<[TLB.get_set_index tlb v := set1]> (TLB.sets_ tlb)) h m) v = set1.
Proof.
  intros Hfit. unfold set_of.
  rewrite (get_set_index_config
             (TLB.mk (TLB.config_ tlb)
                (<[TLB.get_set_index tlb v := set1]> (TLB.sets_ tlb)) h m)
             tlb v eq_refl).
  cbn [TLB.sets_].
  rewrite list_lookup_insert_eq by exact (set_index_lt tlb v Hfit). reflexivity.
Qed.

Lemma insert_set_of (v : Z) (entry : TLB.TLBEntry) (tlb : TLB.t) (c : Clock) :
  sets_fit tlb ->
  sets_fit (TLB.insert v entry tlb c).1 /\
  set_of (TLB.insert v entry tlb c).1 v =
    inserted_set v (get_timestamp_us c).1
      (TLB.associativity (TLB.config_ tlb)) entry (set_of tlb v).
Proof.
  intros Hfit. rewrite (insert_unfold v entry tlb c Hfit). cbn [fst].
  split.
  - destruct Hfit as [Hpos Hlen]. split; cbn; [exact Hpos|].
    rewrite length_insert. exact Hlen.
  - apply set_of_updated, Hfit.
Qed.

(** [evict_lru] erases one position of a set that is not empty. *)
Lemma evict_lru_delete (set : list TLB.TLBEntry) :
  exists k, TLB.evict_lru set = delete k set.
Proof.
  destruct set as [|e0 rest]; [exists 0%nat; reflexivity|].
  eexists. reflexivity.
Qed.

Lemma min_index_lt (rest : list TLB.TLBEntry) :
  forall (i min_idx : nat) (min_ts : Z),
    (min_idx < i)%nat ->
    (TLB.min_index rest i min_idx min_ts < i + length rest)%nat.
Proof.
  induction rest as [|e rest IH]; intros i min_idx min_ts Hlt; simpl; [lia|].
  destruct (TLB.timestamp e <? min_ts).
  - specialize (IH (S i) i (TLB.timestamp e) ltac:(lia)). lia.
  - specialize (IH (S i) min_idx min_ts ltac:(lia)). lia.
Qed.

Lemma evict_lru_length (set : list TLB.TLBEntry) :
  set <> [] -> S (length (TLB.evict_lru set)) = length set.
Proof.
  destruct set as [|e0 rest]; [contradiction|]. intros _.
  unfold TLB.evict_lru.
  pose proof (min_index_lt rest 1 0 (TLB.timestamp e0) ltac:(lia)) as Hk.
  rewrite length_delete by (apply lookup_lt_is_Some; simpl; lia).
  simpl. lia.
Qed.

(** What a lookup finds in a set after [insert] of an entry for [v]
    there: the entry itself, when it is valid or the set held none for
    [v]. *)
Lemma find_after_insert (v now assoc : Z) (entry : TLB.TLBEntry)
    (set : list TLB.TLBEntry) :
  TLB.vpn entry = v ->
  TLB.valid entry = true \/ Forall (fun e => TLB.vpn e <> v) set ->
  exists i,
    list_find (fun e => TLB.valid e = true /\ TLB.vpn e = v)
              (inserted_set v now assoc entry set) =
      Some (i, TLB.mkEntry v (TLB.cpu_address entry) (TLB.gpu_address entry) now true).
Proof.
  intros Hv Hcase. unfold inserted_set.
  destruct (list_find (fun e => TLB.vpn e = v) set) as [[i e0]|] eqn:E.
  - apply list_find_Some in E as (Hi & He0 & Hlow).
    destruct Hcase as [Hvalid|Hnone].
    2:{ exfalso. rewrite Forall_forall in Hnone.
        apply (Hnone e0); [eapply list_elem_of_lookup_2; exact Hi|exact He0]. }
    exists i. rewrite Hv, Hvalid. apply list_find_Some.
    split; [apply list_lookup_insert_eq; eapply lookup_lt_Some; exact Hi|].
    split; [split; reflexivity|].
    intros j y Hj Hlt [_ Hy].
    rewrite list_lookup_insert_ne in Hj by lia. exact (Hlow j y Hj Hlt Hy).
  - apply list_find_None in E.
    assert (forall base : list TLB.TLBEntry,
              Forall (fun e => TLB.vpn e <> v) base ->
              list_find (fun e => TLB.valid e = true /\ TLB.vpn e = v)
                (base ++ [TLB.mkEntry (TLB.vpn entry) (TLB.cpu_address entry)
                                      (TLB.gpu_address entry) now true]) =
              Some (length base,
                    TLB.mkEntry v (TLB.cpu_address entry) (TLB.gpu_address entry)
                                now true)) as Happ.
    { intros base Hbase. rewrite Hv. apply list_find_Some.
      split; [rewrite lookup_app_r, Nat.sub_diag by lia; reflexivity|].
      split; [split; reflexivity|].
      intros j y Hj Hlt [_ Hy]. rewrite lookup_app_l in Hj by exact Hlt.
      rewrite Forall_forall in Hbase.
      apply (Hbase y); [eapply list_elem_of_lookup_2; exact Hj|exact Hy]. }
    cbv zeta. destruct (_ <? _).
    + eexists. apply Happ, E.
    + eexists. apply Happ.
      destruct (evict_lru_delete set) as [k ->].
      rewrite Forall_forall in *. intros x Hx.
      apply E. eapply list_elem_of_delete_inv. exact Hx.
Qed.

End TlbSets.

(** X12.  What [insert] stores, [lookup] returns: after
    [insert(v, entry)] with [entry.vpn = v], a [lookup(v)] hits and
    returns [entry]'s two addresses, if [entry] is valid or the set held
    no entry for [v] before. *)
Theorem tlb_lookup_after_insert (v : Z) (entry : TLB.TLBEntry) (tlb : TLB.t) (c : Clock) :
  sets_fit tlb ->
  TLB.vpn entry = v ->
  TLB.valid entry = true \/ Forall (fun e => TLB.vpn e <> v) (set_of tlb v) ->
  let r := TLB.insert v entry tlb c in
  exists e,
    (TLB.lookup v r.1 r.2).1.1 = Some e /\
    TLB.vpn e = v /\ TLB.valid e = true /\
    TLB.cpu_address e = TLB.cpu_address entry /\
    TLB.gpu_address e = TLB.gpu_address entry.
Proof.
  intros Hfit Hv Hcase r.
  destruct (insert_set_of v entry tlb c Hfit) as [Hfit' Hset]. fold r in Hfit', Hset.
  destruct (find_after_insert v (get_timestamp_us c).1
              (TLB.associativity (TLB.config_ tlb)) entry (set_of tlb v) Hv Hcase)
    as [i Hfind].
  rewrite <- Hset in Hfind.
  unfold TLB.lookup. rewrite (set_of_lookup r.1 v Hfit'), Hfind.
  cbn [fst snd get_timestamp_us].
  eexists. split; [reflexivity|].
  cbn [TLB.vpn TLB.valid TLB.cpu_address TLB.gpu_address]. auto.
Qed.

Lemma tlb_lookup_after_insert_witness :
  let entry := TLB.mkEntry 100 4096 4294971392 0 false in
  let r := TLB.insert 100 entry sample_tlb steady_clock in
  exists e,
    (TLB.lookup 100 r.1 r.2).1.1 = Some e /\
    TLB.vpn e = 100 /\ TLB.valid e = true /\
    TLB.cpu_address e = 4096 /\ TLB.gpu_address e = 4294971392.
Proof.
  intros entry r.
  apply (tlb_lookup_after_insert 100 entry sample_tlb steady_clock sample_tlb_fit).
  - reflexivity.
  - right. vm_compute. repeat constructor; discriminate.
Defined.

Section TlbInvariants.

Lemma erase_first_sublist (v : Z) (set : list TLB.TLBEntry) :
  TLB.erase_first v set `sublist_of` set.
Proof.
  induction set as [|e rest IH]; simpl; [constructor|].
  destruct (TLB.vpn e =? v).
  - apply sublist_cons, reflexivity.
  - apply sublist_skip, IH.
Qed.

(** With one entry per VPN, [erase_first] leaves none for [v]. *)
Lemma erase_first_none_left (v : Z) (set : list TLB.TLBEntry) :
  NoDup (TLB.vpn <$> set) ->
  Forall (fun e => TLB.vpn e <> v) (TLB.erase_first v set).
Proof.
  induction set as [|e rest IH]; simpl; intros Hnd; [constructor|].
  apply NoDup_cons in Hnd as [Hnotin Hnd].
  destruct (Z.eqb_spec (TLB.vpn e) v) as [Heq|Hne].
  - apply Forall_forall. intros x Hx Hxv. apply Hnotin.
    rewrite Heq, <- Hxv. apply list_elem_of_fmap. exists x. auto.
  - constructor; [exact Hne|apply IH, Hnd].
Qed.

Lemma find_valid_none (v : Z) (set : list TLB.TLBEntry) :
  Forall (fun e => TLB.vpn e <> v) set ->
  list_find (fun e => TLB.valid e = true /\ TLB.vpn e = v) set = None.
Proof.
  intros Hall. apply list_find_None.
  eapply Forall_impl; [exact Hall|]. intros e Hne [_ He]. contradiction.
Qed.

Lemma lookup_miss (v : Z) (tlb : TLB.t) (c : Clock) :
  sets_fit tlb ->
  list_find (fun e => TLB.valid e = true /\ TLB.vpn e = v) (set_of tlb v) = None ->
  (TLB.lookup v tlb c).1.1 = None.
Proof.
  intros Hfit Hnone. unfold TLB.lookup.
  rewrite (set_of_lookup tlb v Hfit), Hnone. reflexivity.
Qed.

Lemma invalidate_set_of (v : Z) (tlb : TLB.t) :
  sets_fit tlb ->
  sets_fit (TLB.invalidate v tlb) /\
  set_of (TLB.invalidate v tlb) v = TLB.erase_first v (set_of tlb v).
Proof.
  intros Hfit. unfold TLB.invalidate. rewrite (set_of_lookup tlb v Hfit).
  split.
  - destruct Hfit as [Hpos Hlen]. split; cbn [TLB.config_ TLB.sets_]; [exact Hpos|].
    rewrite length_insert. exact Hlen.
  - apply set_of_updated, Hfit.
Qed.

Lemma inserted_set_vpns (v now assoc : Z) (entry : TLB.TLBEntry)
    (set : list TLB.TLBEntry) :
  TLB.vpn entry = v -> NoDup (TLB.vpn <$> set) ->
  NoDup (TLB.vpn <$> inserted_set v now assoc entry set).
Proof.
  intros Hv Hnd. unfold inserted_set.
  destruct (list_find (fun e => TLB.vpn e = v) set) as [[i e0]|] eqn:E.
  - apply list_find_Some in E as (Hi & He0 & _).
    rewrite list_fmap_insert. cbn [TLB.vpn].
    rewrite list_insert_id; [exact Hnd|].
    rewrite list_lookup_fmap, Hi. cbn. congruence.
  - apply list_find_None in E. cbv zeta.
    assert (forall base : list TLB.TLBEntry,
              base `sublist_of` set ->
              NoDup (TLB.vpn <$> base ++
                       [TLB.mkEntry (TLB.vpn entry) (TLB.cpu_address entry)
                                    (TLB.gpu_address entry) now true])) as Happ.
    { intros base Hsub. rewrite fmap_app. apply NoDup_app. split; [|split].
      - eapply sublist_NoDup; [exact Hnd|]. apply fmap_sublist, Hsub.
      - intros x Hx Hx'. cbn in Hx'. apply list_elem_of_singleton in Hx'. subst x.
        apply list_elem_of_fmap in Hx as (y & Hy & Hin).
        rewrite Forall_forall in E. apply (E y).
        + eapply elem_of_sublist; [exact Hin|exact Hsub].
        + congruence.
      - cbn. apply NoDup_singleton. }
    destruct (_ <? _).
    + apply Happ. reflexivity.
    + apply Happ. destruct (evict_lru_delete set) as [k ->]. apply sublist_delete.
Qed.

Lemma inserted_set_length (v now assoc : Z) (entry : TLB.TLBEntry)
    (set : list TLB.TLBEntry) :
  1 <= assoc -> Z.of_nat (length set) <= assoc ->
  Z.of_nat (length (inserted_set v now assoc entry set)) <= assoc.
Proof.
  intros Hassoc Hlen. unfold inserted_set.
  destruct (list_find (fun e => TLB.vpn e = v) set) as [[i e0]|].
  - rewrite length_insert. exact Hlen.
  - cbv zeta. destruct (Z.ltb_spec (Z.of_nat (length set)) assoc) as [Hlt|Hge].
    + rewrite length_app. simpl. lia.
    + rewrite length_app. simpl.
      assert (set <> []) as Hne by (intros ->; simpl in Hge; lia).
      pose proof (evict_lru_length set Hne). lia.
Qed.

(** The three properties of a TLB that every operation keeps. *)
Definition tlb_inv (tlb : TLB.t) : Prop :=
  sets_fit tlb /\ within_capacity tlb /\ one_per_vpn tlb.

Lemma tlb_inv_insert (v : Z) (entry : TLB.TLBEntry) (tlb : TLB.t) (c : Clock) :
  1 <= TLB.associativity (TLB.config_ tlb) -> TLB.vpn entry = v ->
  tlb_inv tlb -> tlb_inv (TLB.insert v entry tlb c).1.
Proof.
  intros Hassoc Hv (Hfit & Hcap & Hone).
  pose proof (set_of_lookup tlb v Hfit) as Hset.
  split; [exact (proj1 (insert_set_of v entry tlb c Hfit))|].
  rewrite (insert_unfold v entry tlb c Hfit). cbn [fst].
  unfold within_capacity, one_per_vpn in *. cbn [TLB.config_ TLB.sets_].
  split; apply Forall_insert; try assumption.
  - apply inserted_set_length; [exact Hassoc|].
    exact (proj1 (Forall_lookup _ _) Hcap _ _ Hset).
  - apply inserted_set_vpns; [exact Hv|].
    exact (proj1 (Forall_lookup _ _) Hone _ _ Hset).
Qed.

Lemma tlb_inv_invalidate (v : Z) (tlb : TLB.t) :
  tlb_inv tlb -> tlb_inv (TLB.invalidate v tlb).
Proof.
  intros (Hfit & Hcap & Hone).
  pose proof (set_of_lookup tlb v Hfit) as Hset.
  split; [exact (proj1 (invalidate_set_of v tlb Hfit))|].
  unfold TLB.invalidate. rewrite Hset.
  unfold within_capacity, one_per_vpn in *. cbn [TLB.config_ TLB.sets_].
  pose proof (erase_first_sublist v (set_of tlb v)) as Hsub.
  split; apply Forall_insert; try assumption.
  - pose proof (proj1 (Forall_lookup _ _) Hcap _ _ Hset) as Hl. cbn beta in Hl.
    pose proof (sublist_length _ _ Hsub). lia.
  - eapply sublist_NoDup; [exact (proj1 (Forall_lookup _ _) Hone _ _ Hset)|].
    apply fmap_sublist, Hsub.
Qed.

Lemma tlb_inv_lookup (v : Z) (tlb : TLB.t) (c : Clock) :
  tlb_inv tlb -> tlb_inv (TLB.lookup v tlb c).1.2.
Proof.
  intros (Hfit & Hcap & Hone).
  pose proof (set_of_lookup tlb v Hfit) as Hset.
  split; [exact (proj1 (lookup_counts_once v tlb c Hfit))|].
  unfold TLB.lookup. rewrite Hset.
  destruct (list_find _ (set_of tlb v)) as [[i e]|] eqn:E;
    cbn [fst snd get_timestamp_us]; [|split; assumption].
  apply list_find_Some in E as (Hi & _ & _).
  unfold within_capacity, one_per_vpn in *. cbn [TLB.config_ TLB.sets_].
  split; apply Forall_insert; try assumption.
  - rewrite length_insert. exact (proj1 (Forall_lookup _ _) Hcap _ _ Hset).
  - rewrite list_fmap_insert. cbn [TLB.vpn].
    rewrite list_insert_id; [exact (proj1 (Forall_lookup _ _) Hone _ _ Hset)|].
    rewrite list_lookup_fmap, Hi. reflexivity.
Qed.

Lemma tlb_inv_flush (tlb : TLB.t) :
  0 <= TLB.associativity (TLB.config_ tlb) -> tlb_inv tlb -> tlb_inv (TLB.flush tlb).
Proof.
  intros Hassoc (Hfit & Hcap & Hone). unfold TLB.flush.
  split; [|split].
  - destruct Hfit as [Hpos Hlen]. split; cbn [TLB.config_ TLB.sets_]; [exact Hpos|].
    rewrite length_fmap. exact Hlen.
  - unfold within_capacity. cbn [TLB.config_ TLB.sets_].
    apply Forall_fmap, Forall_true. intros set. cbn. lia.
  - unfold one_per_vpn. cbn [TLB.sets_].
    apply Forall_fmap, Forall_true. intros set. cbn. constructor.
Qed.

Lemma tlb_inv_initialize (cfg : TLB.Config) :
  0 <= TLB.associativity cfg -> 0 < TLB.tlb_size cfg / TLB.associativity cfg ->
  tlb_inv (TLB.initialize cfg).
Proof.
  intros Hassoc Hpos. unfold TLB.initialize. split; [|split].
  - split; cbn [TLB.config_ TLB.sets_]; [exact Hpos|]. apply length_replicate.
  - unfold within_capacity. cbn [TLB.config_ TLB.sets_].
    apply Forall_replicate. cbn. lia.
  - unfold one_per_vpn. cbn [TLB.sets_]. apply Forall_replicate. constructor.
Qed.

End TlbInvariants.

(** X13.  The TLB keeps its shape.  With an associativity of at least
    one, a TLB that has its sets, holds no more entries in a set than
    the associativity and no two entries for one VPN in a set, still does
    after [insert] (of an entry whose [vpn] is the VPN it is inserted
    for), [lookup], [invalidate] and [flush]; [initialize] makes such a
    TLB. *)
Theorem tlb_operations_keep_invariant (tlb : TLB.t) (v : Z) (entry : TLB.TLBEntry)
    (c : Clock) :
  1 <= TLB.associativity (TLB.config_ tlb) ->
  tlb_inv tlb ->
  (TLB.vpn entry = v -> tlb_inv (TLB.insert v entry tlb c).1) /\
  tlb_inv (TLB.lookup v tlb c).1.2 /\
  tlb_inv (TLB.invalidate v tlb) /\
  tlb_inv (TLB.flush tlb) /\
  tlb_inv (TLB.initialize (TLB.config_ tlb)).
Proof.
  intros Hassoc Hinv.
  split; [intros Hv; apply tlb_inv_insert; assumption|].
  split; [apply tlb_inv_lookup, Hinv|].
  split; [apply tlb_inv_invalidate, Hinv|].
  split; [apply tlb_inv_flush; [lia|exact Hinv]|].
  apply tlb_inv_initialize; [lia|]. exact (proj1 (proj1 Hinv)).
Qed.

Lemma sample_tlb_inv : tlb_inv sample_tlb.
Proof.
  unfold sample_tlb. cbv zeta.
  apply tlb_inv_insert; [vm_compute; discriminate|reflexivity|].
  apply tlb_inv_insert; [vm_compute; discriminate|reflexivity|].
  apply tlb_inv_initialize; [vm_compute; discriminate|vm_compute; reflexivity].
Qed.

Lemma tlb_operations_keep_invariant_witness :
  tlb_inv (TLB.insert 9 (TLB.mkEntry 9 4096 4294967296 0 true) sample_tlb steady_clock).1.
Proof.
  apply (tlb_operations_keep_invariant sample_tlb 9
           (TLB.mkEntry 9 4096 4294967296 0 true) steady_clock).
  - vm_compute. discriminate.
  - exact sample_tlb_inv.
  - reflexivity.
Defined.

(** X14.  After [invalidate(v)] on a TLB with one entry per VPN in each
    set, and after [flush] on any TLB, [lookup(v)] misses. *)
Theorem tlb_invalidate_then_lookup_misses (v : Z) (tlb : TLB.t) (c : Clock) :
  sets_fit tlb -> one_per_vpn tlb ->
  (TLB.lookup v (TLB.invalidate v tlb) c).1.1 = None /\
  (TLB.lookup v (TLB.flush tlb) c).1.1 = None.
Proof.
  intros Hfit Hone. split.
  - destruct (invalidate_set_of v tlb Hfit) as [Hfit' Hset].
    apply lookup_miss; [exact Hfit'|]. rewrite Hset.
    apply find_valid_none, erase_first_none_left.
    exact (proj1 (Forall_lookup _ _) Hone _ _ (set_of_lookup tlb v Hfit)).
  - assert (sets_fit (TLB.flush tlb)) as Hfit'.
    { destruct Hfit as [Hpos Hlen]. split; cbn [TLB.flush TLB.config_ TLB.sets_];
        [exact Hpos|]. rewrite length_fmap. exact Hlen. }
    apply lookup_miss; [exact Hfit'|].
    pose proof (set_of_lookup (TLB.flush tlb) v Hfit') as Hs.
    assert (Forall (fun s : list TLB.TLBEntry => s = []) (TLB.sets_ (TLB.flush tlb)))
      as Hall.
    { unfold TLB.flush. cbn [TLB.sets_]. apply Forall_fmap, Forall_true. reflexivity. }
    rewrite (proj1 (Forall_lookup _ _) Hall _ _ Hs). reflexivity.
Qed.

Lemma tlb_invalidate_then_lookup_misses_witness :
  (TLB.lookup 1 sample_tlb steady_clock).1.1 <> None /\
  (TLB.lookup 1 (TLB.invalidate 1 sample_tlb) steady_clock).1.1 = None.
Proof.
  split; [vm_compute; discriminate|].
  apply (tlb_invalidate_then_lookup_misses 1 sample_tlb steady_clock sample_tlb_fit).
  exact (proj2 (proj2 sample_tlb_inv)).
Defined.

(** X15.  Re-inserting hides a translation when the entry passed in is
    not marked valid: if the set already holds the entry for [v] (one
    per VPN), [insert(v, entry)] with [entry.valid = false] overwrites it
    with [entry] as given, and the next [lookup(v)] misses.  (Only a
    first insertion sets [valid] itself.) *)
Theorem tlb_reinsert_invalid_entry_hides (v : Z) (entry : TLB.TLBEntry)
    (tlb : TLB.t) (c : Clock) :
  sets_fit tlb -> one_per_vpn tlb ->
  (exists e, e ∈ set_of tlb v /\ TLB.vpn e = v) ->
  TLB.vpn entry = v -> TLB.valid entry = false ->
  let r := TLB.insert v entry tlb c in
  (TLB.lookup v r.1 r.2).1.1 = None.
Proof.
  intros Hfit Hone (e & Hin & He) Hv Hvalid r.
  destruct (insert_set_of v entry tlb c Hfit) as [Hfit' Hset]. fold r in Hfit', Hset.
  apply lookup_miss; [exact Hfit'|]. rewrite Hset. unfold inserted_set.
  pose proof (proj1 (Forall_lookup _ _) Hone _ _ (set_of_lookup tlb v Hfit)) as Hnd.
  cbn beta in Hnd.
  destruct (list_find (fun e => TLB.vpn e = v) (set_of tlb v)) as [[i e0]|] eqn:E.
  2:{ apply list_find_None in E. rewrite Forall_forall in E.
      exfalso. exact (E e Hin He). }
  apply list_find_Some in E as (Hi & He0 & _).
  apply list_find_None, Forall_lookup. intros j y Hj [Hyv Hy].
  destruct (decide (j = i)) as [->|Hne].
  - rewrite list_lookup_insert_eq in Hj by (eapply lookup_lt_Some; exact Hi).
    injection Hj as <-. cbn in Hyv. congruence.
  - rewrite list_lookup_insert_ne in Hj by (intros Heq; apply Hne; symmetry; exact Heq).
    apply Hne. eapply NoDup_lookup; [exact Hnd| |].
    + rewrite list_lookup_fmap, Hj. reflexivity.
    + rewrite list_lookup_fmap, Hi. cbn. congruence.
Qed.

Lemma tlb_reinsert_invalid_entry_hides_witness :
  let entry := TLB.mkEntry 1 4096 4294971392 0 false in
  let r := TLB.insert 1 entry sample_tlb steady_clock in
  (TLB.lookup 1 sample_tlb steady_clock).1.1 <> None /\
  (TLB.lookup 1 r.1 r.2).1.1 = None.
Proof.
  intros entry r. split; [vm_compute; discriminate|].
  apply (tlb_reinsert_invalid_entry_hides 1 entry sample_tlb steady_clock
           sample_tlb_fit (proj2 (proj2 sample_tlb_inv))); [|reflexivity|reflexivity].
  remember (set_of sample_tlb 1) as set eqn:Hset. vm_compute in Hset. subst set.
  eexists. split; [left|reflexivity].
Defined.

Section EvictLru.

(** The scan keeps the index of the smallest timestamp seen, the first
    such index on ties. *)
Lemma min_index_spec (rest : list TLB.TLBEntry) :
  forall (pre : list TLB.TLBEntry) (min_idx : nat) (em : TLB.TLBEntry),
    pre !! min_idx = Some em ->
    (forall j e, pre !! j = Some e -> TLB.timestamp em <= TLB.timestamp e) ->
    (forall j e, (j < min_idx)%nat -> pre !! j = Some e ->
                 TLB.timestamp em < TLB.timestamp e) ->
    let k := TLB.min_index rest (length pre) min_idx (TLB.timestamp em) in
    exists ek,
      (pre ++ rest) !! k = Some ek /\
      (forall j e, (pre ++ rest) !! j = Some e -> TLB.timestamp ek <= TLB.timestamp e) /\
      (forall j e, (j < k)%nat -> (pre ++ rest) !! j = Some e ->
                   TLB.timestamp ek < TLB.timestamp e).
Proof.
  induction rest as [|x rest IH]; intros pre min_idx em Hm Hmin Hfirst; simpl.
  - rewrite app_nil_r. exists em. auto.
  - destruct (Z.ltb_spec (TLB.timestamp x) (TLB.timestamp em)) as [Hlt|Hge].
    + specialize (IH (pre ++ [x]) (length pre) x).
      rewrite length_app in IH. simpl in IH.
      replace (length pre + 1)%nat with (S (length pre)) in IH by lia.
      rewrite <- app_assoc in IH. simpl in IH. apply IH.
      * rewrite lookup_app_r, Nat.sub_diag by lia. reflexivity.
      * intros j e Hj. destruct (decide (j < length pre)%nat) as [Hl|Hl].
        -- rewrite lookup_app_l in Hj by exact Hl.
           specialize (Hmin j e Hj). lia.
        -- rewrite lookup_app_r in Hj by lia.
           destruct (j - length pre)%nat; simpl in Hj; [|discriminate].
           injection Hj as <-. lia.
      * intros j e Hl Hj. rewrite lookup_app_l in Hj by exact Hl.
        specialize (Hmin j e Hj). lia.
    + specialize (IH (pre ++ [x]) min_idx em).
      rewrite length_app in IH. simpl in IH.
      replace (length pre + 1)%nat with (S (length pre)) in IH by lia.
      rewrite <- app_assoc in IH. simpl in IH. apply IH.
      * rewrite lookup_app_l by (eapply lookup_lt_Some; exact Hm). exact Hm.
      * intros j e Hj. destruct (decide (j < length pre)%nat) as [Hl|Hl].
        -- rewrite lookup_app_l in Hj by exact Hl. exact (Hmin j e Hj).
        -- rewrite lookup_app_r in Hj by lia.
           destruct (j - length pre)%nat; simpl in Hj; [|discriminate].
           injection Hj as <-. lia.
      * intros j e Hl Hj.
        pose proof (lookup_lt_Some _ _ _ Hm) as Hml.
        rewrite lookup_app_l in Hj by lia. exact (Hfirst j e Hl Hj).
Qed.

End EvictLru.

(** X16.  [evict_lru] removes from a set that is not empty exactly one
    entry, one whose timestamp is the smallest of the set, and the
    earliest such entry when several share that timestamp. *)
Theorem tlb_evict_lru_removes_oldest (set : list TLB.TLBEntry) :
  set <> [] ->
  exists k ek,
    set !! k = Some ek /\
    TLB.evict_lru set = delete k set /\
    (forall j e, set !! j = Some e -> TLB.timestamp ek <= TLB.timestamp e) /\
    (forall j e, (j < k)%nat -> set !! j = Some e ->
                 TLB.timestamp ek < TLB.timestamp e).
Proof.
  destruct set as [|e0 rest]; [contradiction|]. intros _.
  destruct (min_index_spec rest [e0] 0%nat e0) as (ek & Hk & Hmin & Hfirst).
  - reflexivity.
  - intros [|j] e Hj; simpl in Hj; [injection Hj as <-; lia|discriminate].
  - intros j e Hj. lia.
  - eexists _, ek. split; [exact Hk|]. split; [reflexivity|]. split; assumption.
Qed.

Lemma tlb_evict_lru_removes_oldest_witness :
  let e v ts := TLB.mkEntry v 0 0 ts true in
  TLB.evict_lru [e 1 30; e 2 10; e 3 20; e 4 10] = [e 1 30; e 3 20; e 4 10].
Proof.
  intros e.
  destruct (tlb_evict_lru_removes_oldest [e 1 30; e 2 10; e 3 20; e 4 10])
    as (k & ek & _ & Hdel & _); [discriminate|].
  reflexivity.
Defined.

(** ** Replacement policies *)

Section LruQueue.

Import LRUPolicy.

Lemma drop_oldest_queue (fuel : nat) :
  forall p : LRUPolicy.t,
    0 <= max_pages_ p -> (length (lru_queue_ p) <= fuel)%nat ->
    lru_queue_ (drop_oldest fuel p) =
      drop (length (lru_queue_ p) - Z.to_nat (max_pages_ p)) (lru_queue_ p) /\
    max_pages_ (drop_oldest fuel p) = max_pages_ p.
Proof.
  induction fuel as [|fuel IH]; intros p Hmax Hlen; simpl.
  - destruct (lru_queue_ p); [split; reflexivity|simpl in Hlen; lia].
  - destruct (Z.gtb_spec (Z.of_nat (length (lru_queue_ p))) (max_pages_ p)) as [Hgt|Hle].
    + destruct (lru_queue_ p) as [|oldest rest] eqn:Eq; [simpl in Hgt; lia|].
      destruct (IH (mk rest (active_pages_ p ∖ {[oldest]}) (max_pages_ p)))
        as [Hq Hm]; [exact Hmax|simpl in *; lia|].
      rewrite Hq, Hm. cbn [lru_queue_ max_pages_]. split; [|reflexivity].
      simpl length in *.
      replace (S (length rest) - Z.to_nat (max_pages_ p))%nat
        with (S (length rest - Z.to_nat (max_pages_ p))) by lia.
      reflexivity.
    + replace (length (lru_queue_ p) - Z.to_nat (max_pages_ p))%nat with 0%nat by lia.
      split; reflexivity.
Qed.

(** Allocating the pages [vs] in order. *)
Definition allocate_all (vs : list Z) (p : LRUPolicy.t) : LRUPolicy.t :=
  foldl (fun acc v => on_page_allocated v acc) p vs.

(** The victims of [n] successive calls of [select_victim]. *)
Fixpoint victims (n : nat) (p : LRUPolicy.t) : list Z :=
  match n with
  | O => []
  | S n' => (select_victim p).1 :: victims n' (select_victim p).2
  end.

Lemma on_page_allocated_queue (v : Z) (p : LRUPolicy.t) :
  0 <= max_pages_ p ->
  lru_queue_ (on_page_allocated v p) =
    drop (length (lru_queue_ p) + 1 - Z.to_nat (max_pages_ p)) (lru_queue_ p ++ [v]) /\
  max_pages_ (on_page_allocated v p) = max_pages_ p.
Proof.
  intros Hmax. unfold on_page_allocated. cbv zeta. cbn [lru_queue_].
  destruct (drop_oldest_queue (length (lru_queue_ p ++ [v]))
              (mk (lru_queue_ p ++ [v]) ({[v]} ∪ active_pages_ p) (max_pages_ p)))
    as [Hq Hm]; [exact Hmax|cbn; lia|].
  rewrite Hq, Hm. cbn [lru_queue_ max_pages_]. rewrite length_app. simpl.
  split; reflexivity.
Qed.

(** The last [m] elements of a list. *)
Definition last_n (m : nat) (l : list Z) : list Z := drop (length l - m) l.

Lemma last_n_snoc (m : nat) (l : list Z) (v : Z) :
  drop (length (last_n m l) + 1 - m) (last_n m l ++ [v]) = last_n m (l ++ [v]).
Proof.
  unfold last_n. rewrite length_drop, length_app. simpl.
  destruct (decide (length l <= m)%nat) as [Hle|Hgt].
  - replace (length l - m)%nat with 0%nat by lia. rewrite drop_0.
    f_equal. lia.
  - replace (length l - (length l - m) + 1 - m)%nat with 1%nat by lia.
    replace (length l + 1 - m)%nat with ((length l - m) + 1)%nat by lia.
    rewrite <- drop_drop. f_equal.
    rewrite drop_app_le by lia. reflexivity.
Qed.

Lemma allocate_all_queue (vs : list Z) (max_pages : Z) :
  0 <= max_pages ->
  lru_queue_ (allocate_all vs (create max_pages)) = last_n (Z.to_nat max_pages) vs /\
  max_pages_ (allocate_all vs (create max_pages)) = max_pages.
Proof.
  intros Hmax. induction vs as [|v vs IH] using rev_ind.
  - split; reflexivity.
  - destruct IH as [Hq Hm]. unfold allocate_all in *. rewrite foldl_app. cbn [foldl].
    destruct (on_page_allocated_queue v
                (foldl (fun acc v0 => on_page_allocated v0 acc) (create max_pages) vs))
      as [Hq' Hm']; [rewrite Hm; exact Hmax|].
    rewrite Hq', Hm', Hq, Hm. split; [|reflexivity]. apply last_n_snoc.
Qed.

Lemma victims_empty (n : nat) :
  forall p : LRUPolicy.t, lru_queue_ p = [] -> victims n p = replicate n 0.
Proof.
  induction n as [|n IHn]; intros p Hq; [reflexivity|].
  cbn [victims replicate]. unfold select_victim. rewrite Hq. cbn [fst snd].
  f_equal. apply IHn, Hq.
Qed.

Lemma victims_queue (q : list Z) :
  forall p : LRUPolicy.t,
    lru_queue_ p = q ->
    victims (length q) p = q /\
    lru_queue_ (Nat.iter (length q) (fun p' => (select_victim p').2) p) = [].
Proof.
  induction q as [|v q IH]; intros p Hq.
  - split; [reflexivity|exact Hq].
  - assert ((select_victim p).1 = v /\ lru_queue_ (select_victim p).2 = q) as [Hv Hq'].
    { unfold select_victim. rewrite Hq. split; reflexivity. }
    destruct (IH _ Hq') as [H1 H2]. cbn [length victims]. split.
    + rewrite Hv, H1. reflexivity.
    + rewrite Nat.iter_succ_r. exact H2.
Qed.

End LruQueue.

(** X17.  The LRU policy is a bounded first-in first-out queue.  After
    the pages [vs] were allocated on a new policy, the queue holds the
    last [max_pages] of them, in allocation order; successive
    [select_victim] calls return exactly these, oldest first, and every
    call after that returns 0. *)
Theorem lru_evicts_in_allocation_order (vs : list Z) (max_pages : Z) (n : nat) :
  0 <= max_pages ->
  let p := allocate_all vs (LRUPolicy.create max_pages) in
  let kept := last_n (Z.to_nat max_pages) vs in
  LRUPolicy.lru_queue_ p = kept /\
  victims (length kept) p = kept /\
  victims n (Nat.iter (length kept) (fun p' => (LRUPolicy.select_victim p').2) p)
    = replicate n 0.
Proof.
  intros Hmax p kept.
  destruct (allocate_all_queue vs max_pages Hmax) as [Hq _]. fold p in Hq. fold kept in Hq.
  destruct (victims_queue kept p Hq) as [H1 H2].
  split; [exact Hq|]. split; [exact H1|apply victims_empty, H2].
Qed.

Lemma lru_evicts_in_allocation_order_witness :
  let p := allocate_all [10; 11; 12; 13; 14] (LRUPolicy.create 3) in
  LRUPolicy.lru_queue_ p = [12; 13; 14] /\
  victims 3 p = [12; 13; 14] /\
  victims 2 (Nat.iter 3 (fun p' => (LRUPolicy.select_victim p').2) p) = [0; 0].
Proof.
  exact (lru_evicts_in_allocation_order [10; 11; 12; 13; 14] 3 2 ltac:(lia)).
Defined.

Section ClockPool.

Import CLOCKPolicy.

(** The pages of a pool, in order. *)
Definition pool_pages (vec : list ClockEntry) : list Z := vpn <$> vec.

Lemma pool_pages_clear (vec : list ClockEntry) (h : nat) (e : ClockEntry) :
  vec !! h = Some e ->
  pool_pages (<[h := mkEntry (vpn e) false]> vec) = pool_pages vec.
Proof.
  intros He. unfold pool_pages. rewrite list_fmap_insert. cbn [vpn].
  apply list_insert_id. rewrite list_lookup_fmap, He. reflexivity.
Qed.

Lemma sweep_result (fuel : nat) :
  forall (p : t) (v : Z) (p' : t),
    sweep fuel p = Some (v, p') ->
    v ∈ pool_pages (clock_hand_vec_ p) /\
    S (length (clock_hand_vec_ p')) = length (clock_hand_vec_ p) /\
    pool_pages (clock_hand_vec_ p') `sublist_of` pool_pages (clock_hand_vec_ p) /\
    max_pages_ p' = max_pages_ p.
Proof.
  induction fuel as [|fuel IH]; intros p v p' Hs; [discriminate|].
  simpl in Hs.
  destruct (clock_hand_vec_ p !! hand_pos_ p) as [e|] eqn:He; [|discriminate].
  pose proof (lookup_lt_Some _ _ _ He) as Hlt.
  destruct (reference_bit e).
  - destruct (IH _ _ _ Hs) as (Hin & Hlen & Hsub & Hmax).
    cbn [clock_hand_vec_ max_pages_] in *.
    rewrite (pool_pages_clear _ _ _ He) in Hin, Hsub.
    rewrite length_insert in Hlen. auto.
  - injection Hs as <- <-. cbn [clock_hand_vec_ max_pages_].
    split; [|split; [|split]].
    + unfold pool_pages. apply list_elem_of_fmap. exists e. split; [reflexivity|].
      eapply list_elem_of_lookup_2. exact He.
    + rewrite length_delete.
      * lia.
      * apply lookup_lt_is_Some. apply Nat.mod_upper_bound. lia.
    + unfold pool_pages. apply fmap_sublist, sublist_delete.
    + reflexivity.
Qed.

(** The hand points into the pool, or the pool is empty and the hand is
    at 0. *)
Definition hand_ok (p : CLOCKPolicy.t) : Prop :=
  (hand_pos_ p < length (clock_hand_vec_ p))%nat \/
  (clock_hand_vec_ p = [] /\ hand_pos_ p = 0%nat).

Lemma set_reference_length (v : Z) (vec : list ClockEntry) :
  length (set_reference v vec) = length vec.
Proof.
  induction vec as [|e rest IH]; simpl; [reflexivity|].
  destruct (vpn e =? v); simpl; [reflexivity|]. rewrite IH. reflexivity.
Qed.

Lemma hand_ok_on_page_access (v : Z) (p : CLOCKPolicy.t) :
  hand_ok p -> hand_ok (on_page_access v p).
Proof.
  unfold hand_ok, on_page_access. cbn [clock_hand_vec_ hand_pos_].
  rewrite set_reference_length. intros [Hlt|[Hnil Hz]]; [left; exact Hlt|].
  right. rewrite Hnil. split; [reflexivity|exact Hz].
Qed.

Lemma hand_ok_shrink (fuel : nat) :
  forall p : CLOCKPolicy.t, hand_ok p -> hand_ok (shrink fuel p).
Proof.
  induction fuel as [|fuel IH]; intros p Hok; simpl; [exact Hok|].
  destruct (_ >? _); [|exact Hok]. apply IH. clear IH Hok.
  unfold hand_ok. cbn [clock_hand_vec_ hand_pos_].
  set (vec := clock_hand_vec_ p). set (hand := hand_pos_ p).
  set (hand1 := if (length vec <=? hand)%nat then 0%nat else hand).
  destruct vec as [|e0 rest] eqn:Evec.
  { right. subst hand1. simpl. split; reflexivity. }
  assert (hand1 < length (e0 :: rest))%nat as Hh1.
  { subst hand1. destruct (Nat.leb_spec (length (e0 :: rest)) hand); simpl in *; lia. }
  assert (S (length (delete hand1 (e0 :: rest))) = length (e0 :: rest)) as Hlen.
  { rewrite length_delete by (apply lookup_lt_is_Some; exact Hh1). simpl. lia. }
  destruct (Nat.leb_spec (length (delete hand1 (e0 :: rest))) hand1) as [Hle|Hgt].
  - case_bool_decide as Hnil; cbn [andb negb].
    + right. split; [exact Hnil|]. rewrite Hnil in Hlen. simpl in *. lia.
    + left. destruct (delete hand1 (e0 :: rest)); [contradiction|simpl; lia].
  - cbn [andb]. left. exact Hgt.
Qed.

Lemma hand_ok_on_page_allocated (v : Z) (p : CLOCKPolicy.t) :
  hand_ok p -> hand_ok (on_page_allocated v p).
Proof.
  intros Hok. unfold on_page_allocated. cbv zeta. apply hand_ok_shrink.
  unfold hand_ok in *. cbn [clock_hand_vec_ hand_pos_]. rewrite length_app. simpl.
  left. destruct Hok as [Hlt|[_ Hz]]; lia.
Qed.

Lemma hand_ok_on_page_freed (v : Z) (p : CLOCKPolicy.t) :
  hand_ok p -> hand_ok (on_page_freed v p).
Proof.
  intros Hok. unfold on_page_freed.
  destruct (index_of v (clock_hand_vec_ p)) as [i|] eqn:Ei; [|exact Hok].
  unfold index_of in Ei.
  destruct (list_find _ (clock_hand_vec_ p)) as [[k e]|] eqn:Ef; [|discriminate].
  simpl in Ei. injection Ei as ->.
  apply list_find_Some in Ef as (Hk & _ & _).
  pose proof (lookup_lt_Some _ _ _ Hk) as Hlt.
  assert (S (length (delete i (clock_hand_vec_ p))) = length (clock_hand_vec_ p)) as Hlen.
  { rewrite length_delete by (apply lookup_lt_is_Some; exact Hlt). lia. }
  unfold hand_ok in *. cbn [clock_hand_vec_ hand_pos_].
  destruct Hok as [Hh|[Hnil _]]; [|rewrite Hnil in Hlt; simpl in Hlt; lia].
  destruct (Nat.leb_spec (length (delete i (clock_hand_vec_ p))) (hand_pos_ p))
    as [Hle|Hgt].
  - case_bool_decide as Hn; cbn [andb negb].
    + right. split; [exact Hn|]. rewrite Hn in Hlen. simpl in Hlen. lia.
    + left. destruct (delete i (clock_hand_vec_ p)); [contradiction|simpl; lia].
  - cbn [andb]. left. exact Hgt.
Qed.

End ClockPool.

(** X18.  With the hand in range, CLOCK [select_victim] has a result:
    the page returned is a page of the pool, the pool loses exactly one
    entry, and the pages that remain were all in the pool, in the same
    order. *)
Theorem clock_select_victim_takes_one (p : CLOCKPolicy.t) :
  (CLOCKPolicy.hand_pos_ p < length (CLOCKPolicy.clock_hand_vec_ p))%nat ->
  exists v p',
    CLOCKPolicy.select_victim p = Some (v, p') /\
    v ∈ pool_pages (CLOCKPolicy.clock_hand_vec_ p) /\
    S (length (CLOCKPolicy.clock_hand_vec_ p')) =
      length (CLOCKPolicy.clock_hand_vec_ p) /\
    pool_pages (CLOCKPolicy.clock_hand_vec_ p')
      `sublist_of` pool_pages (CLOCKPolicy.clock_hand_vec_ p).
Proof.
  intros Hh. destruct (sweep_in_range_returns p Hh) as [[v p'] Hs].
  exists v, p'. split; [exact Hs|].
  unfold CLOCKPolicy.select_victim in Hs.
  destruct (CLOCKPolicy.clock_hand_vec_ p) as [|e0 rest] eqn:E;
    [simpl in Hh; lia|].
  rewrite <- E in *.
  destruct (sweep_result _ _ _ _ Hs) as (H1 & H2 & H3 & _). auto.
Qed.

Lemma clock_select_victim_takes_one_witness :
  exists v p',
    CLOCKPolicy.select_victim
      (CLOCKPolicy.on_page_allocated 8 (CLOCKPolicy.on_page_allocated 7
         (CLOCKPolicy.create 100))) = Some (v, p') /\
    length (CLOCKPolicy.clock_hand_vec_ p') = 1%nat.
Proof.
  destruct (clock_select_victim_takes_one
              (CLOCKPolicy.on_page_allocated 8 (CLOCKPolicy.on_page_allocated 7
                 (CLOCKPolicy.create 100))))
    as (v & p' & Hs & _ & Hlen & _); [vm_compute; lia|].
  exists v, p'. split; [exact Hs|].
  injection Hlen as Hlen. exact Hlen.
Defined.

(** X19.  [on_page_access], [on_page_allocated] and [on_page_freed]
    keep the clock hand inside the pool (or at 0 on an empty pool), as
    [reset] and the constructor leave it; [select_victim] is then
    defined on every pool that is not empty.  The hand can leave the pool
    only through [select_victim] itself. *)
Theorem clock_hand_stays_in_pool (v : Z) (p : CLOCKPolicy.t) :
  hand_ok p ->
  hand_ok (CLOCKPolicy.on_page_access v p) /\
  hand_ok (CLOCKPolicy.on_page_allocated v p) /\
  hand_ok (CLOCKPolicy.on_page_freed v p) /\
  hand_ok (CLOCKPolicy.reset p) /\
  is_Some (CLOCKPolicy.select_victim p).
Proof.
  intros Hok.
  split; [apply hand_ok_on_page_access, Hok|].
  split; [apply hand_ok_on_page_allocated, Hok|].
  split; [apply hand_ok_on_page_freed, Hok|].
  split; [right; split; reflexivity|].
  destruct Hok as [Hlt|[Hnil _]].
  - apply sweep_in_range_returns, Hlt.
  - unfold CLOCKPolicy.select_victim. rewrite Hnil. eexists. reflexivity.
Qed.

Lemma clock_hand_stays_in_pool_witness :
  hand_ok (CLOCKPolicy.on_page_freed 7
             (CLOCKPolicy.on_page_allocated 8
                (CLOCKPolicy.on_page_allocated 7 (CLOCKPolicy.create 100)))).
Proof.
  apply clock_hand_stays_in_pool.
  apply clock_hand_stays_in_pool.
  apply clock_hand_stays_in_pool.
  right. split; reflexivity.
Defined.

(** * The address space under the fault, mapping and access paths *)

Section AddressSpace.

Context `{SetIteration}.

Import VMM.

(** What the bookkeeping of [allocate] and [free] consists of: the
    configuration, the next VPN, the base addresses handed out, and
    whether the manager is initialized. *)
Definition same_bases (s0 s : VMM.t) : Prop :=
  config_ s = config_ s0 /\ next_vpn_ s = next_vpn_ s0 /\
  vaddr_to_vpn_map_ s = vaddr_to_vpn_map_ s0 /\
  initialized_ s = initialized_ s0.

(** The same pages have an entry, and the bookkeeping is the same. *)
Definition same_address_space (s0 s : VMM.t) : Prop :=
  dom (page_table_ s) = dom (page_table_ s0) /\ same_bases s0 s.

Lemma same_address_space_refl (s : VMM.t) : same_address_space s s.
Proof. repeat split. Qed.

Lemma same_address_space_stable (s0 : VMM.t) : stable (same_address_space s0).
Proof.
  constructor; unfold same_address_space, same_bases; intros; vmm_proj;
    try assumption; rewrite dom_alter_L; assumption.
Qed.

Lemma run_op_same_address_space (s0 : VMM.t) (op : Op) (s s' : VMM.t) :
  (forall bytes prefetch, op <> Allocate bytes prefetch) ->
  (forall vaddr, op <> Free vaddr) ->
  run_op op s = Some s' ->
  same_address_space s0 s -> same_address_space s0 s'.
Proof.
  intros Hna Hnf Hr Hs. pose proof (same_address_space_stable s0) as Hst.
  destruct op; cbn [run_op] in Hr.
  - exfalso. exact (Hna bytes prefetch_to_gpu0 eq_refl).
  - exfalso. exact (Hnf vaddr eq_refl).
  - exact (stable_map_to_cpu _ Hst _ _ _ Hr Hs).
  - exact (stable_map_to_gpu _ Hst _ _ _ Hr Hs).
  - exact (stable_map_to_gpu _ Hst _ _ _ Hr Hs).
  - exact (stable_touch_page _ Hst _ _ _ _ Hr Hs).
  - exact (stable_read_from_vaddr _ Hst _ _ _ _ Hr Hs).
  - exact (stable_write_to_vaddr _ Hst _ _ _ _ Hr Hs).
  - exact (stable_resolve_page_fault _ Hst _ _ _ _ Hr Hs).
  - exact (stable_evict _ Hst _ _ Hr Hs).
  - injection Hr as <-. exact Hs.
Qed.

(** The result of [fault_to_gpu]: the last two statements of the block. *)
Lemma fault_to_gpu_shape (v : Z) (s s' : VMM.t) :
  fault_to_gpu v s = Some s' ->
  exists s4,
    page_table_ s' = alter (PTE.set_resident_on_gpu true) v (page_table_ s4) /\
    gpu_resident_pages_ s' = {[v]} ∪ gpu_resident_pages_ s4.
Proof.
  unfold fault_to_gpu. intros Hf.
  match type of Hf with
  | match ?slot with _ => _ end = _ => destruct slot as [s3|]
  end; [|discriminate].
  injection Hf as <-.
  exists (if resident_on_cpu (deref s3 v) then counted_cpu_to_gpu v s3 else s3).
  split; reflexivity.
Qed.

Lemma evict_defined_lru (q : LRUPolicy.t) (s : VMM.t) :
  replacement_policy_ s = PolicyLRU q -> is_Some (evict_page_from_gpu s).
Proof.
  intros Hq. unfold evict_page_from_gpu.
  case_bool_decide; [eexists; reflexivity|].
  rewrite Hq. cbn [Policy.select_victim].
  destruct (LRUPolicy.select_victim q) as [sel q1]. cbv zeta.
  destruct (_ =? 0); [eexists; reflexivity|].
  destruct (PageTable.lookup_entry _ _); eexists; reflexivity.
Qed.

Lemma fault_to_gpu_defined_lru (q : LRUPolicy.t) (v : Z) (s : VMM.t) :
  replacement_policy_ s = PolicyLRU q -> is_Some (fault_to_gpu v s).
Proof.
  intros Hq. unfold fault_to_gpu.
  destruct (gpu_address (deref s v) =? 0); [|eexists; reflexivity].
  destruct (gpu_address (deref (assign_gpu_page v s) v) =? 0);
    [|eexists; reflexivity].
  destruct (evict_defined_lru q (assign_gpu_page v s)) as [s2 ->];
    [|eexists; reflexivity].
  unfold assign_gpu_page.
  destruct (PageAllocator.allocate_gpu_page (allocator_ s)). exact Hq.
Qed.

End AddressSpace.

(** X20.  No operation other than [allocate] and [free] creates or
    erases a page table entry, hands out or forgets a base address, moves
    the next VPN, or changes the configuration: over any sequence of such
    operations the set of pages that have an entry and this bookkeeping
    stay as they were.  In particular a fault on a page without an entry
    does not create one. *)
Theorem fault_paths_keep_address_space `{SetIteration}
    (ops : list Op) (s s' : VMM.t) :
  Forall (fun op => (forall bytes prefetch, op <> Allocate bytes prefetch) /\
                    (forall vaddr, op <> Free vaddr)) ops ->
  run ops s = Some s' ->
  same_address_space s s'.
Proof.
  intros Hall. generalize (same_address_space_refl s).
  generalize s at 2 3 as s1.
  induction Hall as [|op ops [Hna Hnf] Hall IH]; intros s1 Hs Hr; cbn [run] in Hr.
  - injection Hr as <-. exact Hs.
  - destruct (run_op op s1) as [s2|] eqn:E; [|discriminate].
    apply (IH s2); [|exact Hr].
    exact (run_op_same_address_space s op s1 s2 Hna Hnf E Hs).
Qed.

Lemma fault_paths_keep_address_space_witness :
  same_address_space two_allocations
    (default two_allocations
       (run [TouchPage 40960 true; MapToCpu 4096; EvictPageFromGpu; MapToGpu 0;
             ResolvePageFault 7 true; WriteToVaddr 4096 1; ResetCounters]
          two_allocations)).
Proof.
  apply (fault_paths_keep_address_space
           [TouchPage 40960 true; MapToCpu 4096; EvictPageFromGpu; MapToGpu 0;
            ResolvePageFault 7 true; WriteToVaddr 4096 1; ResetCounters]).
  - repeat constructor; intros; discriminate.
  - vm_compute. reflexivity.
Defined.

(** X21.  [map_to_gpu] on an initialized manager, for a page that has
    an entry: with the LRU policy the call has a result; whenever it has
    one, the entry is device resident afterwards, the page is in the
    ledger if the call had to fault it in, and a second call changes
    nothing. *)
Theorem map_to_gpu_makes_device_resident `{SetIteration}
    (vaddr : Z) (s : VMM.t) (e : PageTableEntry) :
  VMM.initialized_ s = true ->
  let vpn := vaddr_to_vpn vaddr (VMM.page_size (VMM.config_ s)) in
  VMM.page_table_ s !! vpn = Some e ->
  (forall q, VMM.replacement_policy_ s = PolicyLRU q ->
     is_Some (VMM.map_to_gpu vaddr s)) /\
  (forall s',
     VMM.map_to_gpu vaddr s = Some s' ->
     (exists e', VMM.page_table_ s' !! vpn = Some e' /\ resident_on_gpu e' = true) /\
     (resident_on_gpu e = false -> vpn ∈ VMM.gpu_resident_pages_ s') /\
     VMM.map_to_gpu vaddr s' = Some s').
Proof.
  intros Hinit vpn He. split.
  - intros q Hq. unfold VMM.map_to_gpu. rewrite Hinit. cbn [negb]. cbv zeta.
    fold vpn. unfold PageTable.lookup_entry. rewrite He.
    destruct (negb (resident_on_gpu e)); [|eexists; reflexivity].
    exact (fault_to_gpu_defined_lru q vpn s Hq).
  - intros s' Hm.
    destruct (stable_map_to_gpu _ (same_address_space_stable s) _ _ _ Hm
                (same_address_space_refl s)) as (Hdom & Hcfg & _ & _ & Hini).
    assert (forall e', VMM.page_table_ s' !! vpn = Some e' ->
                       resident_on_gpu e' = true ->
                       VMM.map_to_gpu vaddr s' = Some s') as Hagain.
    { intros e' He' Hres. unfold VMM.map_to_gpu.
      rewrite Hini, Hinit, Hcfg. cbn [negb]. cbv zeta. fold vpn.
      unfold PageTable.lookup_entry. rewrite He', Hres. reflexivity. }
    unfold VMM.map_to_gpu in Hm. rewrite Hinit in Hm. cbn [negb] in Hm.
    cbv zeta in Hm. fold vpn in Hm. unfold PageTable.lookup_entry in Hm.
    rewrite He in Hm.
    destruct (resident_on_gpu e) eqn:Hres; cbn [negb] in Hm.
    + injection Hm as <-. split; [exists e; auto|]. split; [discriminate|].
      exact (Hagain e He Hres).
    + destruct (fault_to_gpu_shape _ _ _ Hm) as (s4 & Hpt & Hled).
      assert (is_Some (VMM.page_table_ s' !! vpn)) as [e' He'].
      { apply elem_of_dom. rewrite Hdom. apply elem_of_dom. eauto. }
      assert (resident_on_gpu e' = true) as Hres'.
      { rewrite Hpt, lookup_alter, decide_True in He' by reflexivity.
        destruct (VMM.page_table_ s4 !! vpn); [|discriminate].
        injection He' as <-. reflexivity. }
      split; [exists e'; auto|]. split.
      * intros _. rewrite Hled. apply elem_of_union_l, elem_of_singleton.
        reflexivity.
      * exact (Hagain e' He' Hres').
Qed.

Lemma map_to_gpu_makes_device_resident_witness :
  exists e',
    VMM.page_table_ page_zero_on_device !! 0 = Some e' /\ resident_on_gpu e' = true.
Proof.
  destruct (map_to_gpu_makes_device_resident 0
              (VMM.allocate 4096 false nothing_allocated).2
              (mkPTE true false false false true 65536 0 102 1 0))
    as [_ Hs]; [vm_compute; reflexivity | vm_compute; reflexivity |].
  destruct (Hs page_zero_on_device) as [He _]; [vm_compute; reflexivity|].
  exact He.
Defined.

(** X22.  [map_to_cpu] on an initialized manager, for a page that has
    an entry, always has a result; the entry is host resident afterwards
    and a second call changes nothing. *)
Theorem map_to_cpu_makes_host_resident `{SetIteration}
    (vaddr : Z) (s : VMM.t) (e : PageTableEntry) :
  VMM.initialized_ s = true ->
  let vpn := vaddr_to_vpn vaddr (VMM.page_size (VMM.config_ s)) in
  VMM.page_table_ s !! vpn = Some e ->
  exists s',
    VMM.map_to_cpu vaddr s = Some s' /\
    (exists e', VMM.page_table_ s' !! vpn = Some e' /\ resident_on_cpu e' = true) /\
    VMM.map_to_cpu vaddr s' = Some s'.
Proof.
  intros Hinit vpn He.
  assert (exists s', VMM.map_to_cpu vaddr s = Some s' /\
                     (resident_on_cpu e = true /\ s' = s \/
                      s' = VMM.fault_to_cpu vpn s)) as (s' & Hm & Hcase).
  { unfold VMM.map_to_cpu, VMM.resolve_page_fault. rewrite Hinit. cbn [negb].
    cbv zeta. fold vpn. unfold PageTable.lookup_entry. rewrite He.
    destruct (resident_on_cpu e); cbn [negb]; eexists; (split; [reflexivity|]);
      [left; split; reflexivity|right; reflexivity]. }
  exists s'. split; [exact Hm|].
  destruct (stable_map_to_cpu _ (same_address_space_stable s) _ _ _ Hm
              (same_address_space_refl s)) as (Hdom & Hcfg & _ & _ & Hini).
  assert (exists e', VMM.page_table_ s' !! vpn = Some e' /\
                     resident_on_cpu e' = true) as (e' & He' & Hres').
  { destruct Hcase as [[Hres ->]| ->]; [exists e; auto|].
    assert (is_Some (VMM.page_table_ (VMM.fault_to_cpu vpn s) !! vpn)) as [e' He'].
    { apply elem_of_dom. rewrite Hdom. apply elem_of_dom. eauto. }
    exists e'. split; [exact He'|].
    unfold VMM.fault_to_cpu in He'. cbv zeta in He'. vmm_proj.
    rewrite lookup_alter, decide_True in He' by reflexivity.
    match type of He' with
    | _ <$> ?o = _ => destruct o; [|discriminate]
    end.
    injection He' as <-. reflexivity. }
  split; [exists e'; auto|].
  unfold VMM.map_to_cpu. rewrite Hini, Hinit, Hcfg. cbn [negb]. cbv zeta.
  fold vpn. unfold PageTable.lookup_entry. rewrite He', Hres'. reflexivity.
Qed.

Lemma map_to_cpu_makes_host_resident_witness :
  exists s',
    VMM.map_to_cpu 0 (VMM.allocate 4096 false nothing_allocated).2 = Some s' /\
    VMM.map_to_cpu 0 s' = Some s'.
Proof.
  destruct (map_to_cpu_makes_host_resident 0
              (VMM.allocate 4096 false nothing_allocated).2
              (mkPTE true false false false true 65536 0 102 1 0))
    as (s' & Hm & _ & Hagain); [vm_compute; reflexivity | vm_compute; reflexivity |].
  exists s'. split; [exact Hm|exact Hagain].
Defined.

(** * Bookkeeping of allocate and free *)

Section Bookkeeping.

Import VMM.

(** The release loop of [free] changes the allocator, the ledger, the
    policy and the TLB; nothing else. *)
Lemma free_pages_frame (n : nat) :
  forall (i vs : Z) (s : VMM.t),
    same_bases s (free_pages n i vs s) /\
    page_table_ (free_pages n i vs s) = page_table_ s.
Proof.
  induction n as [|n IH]; intros i vs s; cbn [free_pages];
    [repeat split|].
  cbv zeta.
  match goal with
  | |- context [free_pages n ?i' vs ?st] =>
      destruct (IH i' vs st) as ((H1 & H2 & H3 & H4) & H5)
  end.
  unfold same_bases. rewrite H1, H2, H3, H4, H5. repeat split.
Qed.

Lemma free_pages_ledger (n : nat) :
  forall (i vs : Z) (s : VMM.t) (x : Z),
    x ∈ gpu_resident_pages_ (free_pages n i vs s) <->
    x ∈ gpu_resident_pages_ s /\ ~ in_range n i vs x.
Proof.
  induction n as [|n IH]; intros i vs s x; cbn [free_pages in_range];
    [tauto|].
  cbv zeta. rewrite IH. vmm_proj.
  rewrite elem_of_difference, elem_of_singleton. tauto.
Qed.

Lemma deallocate_vpn_range_from_none (n : nat) :
  forall (i vs : Z) (pt : PageTable.t) (x : Z),
    pt !! x = None ->
    PageTable.deallocate_vpn_range_from n i vs pt !! x = None.
Proof.
  induction n as [|n IH]; intros i vs pt x Hx; simpl; [exact Hx|].
  apply IH.
  destruct (decide (x = wrap64 (vs + i))) as [->|Hne];
    [apply lookup_delete_eq|].
  rewrite lookup_delete_ne by (intros Heq; apply Hne; symmetry; exact Heq).
  exact Hx.
Qed.

Lemma deallocate_vpn_range_from_inside (n : nat) :
  forall (i vs : Z) (pt : PageTable.t) (x : Z),
    in_range n i vs x ->
    PageTable.deallocate_vpn_range_from n i vs pt !! x = None.
Proof.
  induction n as [|n IH]; intros i vs pt x Hx; simpl in *; [contradiction|].
  destruct Hx as [->|Hx]; [|apply IH, Hx].
  apply deallocate_vpn_range_from_none, lookup_delete_eq.
Qed.

(** The host loop of [allocate] leaves the bookkeeping alone. *)
Lemma allocate_cpu_pages_bases (n : nat) :
  forall (i vs np : Z) (pages : list Z) (s : VMM.t),
    same_bases s (allocate_cpu_pages n i vs np pages s).2.
Proof.
  induction n as [|n IH]; intros i vs np pages s; cbn [allocate_cpu_pages].
  - repeat split.
  - destruct (PageAllocator.allocate_cpu_page (allocator_ s)) as [cpu_page a].
    destruct (cpu_page =? 0); [repeat split|].
    vmm_proj.
    destruct (PageTable.set_cpu_resident _ _ _ _) as [pt2 c2].
    destruct (PageTable.update_access_time _ _ _) as [pt3 c3].
    match goal with
    | |- context [allocate_cpu_pages n ?i' vs np ?pg ?st] =>
        destruct (IH i' vs np pg st) as (H1 & H2 & H3 & H4)
    end.
    cbv zeta. unfold same_bases. rewrite H1, H2, H3, H4. repeat split.
Qed.

(** So does the prefetch loop. *)
Lemma prefetch_pages_bases (n : nat) :
  forall (i vs : Z) (pages : list Z) (s : VMM.t),
    same_bases s (prefetch_pages n i vs pages s).
Proof.
  induction n as [|n IH]; intros i vs pages s; cbn [prefetch_pages];
    [repeat split|].
  destruct (PageAllocator.allocate_gpu_page (allocator_ s)) as [gpu_addr a].
  destruct (gpu_addr =? 0).
  - destruct (IH (i + 1) vs pages (with_allocator a s)) as (H1 & H2 & H3 & H4).
    unfold same_bases. rewrite H1, H2, H3, H4. repeat split.
  - vmm_proj.
    destruct (PageTable.set_gpu_resident _ _ _ _) as [pt2 c2].
    destruct (MigrationManager.migrate_cpu_to_gpu _ _ _ _ _ _) as [[mig_time pt3] c3].
    match goal with
    | |- same_bases _ (prefetch_pages n ?i' vs pages ?st) =>
        destruct (IH i' vs pages st) as (H1 & H2 & H3 & H4)
    end.
    unfold same_bases. rewrite H1, H2, H3, H4. repeat split.
Qed.

End Bookkeeping.

(** X23.  [free] of a base address that is recorded, on a manager
    whose TLB has its sets (at least one) and whose allocator has a
    positive page size, with [n] the
    number of pages it settles on (the live entries at or above the start
    VPN, or 1 if there are none): the base address is forgotten; every
    page of the [n] from the start VPN on has no entry and is not in the
    ledger afterwards; every other page keeps its entry and its ledger
    membership; the next VPN is not moved back; and a second [free] of
    the same address changes nothing. *)
Theorem free_unmaps_counted_range (vaddr vpn_start : Z) (s : VMM.t) :
  VMM.initialized_ s = true ->
  sets_fit (VMM.tlb_ s) ->
  0 < PageAllocator.page_size (PageAllocator.config_ (VMM.allocator_ s)) ->
  VMM.vaddr_to_vpn_map_ s !! vaddr = Some vpn_start ->
  let counted := VMM.count_from vpn_start (VMM.page_table_ s) in
  let n := Z.to_nat (if counted =? 0 then 1 else counted) in
  VMM.vaddr_to_vpn_map_ (VMM.free vaddr s) = delete vaddr (VMM.vaddr_to_vpn_map_ s) /\
  (forall x, in_range n 0 vpn_start x ->
     VMM.page_table_ (VMM.free vaddr s) !! x = None /\
     x ∉ VMM.gpu_resident_pages_ (VMM.free vaddr s)) /\
  (forall x, ~ in_range n 0 vpn_start x ->
     VMM.page_table_ (VMM.free vaddr s) !! x = VMM.page_table_ s !! x /\
     (x ∈ VMM.gpu_resident_pages_ (VMM.free vaddr s) <->
      x ∈ VMM.gpu_resident_pages_ s)) /\
  VMM.next_vpn_ (VMM.free vaddr s) = VMM.next_vpn_ s /\
  VMM.free vaddr (VMM.free vaddr s) = VMM.free vaddr s.
Proof.
  intros Hinit _ _ Hmap counted n.
  remember (VMM.free vaddr s) as s' eqn:Hs'.
  pose proof Hs' as Hfree.
  unfold VMM.free in Hs'. rewrite Hinit, Hmap in Hs'. cbn [negb] in Hs'.
  cbv zeta in Hs'. fold counted in Hs'. fold n in Hs'.
  destruct (free_pages_frame n 0 vpn_start s) as ((_ & Hnext & Hbase & Hini) & Hpt).
  pose proof (free_pages_ledger n 0 vpn_start s) as Hled.
  set (s1 := VMM.free_pages n 0 vpn_start s) in *.
  assert (VMM.vaddr_to_vpn_map_ s' = delete vaddr (VMM.vaddr_to_vpn_map_ s)) as Hm'
    by (rewrite Hs'; vmm_proj; rewrite Hbase; reflexivity).
  assert (VMM.page_table_ s' =
            PageTable.deallocate_vpn_range_from n 0 vpn_start (VMM.page_table_ s))
    as Hpt' by (rewrite Hs'; vmm_proj; rewrite Hpt; reflexivity).
  assert (VMM.gpu_resident_pages_ s' = VMM.gpu_resident_pages_ s1) as Hl'
    by (rewrite Hs'; reflexivity).
  split; [exact Hm'|]. split; [|split; [|split]].
  - intros x Hx. split.
    + rewrite Hpt'. apply deallocate_vpn_range_from_inside, Hx.
    + rewrite Hl', Hled. tauto.
  - intros x Hx. split.
    + rewrite Hpt'. apply deallocate_vpn_range_from_outside, Hx.
    + rewrite Hl', Hled. tauto.
  - rewrite Hs'. vmm_proj. exact Hnext.
  - unfold VMM.free.
    assert (VMM.initialized_ s' = true) as -> by (rewrite Hs'; vmm_proj; congruence).
    rewrite Hm', lookup_delete_eq. reflexivity.
Qed.

Lemma free_unmaps_counted_range_witness :
  VMM.vaddr_to_vpn_map_ (VMM.free 4096 two_allocations) =
    delete 4096 (VMM.vaddr_to_vpn_map_ two_allocations) /\
  VMM.free 4096 (VMM.free 4096 two_allocations) = VMM.free 4096 two_allocations.
Proof.
  destruct (free_unmaps_counted_range 4096 1 two_allocations)
    as (Hm & _ & _ & _ & Hagain);
    [vm_compute; reflexivity | split; vm_compute; reflexivity
    | vm_compute; reflexivity | vm_compute; reflexivity |].
  split; [exact Hm|exact Hagain].
Defined.

(** X24.  What [allocate] returns and records on an initialized
    manager.  Either the call succeeds: the pointer is the address of the
    next VPN, that address is recorded with the VPN as its start, and the
    next VPN advances by the number of pages; or the pointer is null and
    neither the recorded addresses nor the next VPN change.  The
    configuration stays in both cases. *)
Theorem allocate_result_and_bookkeeping (bytes : Z) (prefetch : bool) (s : VMM.t) :
  VMM.initialized_ s = true ->
  let ps := VMM.page_size (VMM.config_ s) in
  let num_pages := wrap32 (align_to_page bytes ps / ps) in
  let r := VMM.allocate bytes prefetch s in
  VMM.config_ r.2 = VMM.config_ s /\ VMM.initialized_ r.2 = true /\
  ((r.1 = vpn_to_vaddr (VMM.next_vpn_ s) ps /\
    VMM.vaddr_to_vpn_map_ r.2 =
      <[r.1 := VMM.next_vpn_ s]> (VMM.vaddr_to_vpn_map_ s) /\
    VMM.next_vpn_ r.2 = wrap64 (VMM.next_vpn_ s + num_pages)) \/
   (r.1 = 0 /\
    VMM.vaddr_to_vpn_map_ r.2 = VMM.vaddr_to_vpn_map_ s /\
    VMM.next_vpn_ r.2 = VMM.next_vpn_ s)).
Proof.
  intros Hinit ps num_pages. unfold VMM.allocate. rewrite Hinit. cbn [negb].
  cbv zeta. fold ps. fold num_pages.
  destruct (PageTable.allocate_vpn_range _ _ _) as [[|] pt1].
  2:{ cbn [fst snd]. vmm_proj. split; [reflexivity|]. split; [exact Hinit|].
      right. repeat split. }
  match goal with
  | |- context [VMM.allocate_cpu_pages ?n ?i ?vs ?np ?pg ?st] =>
      pose proof (allocate_cpu_pages_bases n i vs np pg st) as (H1 & H2 & H3 & H4);
      destruct (VMM.allocate_cpu_pages n i vs np pg st) as [[ok pages] s2]
  end.
  cbn [snd] in H1, H2, H3, H4. vmm_proj.
  destruct ok.
  2:{ cbn [fst snd]. split; [exact H1|]. split; [congruence|].
      right. repeat split; assumption. }
  set (s3 := if prefetch
             then VMM.prefetch_pages (Z.to_nat num_pages) 0 (VMM.next_vpn_ s) pages s2
             else s2).
  assert (same_bases s2 s3) as (G1 & G2 & G3 & G4).
  { unfold s3. destruct prefetch; [apply prefetch_pages_bases|repeat split]. }
  cbn [fst snd]. vmm_proj.
  split; [congruence|]. split; [congruence|]. left.
  rewrite G1, H1, G2, H2, G3, H3. fold ps. repeat split.
Qed.

Lemma allocate_result_and_bookkeeping_witness :
  VMM.config_ (VMM.allocate 8192 true nothing_allocated).2 =
    VMM.config_ nothing_allocated /\
  VMM.next_vpn_ (VMM.allocate 8192 true nothing_allocated).2 = 2.
Proof.
  destruct (allocate_result_and_bookkeeping 8192 true nothing_allocated)
    as (Hc & _ & [(_ & _ & Hn)|(_ & _ & Hn)]); [vm_compute; reflexivity| |];
    (split; [exact Hc|]).
  - rewrite Hn. vm_compute. reflexivity.
  - vm_compute. reflexivity.
Defined.

(** X25.  While the next VPN is 0, as [initialize] leaves it,
    [allocate] returns the null pointer whether it succeeds or not: the
    address of VPN 0 is 0.  [read_from_vaddr] and [write_to_vaddr] with
    that pointer return at their null check and change nothing. *)
Theorem first_allocation_returns_null `{SetIteration}
    (bytes : Z) (prefetch : bool) (buffer : Z) (s : VMM.t) :
  VMM.next_vpn_ s = 0 ->
  let r := VMM.allocate bytes prefetch s in
  r.1 = 0 /\
  VMM.read_from_vaddr r.1 buffer r.2 = Some r.2 /\
  VMM.write_to_vaddr r.1 buffer r.2 = Some r.2.
Proof.
  intros Hnext r.
  assert (r.1 = 0) as Hz.
  { unfold r, VMM.allocate.
    destruct (negb (VMM.initialized_ s)); [reflexivity|]. cbv zeta.
    destruct (PageTable.allocate_vpn_range _ _ _) as [[|] pt1]; [|reflexivity].
    destruct (VMM.allocate_cpu_pages _ _ _ _ _ _) as [[[|] pages] s2];
      [|reflexivity].
    cbn [fst]. rewrite Hnext. reflexivity. }
  split; [exact Hz|]. rewrite Hz.
  unfold VMM.read_from_vaddr, VMM.write_to_vaddr.
  change (0 =? 0) with true. rewrite orb_true_r. cbn [orb].
  split; reflexivity.
Qed.

Lemma first_allocation_returns_null_witness :
  (VMM.allocate 4096 false nothing_allocated).1 = 0 /\
  VMM.vaddr_to_vpn_map_ (VMM.allocate 4096 false nothing_allocated).2 !! 0 = Some 0.
Proof.
  destruct (first_allocation_returns_null 4096 false 1 nothing_allocated)
    as (Hz & _ & _); [vm_compute; reflexivity|].
  split; [exact Hz|]. vm_compute. reflexivity.
Defined.

(** * What eviction and the host paths do to the device side *)

Section DeviceSide.

Context `{SetIteration}.

Import VMM.

Lemma with_replacement_policy_id (s : VMM.t) :
  with_replacement_policy (replacement_policy_ s) s = s.
Proof. destruct s. reflexivity. Qed.

(** An update of a page table entry that leaves its device side alone. *)
Definition device_neutral (f : PageTableEntry -> PageTableEntry) : Prop :=
  forall e, resident_on_gpu (f e) = resident_on_gpu e /\
            gpu_address (f e) = gpu_address e.

(** From [s] to [s'] the ledger, the policy, the TLB and the device
    bitmap are the same, and every entry is still there with the device
    flag and the device address it had. *)
Definition device_side_kept (s s' : VMM.t) : Prop :=
  gpu_resident_pages_ s' = gpu_resident_pages_ s /\
  replacement_policy_ s' = replacement_policy_ s /\
  tlb_ s' = tlb_ s /\
  PageAllocator.gpu_page_bitmap_ (allocator_ s') =
    PageAllocator.gpu_page_bitmap_ (allocator_ s) /\
  forall x e,
    page_table_ s !! x = Some e ->
    exists e', page_table_ s' !! x = Some e' /\
               resident_on_gpu e' = resident_on_gpu e /\
               gpu_address e' = gpu_address e.

Lemma device_side_kept_refl (s : VMM.t) : device_side_kept s s.
Proof. repeat split. intros x e He. exists e. auto. Qed.

Lemma device_side_kept_trans (s1 s2 s3 : VMM.t) :
  device_side_kept s1 s2 -> device_side_kept s2 s3 -> device_side_kept s1 s3.
Proof.
  intros (A1 & A2 & A3 & A4 & A5) (B1 & B2 & B3 & B4 & B5).
  split; [congruence|]. split; [congruence|]. split; [congruence|].
  split; [congruence|].
  intros x e He. destruct (A5 x e He) as (e2 & He2 & R2 & G2).
  destruct (B5 x e2 He2) as (e3 & He3 & R3 & G3).
  exists e3. split; [exact He3|]. split; congruence.
Qed.

Lemma device_side_kept_update (v : Z) (f : PageTableEntry -> PageTableEntry)
    (s : VMM.t) :
  device_neutral f -> device_side_kept s (update_entry v f s).
Proof.
  intros Hf. unfold device_side_kept. vmm_proj. repeat split.
  intros x e He. rewrite lookup_alter. case_decide as Hv.
  - subst x. rewrite He. simpl. eexists. split; [reflexivity|]. apply Hf.
  - exists e. auto.
Qed.

Lemma device_side_kept_then_update (v : Z) (f : PageTableEntry -> PageTableEntry)
    (s s1 : VMM.t) :
  device_neutral f -> device_side_kept s s1 ->
  device_side_kept s (update_entry v f s1).
Proof.
  intros Hf Hs1. apply (device_side_kept_trans _ _ _ Hs1).
  apply device_side_kept_update, Hf.
Qed.

Lemma device_side_kept_then_clock (c : Clock) (s s1 : VMM.t) :
  device_side_kept s s1 -> device_side_kept s (with_clock c s1).
Proof.
  intros Hs1. apply (device_side_kept_trans _ _ _ Hs1).
  repeat split. intros x e He. exists e. auto.
Qed.

Lemma device_side_kept_counted_gpu_to_cpu (v : Z) (s : VMM.t) :
  device_side_kept s (counted_gpu_to_cpu v s).
Proof.
  destruct (counted_gpu_to_cpu_shape v s) as (t & c & pt & -> & [->| ->]).
  - repeat split. intros x e He. exists e. auto.
  - apply (device_side_kept_trans _
             (update_entry v
                (fun e => PTE.set_cpu_address (cpu_address (deref s v))
                            (PTE.set_resident_on_cpu true e)) s)).
    + apply device_side_kept_update. intros e. split; reflexivity.
    + repeat split. intros x e He. exists e. auto.
Qed.

Lemma device_side_kept_fault_to_cpu (v : Z) (s : VMM.t) :
  device_side_kept s (fault_to_cpu v s).
Proof.
  unfold fault_to_cpu. cbv zeta.
  match goal with
  | |- device_side_kept s
         (update_entry v _ (if _ then counted_gpu_to_cpu v ?s1 else ?s1)) =>
      assert (device_side_kept s s1) as Hs1
  end.
  { destruct (cpu_address (deref s v) =? 0); [|apply device_side_kept_refl].
    unfold PageAllocator.allocate_cpu_page.
    destruct (PageAllocator.first_free _);
      (apply device_side_kept_then_update; [intros e; split; reflexivity|]);
      repeat split; intros x e He; exists e; auto. }
  apply device_side_kept_then_update; [intros e; split; reflexivity|].
  destruct (resident_on_gpu _); [|exact Hs1].
  eapply device_side_kept_trans; [exact Hs1|].
  apply device_side_kept_counted_gpu_to_cpu.
Qed.

Lemma device_side_kept_resolve_host (v : Z) (s s' : VMM.t) :
  resolve_page_fault v false s = Some s' -> device_side_kept s s'.
Proof.
  unfold resolve_page_fault. intros Hr.
  destruct (PageTable.lookup_entry _ _) as [entry|];
    [|injection Hr as <-; apply device_side_kept_refl].
  destruct (negb (resident_on_cpu entry)); injection Hr as <-;
    [apply device_side_kept_fault_to_cpu|apply device_side_kept_refl].
Qed.

Lemma device_side_kept_map_to_cpu (vaddr : Z) (s s' : VMM.t) :
  map_to_cpu vaddr s = Some s' -> device_side_kept s s'.
Proof.
  unfold map_to_cpu. intros Hm.
  destruct (negb (initialized_ s));
    [injection Hm as <-; apply device_side_kept_refl|].
  destruct (PageTable.lookup_entry _ _) as [entry|];
    [|injection Hm as <-; apply device_side_kept_refl].
  destruct (negb (resident_on_cpu entry));
    [|injection Hm as <-; apply device_side_kept_refl].
  exact (device_side_kept_resolve_host _ _ _ Hm).
Qed.

Lemma device_side_kept_read_from_vaddr (vaddr buffer : Z) (s s' : VMM.t) :
  read_from_vaddr vaddr buffer s = Some s' -> device_side_kept s s'.
Proof.
  unfold read_from_vaddr. intros Hr.
  destruct (_ || _); [injection Hr as <-; apply device_side_kept_refl|].
  cbv zeta in Hr.
  destruct (PageTable.lookup_entry _ _) as [entry|] in Hr;
    [|injection Hr as <-; apply device_side_kept_refl].
  match type of Hr with
  | match ?faulted with _ => _ end = _ => destruct faulted as [s1|] eqn:Ef
  end; [|discriminate].
  assert (device_side_kept s s1) as Hs1.
  { destruct (negb (resident_on_cpu entry));
      [|injection Ef as <-; apply device_side_kept_refl].
    exact (device_side_kept_resolve_host _ _ _ Ef). }
  destruct (PageTable.lookup_entry (page_table_ s1) _) as [e1|];
    [|injection Hr as <-; exact Hs1].
  destruct (cpu_address e1 =? 0); [injection Hr as <-; exact Hs1|].
  cbn [get_timestamp_us] in Hr. injection Hr as <-.
  apply device_side_kept_then_update; [intros e; split; reflexivity|].
  apply device_side_kept_then_clock, Hs1.
Qed.

Lemma device_side_kept_write_to_vaddr (vaddr buffer : Z) (s s' : VMM.t) :
  write_to_vaddr vaddr buffer s = Some s' -> device_side_kept s s'.
Proof.
  unfold write_to_vaddr. intros Hr.
  destruct (_ || _); [injection Hr as <-; apply device_side_kept_refl|].
  cbv zeta in Hr.
  destruct (PageTable.lookup_entry _ _) as [entry|] in Hr;
    [|injection Hr as <-; apply device_side_kept_refl].
  match type of Hr with
  | match ?faulted with _ => _ end = _ => destruct faulted as [s1|] eqn:Ef
  end; [|discriminate].
  assert (device_side_kept s s1) as Hs1.
  { destruct (negb (resident_on_cpu entry));
      [|injection Ef as <-; apply device_side_kept_refl].
    exact (device_side_kept_resolve_host _ _ _ Ef). }
  destruct (PageTable.lookup_entry (page_table_ s1) _) as [e1|];
    [|injection Hr as <-; exact Hs1].
  destruct (cpu_address e1 =? 0); [injection Hr as <-; exact Hs1|].
  cbn [get_timestamp_us] in Hr. injection Hr as <-.
  apply device_side_kept_then_update; [intros e; split; reflexivity|].
  apply device_side_kept_then_clock.
  apply device_side_kept_then_update; [intros e; split; reflexivity|exact Hs1].
Qed.

End DeviceSide.

(** X26.  What one call of [evict_page_from_gpu] changes.  Either
    nothing but the policy; or one page [v], which is not page 0 and has
    an entry, is evicted: [v] leaves the ledger, its entry loses the
    device flag and the device address and is otherwise as it was, no
    other entry changes, and one eviction is counted.  The page need not
    have been in the ledger. *)
Theorem evict_removes_at_most_one_page `{SetIteration} (s s' : VMM.t) :
  VMM.evict_page_from_gpu s = Some s' ->
  (exists rp, s' = VMM.with_replacement_policy rp s) \/
  (exists v e,
     v <> 0 /\ VMM.page_table_ s !! v = Some e /\
     VMM.gpu_resident_pages_ s' = VMM.gpu_resident_pages_ s ∖ {[v]} /\
     VMM.page_table_ s' =
       <[v := PTE.set_resident_on_gpu false (PTE.set_gpu_address 0 e)]>
         (VMM.page_table_ s) /\
     evictions (VMM.perf_counters_ s') =
       wrap64 (evictions (VMM.perf_counters_ s) + 1)).
Proof.
  intros He.
  destruct (decide (VMM.gpu_resident_pages_ s = ∅)) as [Hem|Hne].
  { unfold VMM.evict_page_from_gpu in He.
    rewrite bool_decide_true in He by exact Hem.
    injection He as <-. left. exists (VMM.replacement_policy_ s).
    symmetry. apply with_replacement_policy_id. }
  destruct (Policy.select_victim (VMM.replacement_policy_ s)) as [[sel rp]|] eqn:Hsel.
  2:{ unfold VMM.evict_page_from_gpu in He.
      rewrite bool_decide_false, Hsel in He by exact Hne. discriminate. }
  rewrite (evict_after_selection s sel rp Hne Hsel) in He. cbv zeta in He.
  set (victim := if sel =? 0 then set_begin (VMM.gpu_resident_pages_ s) else sel) in *.
  destruct (Z.eqb_spec victim 0) as [|Hv].
  { injection He as <-. left. exists rp. reflexivity. }
  destruct (VMM.page_table_ s !! victim) as [entry|] eqn:Hent.
  2:{ injection He as <-. left. exists rp. reflexivity. }
  right. exists victim, entry.
  set (s2 := if is_dirty entry && resident_on_cpu entry
             then VMM.counted_gpu_to_cpu victim (VMM.with_replacement_policy rp s)
             else VMM.with_replacement_policy rp s) in He.
  assert (VMM.page_table_ s2 = VMM.page_table_ s /\
          VMM.gpu_resident_pages_ s2 = VMM.gpu_resident_pages_ s /\
          evictions (VMM.perf_counters_ s2) = evictions (VMM.perf_counters_ s))
    as (Hpt & Hl & Hc).
  { unfold s2. destruct (is_dirty entry); [|auto].
    destruct (resident_on_cpu entry) eqn:Hres; [|auto]. cbn [andb].
    split; [apply (counted_gpu_to_cpu_same_table victim
                     (VMM.with_replacement_policy rp s) entry); assumption|].
    destruct (counted_gpu_to_cpu_shape victim (VMM.with_replacement_policy rp s))
      as (t & c & pt & -> & _). split; reflexivity. }
  injection He as <-. vmm_proj. rewrite Hpt, Hl.
  split; [exact Hv|]. split; [exact Hent|]. split; [reflexivity|].
  split; [|cbn [evictions incr_evictions]; rewrite Hc; reflexivity].
  apply map_eq. intros x. rewrite lookup_alter. case_decide as Hx.
  - subst x. rewrite Hent, lookup_insert_eq. reflexivity.
  - rewrite lookup_insert_ne by exact Hx. reflexivity.
Qed.

Lemma evict_removes_at_most_one_page_witness :
  exists e,
    VMM.page_table_ page_one_on_device !! 1 = Some e /\
    VMM.page_table_
        (default page_one_on_device (VMM.evict_page_from_gpu page_one_on_device)) =
      <[1 := PTE.set_resident_on_gpu false (PTE.set_gpu_address 0 e)]>
        (VMM.page_table_ page_one_on_device).
Proof.
  destruct (evict_removes_at_most_one_page page_one_on_device
              (default page_one_on_device
                 (VMM.evict_page_from_gpu page_one_on_device)))
    as [[rp Hrp]|(v & e & Hv & He & Hl & Hpt & _)]; [vm_compute; reflexivity| |].
  - apply (f_equal (fun s => elements (VMM.gpu_resident_pages_ s))) in Hrp.
    vm_compute in Hrp. discriminate.
  - assert (v = 1) as ->.
    { apply (f_equal elements) in Hl.
      destruct (decide (v = 1)) as [Heq|Hne]; [exact Heq|exfalso].
      assert (1 ∈ VMM.gpu_resident_pages_ page_one_on_device ∖ {[v]}) as Hin.
      { apply elem_of_difference. split.
        - apply elem_of_elements. vm_compute. left.
        - rewrite elem_of_singleton. intros Heq. apply Hne. symmetry. exact Heq. }
      apply elem_of_elements in Hin. rewrite <- Hl in Hin.
      vm_compute in Hin. inversion Hin. }
    exists e. split; [exact He|exact Hpt].
Defined.

(** X27.  A host fault never releases the device copy.  Across
    [map_to_cpu], [read_from_vaddr], [write_to_vaddr] and the host branch
    of [resolve_page_fault] the ledger, the replacement policy, the TLB
    and the device bitmap are unchanged, and every entry keeps its device
    flag and device address: a page copied back to the host stays device
    resident with its device slot. *)
Theorem host_paths_keep_device_side `{SetIteration}
    (op : Op) (s s' : VMM.t) :
  match op with
  | MapToCpu _ | ReadFromVaddr _ _ | WriteToVaddr _ _ | ResolvePageFault _ false => True
  | _ => False
  end ->
  run_op op s = Some s' ->
  device_side_kept s s'.
Proof.
  intros Hop Hr. destruct op; try contradiction; cbn [run_op] in Hr.
  - exact (device_side_kept_map_to_cpu _ _ _ Hr).
  - exact (device_side_kept_read_from_vaddr _ _ _ _ Hr).
  - exact (device_side_kept_write_to_vaddr _ _ _ _ Hr).
  - destruct access_gpu; [contradiction|].
    exact (device_side_kept_resolve_host _ _ _ Hr).
Qed.

Lemma host_paths_keep_device_side_witness :
  device_side_kept two_allocations
    (default two_allocations (run_op (WriteToVaddr 4096 1) two_allocations)).
Proof.
  apply (host_paths_keep_device_side (WriteToVaddr 4096 1)).
  - exact I.
  - vm_compute. reflexivity.
Defined.

(** * touch_page on the pages of an allocation *)

Section AllocatedPages.

Context `{SetIteration}.

Import VMM.

(** Page [x] has an entry that is host resident, with a host address. *)
Definition host_backed (pt : PageTable.t) (x : Z) : Prop :=
  exists e, pt !! x = Some e /\ resident_on_cpu e = true /\ cpu_address e <> 0.

Lemma host_backed_alter (f : PageTableEntry -> PageTableEntry) (k x : Z)
    (pt : PageTable.t) :
  host_neutral f -> host_backed pt x -> host_backed (alter f k pt) x.
Proof.
  intros Hf (e & He & Hr & Ha). unfold host_backed.
  destruct (decide (k = x)) as [->|Hk].
  - rewrite lookup_alter, decide_True, He by reflexivity. simpl.
    eexists. split; [reflexivity|]. destruct (Hf e) as [-> ->]. auto.
  - rewrite lookup_alter_ne by exact Hk. exists e. auto.
Qed.

Lemma is_Some_alter (f : PageTableEntry -> PageTableEntry) (k x : Z)
    (pt : PageTable.t) :
  is_Some (pt !! x) -> is_Some (alter f k pt !! x).
Proof.
  intros [e He]. destruct (decide (k = x)) as [->|Hk].
  - rewrite lookup_alter, decide_True, He by reflexivity. simpl. eauto.
  - rewrite lookup_alter_ne by exact Hk. eauto.
Qed.

Lemma set_cpu_resident_host (vpn addr : Z) (pt : PageTable.t) (c : Clock) (x : Z) :
  addr <> 0 -> is_Some (pt !! vpn) ->
  x = vpn \/ host_backed pt x ->
  host_backed (PageTable.set_cpu_resident vpn addr pt c).1 x.
Proof.
  intros Ha [e0 He0] Hx. unfold PageTable.set_cpu_resident. rewrite He0. simpl.
  destruct (decide (vpn = x)) as [->|Hk].
  - unfold host_backed. rewrite lookup_alter, decide_True, He0 by reflexivity.
    simpl. eexists. split; [reflexivity|]. split; [reflexivity|exact Ha].
  - destruct Hx as [->|(e & He & Hr & Hc)]; [contradiction|].
    unfold host_backed. rewrite lookup_alter_ne by exact Hk. exists e. auto.
Qed.

Lemma set_cpu_resident_some (vpn addr : Z) (pt : PageTable.t) (c : Clock) (x : Z) :
  is_Some (pt !! x) -> is_Some ((PageTable.set_cpu_resident vpn addr pt c).1 !! x).
Proof.
  intros Hx. unfold PageTable.set_cpu_resident.
  destruct (pt !! vpn); simpl; [apply is_Some_alter, Hx|exact Hx].
Qed.

Lemma update_access_time_host (vpn : Z) (pt : PageTable.t) (c : Clock) (x : Z) :
  host_backed pt x -> host_backed (PageTable.update_access_time vpn pt c).1 x.
Proof.
  intros Hx. unfold PageTable.update_access_time.
  destruct (pt !! vpn); simpl; [|exact Hx].
  apply host_backed_alter; [intros e; split; reflexivity|exact Hx].
Qed.

Lemma update_access_time_some (vpn : Z) (pt : PageTable.t) (c : Clock) (x : Z) :
  is_Some (pt !! x) -> is_Some ((PageTable.update_access_time vpn pt c).1 !! x).
Proof.
  intros Hx. unfold PageTable.update_access_time.
  destruct (pt !! vpn); simpl; [apply is_Some_alter, Hx|exact Hx].
Qed.

Lemma set_gpu_resident_host (vpn addr : Z) (pt : PageTable.t) (c : Clock) (x : Z) :
  host_backed pt x -> host_backed (PageTable.set_gpu_resident vpn addr pt c).1 x.
Proof.
  intros Hx. unfold PageTable.set_gpu_resident.
  destruct (pt !! vpn); simpl; [|exact Hx].
  apply host_backed_alter; [intros e; split; reflexivity|exact Hx].
Qed.

Lemma migrate_cpu_to_gpu_host (vpn ca ga ps : Z) (pt : PageTable.t) (c : Clock)
    (x : Z) :
  host_backed pt x ->
  host_backed (MigrationManager.migrate_cpu_to_gpu vpn ca ga ps pt c).1.2 x.
Proof.
  intros Hx. unfold MigrationManager.migrate_cpu_to_gpu, PageTable.lookup_entry.
  destruct (ca =? 0); simpl; [exact Hx|].
  destruct (pt !! vpn); simpl; [|exact Hx].
  apply host_backed_alter; [intros e; split; reflexivity|exact Hx].
Qed.

(** A successful [allocate_vpn_range] leaves an entry at every key of
    the range. *)
Lemma allocate_vpn_range_from_entries (n : nat) :
  forall (i vs : Z) (pt pt' : PageTable.t),
    PageTable.allocate_vpn_range_from n i vs pt = (true, pt') ->
    forall x, in_range n i vs x -> is_Some (pt' !! x).
Proof.
  induction n as [|n IH]; intros i vs pt pt' Ha x Hx; simpl in *; [contradiction|].
  destruct (pt !! wrap64 (vs + i)) eqn:E; [discriminate|].
  destruct Hx as [->|Hx]; [|exact (IH _ _ _ _ Ha x Hx)].
  pose proof (allocate_vpn_range_from_keeps n (i + 1) vs
                (<[wrap64 (vs + i) := PTE.set_is_valid true PTE.fresh]> pt)
                (wrap64 (vs + i)) _ (lookup_insert_eq _ _ _)) as Hk.
  rewrite Ha in Hk. eauto.
Qed.

(** When the host loop of [allocate] succeeds, every page it walked is
    host resident with a host address, and so is every page that was. *)
Lemma allocate_cpu_pages_host (n : nat) :
  forall (i vs np : Z) (pages : list Z) (s : VMM.t) (pages' : list Z) (s' : VMM.t),
    allocate_cpu_pages n i vs np pages s = (true, pages', s') ->
    (forall x, in_range n i vs x -> is_Some (page_table_ s !! x)) ->
    forall x, in_range n i vs x \/ host_backed (page_table_ s) x ->
              host_backed (page_table_ s') x.
Proof.
  induction n as [|n IH]; intros i vs np pages s pages' s' Hrun Hsome x Hx.
  - cbn in Hrun. injection Hrun as _ <-. destruct Hx as [[]|Hx]. exact Hx.
  - revert Hrun. cbn [allocate_cpu_pages].
    destruct (PageAllocator.allocate_cpu_page (allocator_ s)) as [cpu_page a].
    destruct (cpu_page =? 0) eqn:Ez; [intros Hrun; discriminate|].
    apply Z.eqb_neq in Ez. vmm_proj.
    assert (is_Some (page_table_ s !! wrap64 (vs + i))) as Hv
      by (apply Hsome; left; reflexivity).
    pose proof (set_cpu_resident_host (wrap64 (vs + i)) cpu_page (page_table_ s)
                  (clock_ s)) as H2.
    pose proof (set_cpu_resident_some (wrap64 (vs + i)) cpu_page (page_table_ s)
                  (clock_ s)) as H2s.
    destruct (PageTable.set_cpu_resident _ _ _ _) as [pt2 c2]. cbn [fst] in H2, H2s.
    pose proof (update_access_time_host (wrap64 (vs + i)) pt2 c2) as H3.
    pose proof (update_access_time_some (wrap64 (vs + i)) pt2 c2) as H3s.
    destruct (PageTable.update_access_time _ _ _) as [pt3 c3]. cbn [fst] in H3, H3s.
    intros Hrun. apply (IH _ _ _ _ _ _ _ Hrun).
    + intros y Hy. vmm_proj. apply H3s, H2s, Hsome. right. exact Hy.
    + vmm_proj. cbn [in_range] in Hx. destruct Hx as [[->|Hx]|Hx].
      * right. apply H3, H2; [exact Ez|exact Hv|]. left. reflexivity.
      * left. exact Hx.
      * right. apply H3, H2; [exact Ez|exact Hv|]. right. exact Hx.
Qed.

Lemma prefetch_pages_host (n : nat) :
  forall (i vs : Z) (pages : list Z) (s : VMM.t) (x : Z),
    host_backed (page_table_ s) x ->
    host_backed (page_table_ (prefetch_pages n i vs pages s)) x.
Proof.
  induction n as [|n IH]; intros i vs pages s x Hx; cbn [prefetch_pages];
    [exact Hx|].
  destruct (PageAllocator.allocate_gpu_page (allocator_ s)) as [gpu_addr a].
  destruct (gpu_addr =? 0); [apply IH; exact Hx|].
  vmm_proj.
  pose proof (set_gpu_resident_host (wrap64 (vs + i)) gpu_addr (page_table_ s)
                (clock_ s) x Hx) as H2.
  destruct (PageTable.set_gpu_resident _ _ _ _) as [pt2 c2]. cbn [fst] in H2.
  match goal with
  | |- context [MigrationManager.migrate_cpu_to_gpu ?v ?ca ?ga ?ps ?pt ?c] =>
      pose proof (migrate_cpu_to_gpu_host v ca ga ps pt c x H2) as H3;
      destruct (MigrationManager.migrate_cpu_to_gpu v ca ga ps pt c)
        as [[mig_time pt3] c3]
  end.
  cbn [fst snd] in H3. apply IH. vmm_proj. exact H3.
Qed.

(** The two outcomes of [allocate].  It fails: the pointer is null and
    the next VPN stays.  Or it goes through, on an initialized manager:
    every page of the range is host resident with a host address. *)
Lemma allocate_outcome (bytes : Z) (prefetch : bool) (s : VMM.t) :
  let ps := page_size (config_ s) in
  let num_pages := wrap32 (align_to_page bytes ps / ps) in
  let r := allocate bytes prefetch s in
  initialized_ r.2 = initialized_ s /\
  ((r.1 = 0 /\ next_vpn_ r.2 = next_vpn_ s) \/
   (forall x, in_range (Z.to_nat num_pages) 0 (next_vpn_ s) x ->
              host_backed (page_table_ r.2) x)).
Proof.
  intros ps num_pages. unfold allocate.
  destruct (negb (initialized_ s)); [split; [reflexivity|left; split; reflexivity]|].
  cbv zeta. fold ps. fold num_pages.
  destruct (PageTable.allocate_vpn_range _ _ _) as [[|] pt1] eqn:Ea.
  2:{ cbn [fst snd]. split; [reflexivity|]. left. split; reflexivity. }
  pose proof (allocate_vpn_range_from_entries _ _ _ _ _ Ea) as Hentries.
  match goal with
  | |- context [allocate_cpu_pages ?n ?i ?vs ?np ?pg ?st] =>
      pose proof (allocate_cpu_pages_bases n i vs np pg st) as (_ & B2 & _ & B4);
      pose proof (allocate_cpu_pages_host n i vs np pg st) as Hhost;
      destruct (allocate_cpu_pages n i vs np pg st) as [[ok pages] s2]
  end.
  cbn [snd] in B2, B4. vmm_proj.
  destruct ok.
  2:{ cbn [fst snd]. split; [exact B4|]. left. split; [reflexivity|exact B2]. }
  specialize (Hhost pages s2 eq_refl Hentries).
  set (s3 := if prefetch
             then prefetch_pages (Z.to_nat num_pages) 0 (next_vpn_ s) pages s2
             else s2).
  assert (same_bases s2 s3) as (_ & _ & _ & G4).
  { unfold s3. destruct prefetch; [apply prefetch_pages_bases|repeat split]. }
  cbn [fst snd]. vmm_proj. split; [congruence|]. right.
  intros x Hx. unfold s3. destruct prefetch.
  - apply prefetch_pages_host, Hhost. left. exact Hx.
  - apply Hhost. left. exact Hx.
Qed.

Lemma run_op_initialized (op : Op) (s s' : VMM.t) :
  run_op op s = Some s' -> initialized_ s' = initialized_ s.
Proof.
  intros Hr.
  destruct op;
    try (assert (same_address_space s s') as (_ & _ & _ & _ & Hi);
         [eapply run_op_same_address_space;
            [| |exact Hr|apply same_address_space_refl]; intros; discriminate
         |exact Hi]);
    cbn [run_op] in Hr; injection Hr as <-.
  - apply allocate_outcome.
  - unfold free. destruct (negb (initialized_ s)); [reflexivity|].
    destruct (vaddr_to_vpn_map_ s !! vaddr); [|reflexivity].
    cbv zeta. vmm_proj. apply free_pages_frame.
Qed.

Lemma run_initialized (ops : list Op) :
  forall s s', run ops s = Some s' -> initialized_ s' = initialized_ s.
Proof.
  induction ops as [|op ops IH]; intros s s' Hr; cbn [run] in Hr.
  - injection Hr as <-. reflexivity.
  - destruct (run_op op s) as [s1|] eqn:E; [|discriminate].
    rewrite (IH _ _ Hr). exact (run_op_initialized _ _ _ E).
Qed.




End AllocatedPages.



